(** * Bibliography maintenance scripts: [bin/add_previews.py] and
      [bin/fetch_scholar.py]

    A shallow embedding of the two scripts and the properties their
    specification states about them.

    Conventions of the embedding.
    - A Python [str] is a [string]; a character is a code point below 256.
      Character classes ([str.isspace], [\s], [\w], [str.lower],
      [str.splitlines]) are the ones CPython uses, restricted to that range.
    - A Python [dict] with string keys is a [gmap string _].
    - A call that may raise returns an [outcome]; [try ... except Exception]
      is [try_except].  Effects (HTTP requests, files written) are threaded
      through a state.
    - The third-party collaborators (the HTTP client, the HTML parser,
      [pathlib], the BibTeX parser and writer) are parameters of the model,
      gathered in a [world] record; [scholarly.fill] is an argument of the
      publication fetch, and the publication service and the clock of
      script 2 are gathered in a [scholar] record.
    - Diagnostic [print] calls, the polite [time.sleep] and the creation of
      directories are not modelled. *)

From Stdlib Require Import ZArith List Bool Ascii Sorting.Sorted Permutation DecimalString Lia.
From stdpp Require Import gmap strings list fin_maps.

Local Open Scope Z_scope.

(** ** Python primitives *)

Module Py.

Definition ord (c : ascii) : Z := Z.of_N (N_of_ascii c).
Definition chr (z : Z) : ascii := ascii_of_N (Z.to_N z).

Definition between (lo hi : Z) (c : ascii) : bool :=
  (lo <=? ord c) && (ord c <=? hi).

(** [str.isspace] on one character, which is also the class [\s] of [re]
    on [str] patterns and the set [str.strip] removes. *)
Definition isspace (c : ascii) : bool :=
  between 9 13 c || between 28 32 c || (ord c =? 133) || (ord c =? 160).

Definition isdigit (c : ascii) : bool := between 48 57 c.
Definition islower_az (c : ascii) : bool := between 97 122 c.
Definition isupper_AZ (c : ascii) : bool := between 65 90 c.

(** The class [\w] of [re] on [str] patterns: alphanumeric or underscore. *)
Definition isword (c : ascii) : bool :=
  isdigit c || islower_az c || isupper_AZ c || (ord c =? 95)
  || (ord c =? 170) || (ord c =? 178) || (ord c =? 179) || (ord c =? 181)
  || (ord c =? 185) || (ord c =? 186) || between 188 190 c
  || between 192 214 c || between 216 246 c || between 248 255 c.

(** [str.lower] on one character. *)
Definition lower_char (c : ascii) : ascii :=
  if isupper_AZ c then chr (ord c + 32)
  else if between 192 222 c && negb (ord c =? 215) then chr (ord c + 32)
  else c.

Fixpoint lower (s : string) : string :=
  match s with
  | EmptyString => EmptyString
  | String c s' => String (lower_char c) (lower s')
  end.

Fixpoint lstrip (s : string) : string :=
  match s with
  | EmptyString => EmptyString
  | String c s' => if isspace c then lstrip s' else s
  end.

Fixpoint rstrip (s : string) : string :=
  match s with
  | EmptyString => EmptyString
  | String c s' =>
      match rstrip s' with
      | EmptyString => if isspace c then EmptyString else String c EmptyString
      | r => String c r
      end
  end.

(** [s.strip()] *)
Definition strip (s : string) : string := rstrip (lstrip s).

Fixpoint filter_chars (keep : ascii -> bool) (s : string) : string :=
  match s with
  | EmptyString => EmptyString
  | String c s' =>
      if keep c then String c (filter_chars keep s') else filter_chars keep s'
  end.

(** [re.sub(cls+, rep, s)] for a one-character class [cls]: every maximal
    run of characters of the class is replaced by [rep]. *)
Fixpoint sub_runs (cls : ascii -> bool) (rep : ascii) (s : string) : string :=
  match s with
  | EmptyString => EmptyString
  | String c s' =>
      if cls c then
        match s' with
        | String c' _ => if cls c' then sub_runs cls rep s'
                         else String rep (sub_runs cls rep s')
        | EmptyString => String rep EmptyString
        end
      else String c (sub_runs cls rep s')
  end.

(** [s[:n]] *)
Fixpoint take_chars (n : nat) (s : string) : string :=
  match n, s with
  | S n', String c s' => String c (take_chars n' s')
  | _, _ => EmptyString
  end.

(** [s.startswith(p)] *)
Definition startswith (p s : string) : bool := String.prefix p s.

(** [sep.join(l)] *)
Fixpoint join (sep : string) (l : list string) : string :=
  match l with
  | [] => ""
  | [x] => x
  | x :: rest => x +:+ sep +:+ join sep rest
  end.

(** Line boundaries of [str.splitlines]. *)
Definition islinebreak (c : ascii) : bool :=
  between 10 13 c || between 28 30 c || (ord c =? 133).

(** [s.splitlines()]: [cur] is the line being read, [after_cr] tells that
    the previous character was a carriage return, whose following line
    feed belongs to the same boundary. *)
Fixpoint splitlines_from (after_cr : bool) (cur : string) (s : string)
  : list string :=
  match s with
  | EmptyString => if String.eqb cur "" then [] else [cur]
  | String c s' =>
      if after_cr && (ord c =? 10) then splitlines_from false cur s'
      else if islinebreak c then cur :: splitlines_from (ord c =? 13) "" s'
      else splitlines_from false (cur +:+ String c "") s'
  end.

Definition splitlines (s : string) : list string := splitlines_from false "" s.

(** Reading a text file opened with the default [newline=None]: [\r\n]
    and a lone [\r] arrive as [\n]. *)
Fixpoint universal_newlines (s : string) : string :=
  match s with
  | EmptyString => EmptyString
  | String c s' =>
      if ord c =? 13 then
        match s' with
        | String c' s'' =>
            if ord c' =? 10 then universal_newlines s'
            else String (chr 10) (universal_newlines s')
        | EmptyString => String (chr 10) EmptyString
        end
      else String c (universal_newlines s')
  end.

(** Python values that a publication year can take. *)
Inductive pyval : Type :=
| PyNone
| PyStr (s : string)
| PyInt (z : Z).

Definition truthy (v : pyval) : bool :=
  match v with
  | PyNone => false
  | PyStr s => negb (String.eqb s "")
  | PyInt z => negb (z =? 0)
  end.

(** [a or b] *)
Definition py_or (a b : pyval) : pyval := if truthy a then a else b.

(** [str(z)] for an integer *)
Definition str_of_Z (z : Z) : string := NilZero.string_of_int (Z.to_int z).

(** [f"{v}"] *)
Definition format (v : pyval) : string :=
  match v with
  | PyNone => "None"
  | PyStr s => s
  | PyInt z => str_of_Z z
  end.

(** The characters [int] skips on either side of the digits: the white
    space of ASCII and, above it, the two characters that are spaces,
    which the conversion first turns into blanks.  The separators U+001C
    to U+001F, which [str.strip] removes, are not among them. *)
Definition isspace_int (c : ascii) : bool :=
  between 9 13 c || (ord c =? 32) || (ord c =? 133) || (ord c =? 160).

Fixpoint lstrip_int (s : string) : string :=
  match s with
  | EmptyString => EmptyString
  | String c s' => if isspace_int c then lstrip_int s' else s
  end.

Fixpoint only_spaces_int (s : string) : bool :=
  match s with
  | EmptyString => true
  | String c s' => isspace_int c && only_spaces_int s'
  end.

(** [sys.int_info.default_max_str_digits]: [int] raises [ValueError] on
    a string with more digits than this. *)
Definition max_str_digits : Z := 4300.

(** What [int] reads after the sign: decimal digits with single
    underscores between digits, then white space up to the end.  [acc]
    is the value read so far, [digits] the number of digits read, and
    [prev_digit] tells whether the previous character was a digit. *)
Fixpoint parse_digits (acc digits : Z) (prev_digit : bool) (s : string)
  : option Z :=
  match s with
  | EmptyString =>
      if prev_digit && (digits <=? max_str_digits) then Some acc else None
  | String c s' =>
      if isdigit c then parse_digits (10 * acc + (ord c - 48)) (digits + 1) true s'
      else if (ord c =? 95) && prev_digit then parse_digits acc digits false s'
      else if prev_digit && only_spaces_int s && (digits <=? max_str_digits)
           then Some acc
           else None
  end.

(** [int(s)] for a string, [None] standing for [ValueError]. *)
Definition int_of_str (s : string) : option Z :=
  match lstrip_int s with
  | String c rest =>
      if ord c =? 45 then Z.opp <$> parse_digits 0 0 false rest
      else if ord c =? 43 then parse_digits 0 0 false rest
      else parse_digits 0 0 false (String c rest)
  | EmptyString => None
  end.

(** [int(v)]; [None] stands for the exception raised. *)
Definition int (v : pyval) : option Z :=
  match v with
  | PyNone => None
  | PyStr s => int_of_str s
  | PyInt z => Some z
  end.

(** [s.rstrip(ch)] for a one-character argument. *)
Fixpoint rstrip_char (ch : ascii) (s : string) : string :=
  match s with
  | EmptyString => EmptyString
  | String c s' =>
      match rstrip_char ch s' with
      | EmptyString => if Ascii.eqb c ch then EmptyString else String c EmptyString
      | r => String c r
      end
  end.

(** [s.endswith(suffix)] *)
Fixpoint endswith (suffix s : string) : bool :=
  String.eqb s suffix
  || match s with
     | EmptyString => false
     | String _ s' => endswith suffix s'
     end.

(** [s[n:]] *)
Fixpoint drop_chars (n : nat) (s : string) : string :=
  match n, s with
  | S n', String _ s' => drop_chars n' s'
  | _, _ => s
  end.

(** [s[i:j]] for [0 <= i] *)
Definition slice (i j : Z) (s : string) : string :=
  take_chars (Z.to_nat (j - i)) (drop_chars (Z.to_nat i) s).

(** [s.rfind(c)] for a one-character argument: the scan keeps the index
    [i] of the character at hand and the last index found. *)
Fixpoint rfind_from (c : ascii) (i last : Z) (s : string) : Z :=
  match s with
  | EmptyString => last
  | String x s' => rfind_from c (i + 1) (if Ascii.eqb x c then i else last) s'
  end.

Definition rfind (c : ascii) (s : string) : Z := rfind_from c 0 (-1) s.

(** The search of [os.path.splitext] for a character other than a dot
    in the file name before the last dot. *)
Fixpoint has_non_dot (s : string) : bool :=
  match s with
  | EmptyString => false
  | String x s' => if Ascii.eqb x "."%char then has_non_dot s' else true
  end.

(** [os.path.splitext(p)[1]] of [posixpath] *)
Definition splitext_ext (p : string) : string :=
  let sepIndex := rfind "/"%char p in
  let dotIndex := rfind "."%char p in
  if sepIndex <? dotIndex then
    if has_non_dot (slice (sepIndex + 1) dotIndex p)
    then drop_chars (Z.to_nat dotIndex) p
    else ""
  else "".

End Py.

(** ** Exceptions and effects *)

Module Eff.

(** The result of a call: a value, or an exception of class [Exception]. *)
Inductive outcome (A : Type) : Type :=
| Ok (a : A)
| Raised.
Arguments Ok {A} a.
Arguments Raised {A}.

(** What a run has done so far: the URLs requested, oldest first, and the
    files on disk. *)
Record state : Type := {
  requests : list string;
  files : gmap string string
}.

Definition M (A : Type) : Type := state -> outcome A * state.

Definition ret {A} (a : A) : M A := fun s => (Ok a, s).
Definition raise {A} : M A := fun s => (Raised, s).
Definition bind {A B} (m : M A) (k : A -> M B) : M B :=
  fun s => match m s with
           | (Ok a, s') => k a s'
           | (Raised, s') => (Raised, s')
           end.
Definition lift {A} (o : outcome A) : M A := fun s => (o, s).

(** [try: body except Exception: handler] *)
Definition try_except {A} (body handler : M A) : M A :=
  fun s => match body s with
           | (Ok a, s') => (Ok a, s')
           | (Raised, s') => handler s'
           end.

End Eff.

Import Eff.

Notation "'let*' x ':=' m 'in' k" := (bind m (fun x => k))
  (at level 10, x name, m at level 100, k at level 200).

Definition NL : string := String "010"%char EmptyString.

(** ** The collaborators *)

(** A parsed HTML document: its tags in document order, each with its name
    and its attribute dictionary. *)
Record tag : Type := {
  tag_name : string;
  attrs : gmap string string
}.

Definition soup : Type := list tag.

(** An HTTP response: [r.status_code], [r.text], and the chunks
    [r.iter_content] yields, after which the stream raises when
    [stream_breaks]. *)
Record response : Type := {
  status_code : Z;
  text : string;
  iter_content : list string;
  stream_breaks : bool
}.

(** A parsed bibliography: [bib_db.entries], a list of field dictionaries,
    and whatever else the parser keeps (comments, preambles). *)
Record bibdatabase : Type := {
  entries : list (gmap string string);
  extras : list string
}.

Record world : Type := {
  (** [requests.get(url, ...)], given the requests already made *)
  requests_get : list string -> string -> outcome response;
  (** [BeautifulSoup(text, "html.parser")] *)
  html_parser : string -> outcome soup;
  (** whether [open(path, mode)] for writing succeeds *)
  can_open : string -> bool;
  (** [dir / name] and [path.name] of [pathlib] *)
  path_join : string -> string -> string;
  path_name : string -> string;
  (** [bibtexparser.loads] and [BibTexWriter.write] *)
  bib_loads : string -> outcome bibdatabase;
  bib_write : bibdatabase -> outcome string
}.

Definition http_get (w : world) (url : string) : M response :=
  fun s => (requests_get w (requests s) url,
            {| requests := requests s ++ [url]; files := files s |}).

(** [soup.find(name, attrs={attr: value})]: the first such tag. *)
Fixpoint find (name attr value : string) (doc : soup) : option tag :=
  match doc with
  | [] => None
  | t :: rest =>
      if String.eqb (tag_name t) name
         && match attrs t !! attr with
            | Some v => String.eqb v value
            | None => false
            end
      then Some t
      else find name attr value rest
  end.

(** Truth value of [d.get(k)] for a dictionary of strings. *)
Definition opt_truthy (o : option string) : bool :=
  match o with
  | Some v => negb (String.eqb v "")
  | None => false
  end.

Definition opt_or (a b : option string) : option string :=
  if opt_truthy a then a else b.

(** The loop
    [for v in values: tag = soup.find("meta", attr=v);
       if tag and tag.get("content"): return tag["content"].strip()],
    [None] meaning that the loop ran to its end. *)
Fixpoint first_content (attr : string) (values : list string) (doc : soup)
  : option string :=
  match values with
  | [] => None
  | v :: rest =>
      match find "meta" attr v doc with
      | Some t =>
          if opt_truthy (attrs t !! "content")
          then Some (Py.strip (default "" (attrs t !! "content")))
          else first_content attr rest doc
      | None => first_content attr rest doc
      end
  end.

(** [open(dest, "wb")] followed by the writes of the non-empty chunks. *)
Definition open_wb (w : world) (dest : string) : M unit :=
  fun s => if can_open w dest
           then (Ok tt, {| requests := requests s; files := <[dest := ""]> (files s) |})
           else (Raised, s).

Definition write_chunk (dest chunk : string) : M unit :=
  fun s => (Ok tt, {| requests := requests s;
                      files := <[dest := default "" (files s !! dest) +:+ chunk]> (files s) |}).

Fixpoint write_chunks (dest : string) (chunks : list string) : M unit :=
  match chunks with
  | [] => ret tt
  | chunk :: rest =>
      let* _ := (if String.eqb chunk "" then ret tt else write_chunk dest chunk) in
      write_chunks dest rest
  end.

(** [needle in s] *)
Fixpoint contains (needle s : string) : bool :=
  String.prefix needle s
  || match s with
     | EmptyString => false
     | String _ s' => contains needle s'
     end.

(** ** Script 1: [bin/add_previews.py] *)

Module AddPreviews.

Definition ASSETS_DIR : string := "assets/img/pub_preview".
Definition BIB_PATH : string := "_bibliography/papers.bib".

Definition discover_thumbnail_url (w : world) (page_url : string)
  : M (option string) :=
  try_except
    (let* r := http_get w page_url in
     if negb (status_code r =? 200) then ret None
     else
       let* doc := lift (html_parser w (text r)) in
       match first_content "property"
               ["og:image"; "twitter:image"; "og:image:url"] doc with
       | Some c => ret (Some c)
       | None =>
           match first_content "name" ["twitter:image"; "image"] doc with
           | Some c => ret (Some c)
           | None => ret None
           end
       end)
    (ret None).

Definition download_image (w : world) (url dest_path : string) : M bool :=
  try_except
    (let* r := http_get w url in
     if negb (status_code r =? 200) then ret false
     else
       let* _ := open_wb w dest_path in
       let* _ := write_chunks dest_path (iter_content r) in
       let* _ := (if stream_breaks r then raise else ret tt) in
       ret true)
    (ret false).

(** The marker test [line.strip() == "---"]. *)
Definition is_marker (line : string) : bool := String.eqb (Py.strip line) "---".

(** [lines and lines[0].strip() == "---"] *)
Definition has_front_matter (lines : list string) : bool :=
  match lines with
  | [] => false
  | l0 :: _ => is_marker l0
  end.

(** The search [for i in range(1, len(lines))] for the closing marker,
    from index [i] on, [ls] being [lines[i:]]. *)
Fixpoint find_closing (i : nat) (ls : list string) : option nat :=
  match ls with
  | [] => None
  | l :: ls' => if is_marker l then Some i else find_closing (S i) ls'
  end.

(** [end_idx] after the search; it starts at 1. *)
Definition end_idx (lines : list string) : nat :=
  default 1%nat (find_closing 1 (tail lines)).

Definition bib_text_of (raw_text : string) : string :=
  let lines := Py.splitlines raw_text in
  if has_front_matter lines
  then Py.join NL (drop (S (end_idx lines)) lines)
  else raw_text.

(** [front + out_text] when there is front matter *)
Definition restore_front (raw_text out_text : string) : string :=
  let lines := Py.splitlines raw_text in
  if has_front_matter lines
  then (Py.join NL (take (S (end_idx lines)) lines) +:+ NL +:+ NL) +:+ out_text
  else out_text.

(** [if url.startswith("10."): url = f"https://doi.org/{url}"] *)
Definition normalize_doi (url : string) : string :=
  if Py.startswith "10." url then "https://doi.org/" +:+ url else url.

Definition choose_ext (thumb_url : string) : string :=
  if contains ".png" (Py.lower thumb_url) then ".png"
  else if contains ".gif" (Py.lower thumb_url) then ".gif"
  else ".jpg".

(** One turn of the loop [for entry in entries], returning the entry as
    the turn leaves it. *)
Definition process_entry (w : world) (entry : gmap string string)
  : M (gmap string string) :=
  let key := default "unknown" (entry !! "ID") in
  let url := opt_or (entry !! "url") (entry !! "doi") in
  if negb (opt_truthy url) then ret entry
  else if opt_truthy (entry !! "preview") then ret entry
  else
    let url := normalize_doi (default "" url) in
    let* thumb_url := discover_thumbnail_url w url in
    if negb (opt_truthy thumb_url) then ret entry
    else
      let thumb_url := default "" thumb_url in
      let ext := choose_ext thumb_url in
      let dest := path_join w ASSETS_DIR (key +:+ ext) in
      let* ok := download_image w thumb_url dest in
      if ok : bool
      then ret (<["preview" := "pub_preview/" +:+ path_name w dest]> entry)
      else ret entry.

Fixpoint for_entries (w : world) (es : list (gmap string string))
  : M (list (gmap string string)) :=
  match es with
  | [] => ret []
  | e :: rest =>
      let* e' := process_entry w e in
      let* rest' := for_entries w rest in
      ret (e' :: rest')
  end.

(** [open(path, "r").read()] and [open(path, "w").write(text)] *)
Definition read_text (path : string) : M string :=
  fun s => match files s !! path with
           | Some content => (Ok (Py.universal_newlines content), s)
           | None => (Raised, s)
           end.

Definition write_text (w : world) (path text : string) : M unit :=
  fun s => if can_open w path
           then (Ok tt, {| requests := requests s; files := <[path := text]> (files s) |})
           else (Raised, s).

Definition main (w : world) : M unit :=
  let* raw_text := read_text BIB_PATH in
  let* bib_db := lift (bib_loads w (bib_text_of raw_text)) in
  let* es := for_entries w (entries bib_db) in
  let* out_text := lift (bib_write w {| entries := es; extras := extras bib_db |}) in
  write_text w BIB_PATH (restore_front raw_text out_text).

End AddPreviews.

(** ** Script 2: [bin/fetch_scholar.py] *)

Module FetchScholar.

(** The class [[^a-z0-9\-\s]] is removed: these characters are kept. *)
Definition slug_char (c : ascii) : bool :=
  Py.islower_az c || Py.isdigit c || (Py.ord c =? 45) || Py.isspace c.

Definition is_hyphen (c : ascii) : bool := Py.ord c =? 45.

Definition slugify (text : string) : string :=
  let text := Py.lower (Py.strip text) in
  let text := Py.filter_chars slug_char text in
  let text := Py.sub_runs Py.isspace "-"%char text in
  let text := Py.sub_runs is_hyphen "-"%char text in
  Py.take_chars 80 text.

Fixpoint drop_while (p : ascii -> bool) (s : string) : string :=
  match s with
  | EmptyString => EmptyString
  | String c s' => if p c then drop_while p s' else s
  end.

Fixpoint take_while (p : ascii -> bool) (s : string) : string :=
  match s with
  | EmptyString => EmptyString
  | String c s' => if p c then String c (take_while p s') else EmptyString
  end.

(** A match of [\w+\{([^,]+)] at the start of [s], the text that follows
    an [@]: its group 1. *)
Definition match_key_at (s : string) : option string :=
  match s with
  | EmptyString => None
  | String c _ =>
      if Py.isword c then
        match drop_while Py.isword s with
        | String b rest =>
            if Py.ord b =? 123 then
              match take_while (fun x => negb (Py.ord x =? 44)) rest with
              | EmptyString => None
              | g => Some g
              end
            else None
        | EmptyString => None
        end
      else None
  end.

(** [re.search(r"@\w+\{([^,]+)", bibtex)]: group 1 of the leftmost match. *)
Fixpoint search_key (s : string) : option string :=
  match s with
  | EmptyString => None
  | String c s' =>
      if Py.ord c =? 64 then
        match match_key_at s' with
        | Some g => Some g
        | None => search_key s'
        end
      else search_key s'
  end.

Definition parse_bibtex_key (bibtex fallback_title : string)
           (fallback_year : Py.pyval) : string :=
  match search_key bibtex with
  | Some g => g
  | None =>
      let base := slugify fallback_title in
      if Py.truthy fallback_year
      then base +:+ "-" +:+ Py.format fallback_year
      else base
  end.

Definition discover_thumbnail_url (w : world) (page_url : string)
  : M (option string) :=
  try_except
    (let* r := http_get w page_url in
     if negb (status_code r =? 200) then ret None
     else
       let* doc := lift (html_parser w (text r)) in
       match first_content "property"
               ["og:image"; "twitter:image"; "og:image:url"] doc with
       | Some c => ret (Some c)
       | None => ret None
       end)
    (ret None).

Definition download_image (w : world) (url dest_path : string) : M bool :=
  try_except
    (let* r := http_get w url in
     if negb (status_code r =? 200) then ret false
     else
       let* _ := open_wb w dest_path in
       let* _ := write_chunks dest_path (iter_content r) in
       let* _ := (if stream_breaks r then raise else ret tt) in
       ret true)
    (ret false).

(** Truth value of [max_pubs], an [int] or [None]. *)
Definition int_truthy (n : option Z) : bool :=
  match n with
  | Some z => negb (z =? 0)
  | None => false
  end.

(** The loop of [fetch_publications] from index [i] on.  [fill] is
    [scholarly.fill]; the result pairs the list [pubs] with the
    publications [fill] was called on, in order. *)
Fixpoint fetch_from {P : Type} (fill : P -> outcome P) (max_pubs : option Z)
         (i : Z) (publications : list P) : list P * list P :=
  match publications with
  | [] => ([], [])
  | pub :: rest =>
      if int_truthy max_pubs && (default 0 max_pubs <=? i) then ([], [])
      else
        let '(pubs, calls) := fetch_from fill max_pubs (i + 1) rest in
        match fill pub with
        | Ok pub_filled => (pub_filled :: pubs, pub :: calls)
        | Raised => (pubs, pub :: calls)
        end
  end.

(** [publications] is [author.get("publications")]. *)
Definition fetch_publications {P : Type} (fill : P -> outcome P)
           (publications : option (list P)) (max_pubs : option Z)
  : list P * list P :=
  fetch_from fill max_pubs 0 (default [] publications).

(** [year] as [main] reads it from [pub_year] and [year], and the triple
    it appends to [bib_entries]. *)
Definition year_of (pub_year year : Py.pyval) : Py.pyval := Py.py_or pub_year year.

Definition bib_entry (year : Py.pyval) (bibtex key : string)
  : Py.pyval * string * string :=
  (Py.py_or year (Py.PyStr "0000"), bibtex, key).

Definition _sort_key (t : Py.pyval * string * string) : Z :=
  match Py.int (fst (fst t)) with
  | Some y => - y
  | None => 0
  end.

(** [list.sort(key=...)]: ascending in the key and stable, which fixes
    the result; written here as an insertion sort. *)
Fixpoint insert_by {A : Type} (key : A -> Z) (x : A) (l : list A) : list A :=
  match l with
  | [] => [x]
  | y :: l' => if key x <=? key y then x :: l else y :: insert_by key x l'
  end.

Fixpoint sort_by {A : Type} (key : A -> Z) (l : list A) : list A :=
  match l with
  | [] => []
  | x :: l' => insert_by key x (sort_by key l')
  end.

Definition sort_entries (bib_entries : list (Py.pyval * string * string))
  : list (Py.pyval * string * string) :=
  sort_by _sort_key bib_entries.

(** *** The rest of the script *)

Definition ASSETS_DIR : string := "assets/img/pub_preview".
Definition BIB_PATH : string := "_bibliography/papers.bib".

(** [path.exists()], [path.read_text(encoding="utf-8")] and
    [path.write_text(text, encoding="utf-8")] *)
Definition path_exists (path : string) : M bool :=
  fun s => (Ok (bool_decide (is_Some (files s !! path))), s).

Definition path_read_text (path : string) : M string :=
  fun s => match files s !! path with
           | Some content => (Ok (Py.universal_newlines content), s)
           | None => (Raised, s)
           end.

Definition path_write_text (w : world) (path text : string) : M unit :=
  fun s => if can_open w path
           then (Ok tt, {| requests := requests s; files := <[path := text]> (files s) |})
           else (Raised, s).

(** [BIB_PATH.with_suffix(f".bak.{ts}.bib")], [ts] being the digits that
    [strftime("%Y%m%d%H%M%S")] gives. *)
Definition backup_path (ts : string) : string :=
  "_bibliography/papers" +:+ ".bak." +:+ ts +:+ ".bib".

Definition backup_bib (w : world) (ts : string) : M (option string) :=
  let* present := path_exists BIB_PATH in
  if present : bool then
    let backup := backup_path ts in
    let* content := path_read_text BIB_PATH in
    let* _ := path_write_text w backup content in
    ret (Some backup)
  else ret None.

(** A publication record of the service: the fields of its [bib]
    sub-dictionary that the script reads, and its page links.  A field
    that is absent is [None] ([PyNone] for the years). *)
Record publication : Type := {
  bib_title : option string;
  bib_pub_year : Py.pyval;
  bib_year : Py.pyval;
  bib_author : option string;
  bib_venue : option string;
  pub_url : option string;
  eprint_url : option string;
  eprint : option string;
  gscholar_souce : option string
}.

(** An author record: [author.get("publications")]. *)
Record author : Type := {
  publications : option (list publication)
}.

(** The publication service and the clock. *)
Record scholar : Type := {
  (** [scholarly.search_author_id(user_id)], [None] for a falsy result *)
  search_author_id : string -> outcome (option author);
  (** [scholarly.fill(author, sections=["publications"])] *)
  fill_author : author -> outcome author;
  (** [scholarly.fill(pub)] *)
  fill_publication : publication -> outcome publication;
  (** [scholarly.bibtex(pub)] *)
  scholarly_bibtex : publication -> outcome string;
  (** [int(time.time())] while the publication at a position of the list
      is processed *)
  time_time : nat -> Z
}.

Definition fetch_author (sch : scholar) (user_id : string) : outcome author :=
  match search_author_id sch user_id with
  | Raised => Raised
  | Ok None => Raised
  | Ok (Some a) => fill_author sch a
  end.

(** The key of the entry built when [scholarly.bibtex] raises:
    [slugify(f"{title}-{year or ''}") or f"key{int(time.time())}"] *)
Definition fallback_key (now : Z) (title : string) (year : Py.pyval) : string :=
  let slug := slugify (title +:+ "-" +:+ Py.format (Py.py_or year (Py.PyStr ""))) in
  if String.eqb slug "" then "key" +:+ Py.str_of_Z now else slug.

(** The [fields] list of that entry. *)
Definition fallback_fields (title : string) (year : Py.pyval) (authors venue : string)
  : list string :=
  (if String.eqb authors "" then [] else ["  author = {" +:+ authors +:+ "}"])
  ++ ["  title = {" +:+ title +:+ "}"]
  ++ (if Py.truthy year then ["  year = {" +:+ Py.format year +:+ "}"] else [])
  ++ (if String.eqb venue "" then [] else ["  journal = {" +:+ venue +:+ "}"]).

Definition fallback_bibtex (now : Z) (title : string) (year : Py.pyval)
           (authors venue : string) : string :=
  "@" +:+ "article" +:+ "{" +:+ fallback_key now title year +:+ "," +:+ NL
  +:+ Py.join ("," +:+ NL) (fallback_fields title year authors venue)
  +:+ NL +:+ "}".

(** [os.path.splitext(thumb_url.split("?")[0])[1] or ".jpg"] *)
Definition thumb_ext (thumb_url : string) : string :=
  let ext := Py.splitext_ext (take_while (fun c => negb (Ascii.eqb c "?"%char)) thumb_url) in
  if String.eqb ext "" then ".jpg" else ext.

(** The optional thumbnail of one publication: the update of
    [preview_map], if any. *)
Definition fetch_thumbnail (w : world) (pub : publication) (key : string)
  : M (option (string * string)) :=
  let page_url :=
    opt_or (opt_or (opt_or (pub_url pub) (eprint_url pub)) (eprint pub))
           (gscholar_souce pub) in
  let* thumb_url :=
    (if opt_truthy page_url
     then discover_thumbnail_url w (default "" page_url)
     else ret None) in
  if opt_truthy thumb_url then
    let thumb_url := default "" thumb_url in
    let ext := thumb_ext thumb_url in
    let dest := path_join w ASSETS_DIR (key +:+ ext) in
    let* ok := download_image w thumb_url dest in
    if ok : bool
    then ret (Some (key, ASSETS_DIR +:+ "/" +:+ path_name w dest))
    else ret None
  else ret None.

(** One turn of the loop [for pub in pubs]: the triple appended to
    [bib_entries] and the update of [preview_map]. *)
Definition process_pub (sch : scholar) (w : world) (thumbnails : bool)
           (position : nat) (pub : publication)
  : M (Py.pyval * string * string * option (string * string)) :=
  let title := default "untitled" (bib_title pub) in
  let year := year_of (bib_pub_year pub) (bib_year pub) in
  let bibtex :=
    match scholarly_bibtex sch pub with
    | Ok b => b
    | Raised =>
        fallback_bibtex (time_time sch position) title year
          (default "" (bib_author pub)) (default "" (bib_venue pub))
    end in
  let key := parse_bibtex_key bibtex title year in
  let* update := (if thumbnails then fetch_thumbnail w pub key else ret None) in
  ret (bib_entry year bibtex key, update).

Fixpoint for_pubs (sch : scholar) (w : world) (thumbnails : bool) (position : nat)
         (pubs : list publication)
         (bib_entries : list (Py.pyval * string * string))
         (preview_map : gmap string string)
  : M (list (Py.pyval * string * string) * gmap string string) :=
  match pubs with
  | [] => ret (bib_entries, preview_map)
  | pub :: rest =>
      let* r := process_pub sch w thumbnails position pub in
      for_pubs sch w thumbnails (S position) rest
        (bib_entries ++ [fst r])
        (match snd r with
         | Some (key, preview_rel) => <[key := preview_rel]> preview_map
         | None => preview_map
         end)
  end.

(** One turn of the loop that builds [final_entries]. *)
Definition final_entry (preview_map : gmap string string) (bibtex key : string) : string :=
  let bibtex :=
    match preview_map !! key with
    | Some preview_rel =>
        if Py.endswith "}" (Py.strip bibtex) then
          let bibtex := Py.rstrip_char "}"%char (Py.rstrip bibtex) in
          let bibtex :=
            if negb (Py.endswith "," (Py.strip bibtex))
            then bibtex +:+ "," +:+ NL else bibtex in
          bibtex +:+ "  preview = {" +:+ preview_rel +:+ "}" +:+ NL +:+ "}" +:+ NL
        else bibtex
    | None => bibtex
    end in
  if negb (Py.endswith (NL +:+ NL) bibtex)
  then Py.rstrip bibtex +:+ NL +:+ NL
  else bibtex.

Definition final_entries (bib_entries : list (Py.pyval * string * string))
           (preview_map : gmap string string) : list string :=
  map (fun t => final_entry preview_map (snd (fst t)) (snd t)) bib_entries.

(** [main], from the backup on; [user], [max_pubs] and [thumbnails] are
    the parsed arguments, [ts] the time stamp of the backup.  The proxy
    set-up, which only prints, is left out. *)
Definition main (sch : scholar) (w : world) (user : string) (max_pubs : option Z)
           (thumbnails : bool) (ts : string) : M unit :=
  let* _ := backup_bib w ts in
  let* a := lift (fetch_author sch user) in
  let pubs := fst (fetch_publications (fill_publication sch) (publications a) max_pubs) in
  let* r := for_pubs sch w thumbnails 0 pubs [] ∅ in
  path_write_text w BIB_PATH
    (Py.join "" (final_entries (sort_entries (fst r)) (snd r))).

End FetchScholar.

(** ** The specification's wording, for comparison with the code *)

Module Spec.

(** The tag kinds of the thumbnail search, in the stated priority order:
    attribute and value. *)
Definition candidates : list (string * string) :=
  [("property", "og:image"); ("property", "twitter:image");
   ("property", "og:image:url"); ("name", "twitter:image"); ("name", "image")].

(** The non-empty [content] of the [meta] tag of one kind, trimmed. *)
Definition content_of (doc : soup) (kind : string * string) : option string :=
  t ← find "meta" (fst kind) (snd kind) doc;
  c ← attrs t !! "content";
  if String.eqb c "" then None else Some (Py.strip c).

(** "Return the first non-empty content attribute found", over all five
    kinds, and over the three [property] kinds alone. *)
Definition priority_search (doc : soup) : option string :=
  head (omap (content_of doc) candidates).

Definition property_search (doc : soup) : option string :=
  head (omap (content_of doc) (take 3 candidates)).

(** "Collapsing runs to a single hyphen", reading left to right:
    [in_run] tells that the previous character belonged to a run. *)
Fixpoint collapse (cls : ascii -> bool) (in_run : bool) (s : string) : string :=
  match s with
  | EmptyString => EmptyString
  | String c s' =>
      if cls c then
        if in_run then collapse cls true s'
        else String "-"%char (collapse cls true s')
      else String c (collapse cls false s')
  end.

(** The key synthesis as worded: lower-case, strip the characters outside
    the class, collapse whitespace runs, collapse hyphen runs, truncate,
    append the year. *)
Definition slug (title : string) : string :=
  Py.take_chars 80
    (collapse FetchScholar.is_hyphen false
       (collapse Py.isspace false
          (Py.filter_chars FetchScholar.slug_char (Py.lower title)))).

Definition synthesized_key (title : string) (year : Py.pyval) : string :=
  if Py.truthy year then slug title +:+ "-" +:+ Py.format year else slug title.

(** "The first line is exactly the delimiter marker." *)
Definition first_line_is_marker (raw_text : string) : bool :=
  match Py.splitlines raw_text with
  | l0 :: _ => String.eqb l0 "---"
  | [] => false
  end.

(** The text of a block of lines, each followed by a newline. *)
Definition block_text (lines : list string) : string :=
  foldr (fun l acc => l +:+ NL +:+ acc) "" lines.

End Spec.

(** ** Data of the examples *)

Definition meta (attr value content : string) : tag :=
  {| tag_name := "meta"; attrs := {[ attr := value; "content" := content ]} |}.

Definition s0 : state := {| requests := []; files := ∅ |}.

Definition page (body : string) : response :=
  {| status_code := 200; text := body; iter_content := [body]; stream_breaks := false |}.

(** The last component of a path, for the example worlds. *)
Fixpoint basename (p : string) : string :=
  match p with
  | EmptyString => EmptyString
  | String _ p' => if contains "/" p then basename p' else p
  end.

(** A small web: every page has the text [html], which parses to [doc];
    images are served with [image_status]; the bibliography parser yields
    the entries [es]. *)
Definition web (html : string) (doc : soup) (image_status : Z)
           (es : list (gmap string string)) : world :=
  {| requests_get := fun _ url =>
       if String.prefix "http://img/" url
       then Ok {| status_code := image_status; text := "";
                  iter_content := ["PNG"; ""; "DATA"]; stream_breaks := false |}
       else Ok (page html);
     html_parser := fun _ => Ok doc;
     can_open := fun _ => true;
     path_join := fun d n => d +:+ "/" +:+ n;
     path_name := basename;
     bib_loads := fun _ => Ok {| entries := es; extras := [] |};
     bib_write := fun db => Ok "@" |}.

(** A network that is down. *)
Definition offline (es : list (gmap string string)) : world :=
  {| requests_get := fun _ _ => Raised;
     html_parser := fun _ => Raised;
     can_open := fun _ => true;
     path_join := fun d n => d +:+ "/" +:+ n;
     path_name := basename;
     bib_loads := fun _ => Ok {| entries := es; extras := [] |};
     bib_write := fun db => Ok "@" |}.

Definition html_both : string :=
  "<meta property='twitter:image' content='http://img/tw.png'><meta property='og:image' content=' http://img/og.png '>".

Definition doc_both : soup :=
  [meta "property" "twitter:image" "http://img/tw.png";
   meta "property" "og:image" " http://img/og.png "].

Definition html_name_only : string := "<meta name='image' content='http://img/n.png'>".

Definition doc_name_only : soup := [meta "name" "image" "http://img/n.png"].

(** The state after one more request. *)
Definition logged (s : state) (url : string) : state :=
  {| requests := requests s ++ [url]; files := files s |}.

(** Every character of [s] satisfies [p]. *)
Fixpoint all_chars (p : ascii -> bool) (s : string) : bool :=
  match s with
  | EmptyString => true
  | String c s' => p c && all_chars p s'
  end.

(** The characters a synthesized slug is made of. *)
Definition key_char (c : ascii) : bool :=
  Py.islower_az c || Py.isdigit c || FetchScholar.is_hyphen c.

(** No two hyphens in a row. *)
Fixpoint no_double_hyphen (s : string) : bool :=
  match s with
  | EmptyString => true
  | String c s' =>
      match s' with
      | String c' _ => negb (FetchScholar.is_hyphen c && FetchScholar.is_hyphen c')
      | EmptyString => true
      end && no_double_hyphen s'
  end.

(** The year an entry is sorted by: the integer its year field denotes,
    zero when it denotes none. *)
Definition year_value (t : Py.pyval * string * string) : Z :=
  default 0 (Py.int (fst (fst t))).

Definition no_linebreak (line : string) : bool :=
  all_chars (fun c => negb (Py.islinebreak c)) line.

(** An entry with an empty [preview] field, and entries for the loop. *)
Definition entry_empty_preview : gmap string string :=
  {[ "ID" := "k"; "url" := "http://p"; "preview" := "" ]}.

Definition entry_with_preview : gmap string string :=
  {[ "ID" := "k1"; "url" := "http://p"; "preview" := "pub_preview/old.png" ]}.

Definition entry_doi : gmap string string :=
  {[ "ID" := "k2"; "doi" := "10.1000/xyz" ]}.

Definition entry_url : gmap string string :=
  {[ "ID" := "k3"; "url" := "http://p" ]}.

Definition CR : string := String "013"%char EmptyString.

(** A state whose disk holds the bibliography file with the given text. *)
Definition disk (file_text : string) : state :=
  {| requests := []; files := {[ AddPreviews.BIB_PATH := file_text ]} |}.

(** A file whose first line is the marker preceded by a space. *)
Definition indented_marker_file : string :=
  Spec.block_text [" ---"; "foo: bar"; "---"] +:+ "@misc{k,}".

(** A file whose metadata block has lines that end in CR LF. *)
Definition crlf_block : string :=
  "---" +:+ CR +:+ NL +:+ "foo: bar" +:+ CR +:+ NL +:+ "---" +:+ CR +:+ NL.

Definition crlf_file : string := crlf_block +:+ "@misc{k,}".

Definition plain_file : string :=
  Spec.block_text ["---"; "foo: bar"; "---"] +:+ "@misc{k,}".




(** Four fetched entries, with the years 2020, none, 2023 and 2019. *)
Definition e2020 : Py.pyval * string * string :=
  FetchScholar.bib_entry (Py.PyInt 2020) "@article{a,}" "a".
Definition e_none : Py.pyval * string * string :=
  FetchScholar.bib_entry Py.PyNone "@article{b,}" "b".
Definition e2023 : Py.pyval * string * string :=
  FetchScholar.bib_entry (Py.PyStr "2023") "@article{c,}" "c".
Definition e2019 : Py.pyval * string * string :=
  FetchScholar.bib_entry (Py.PyInt 2019) "@article{d,}" "d".

(** The bytes of a response body, chunk after chunk. *)
Definition body_of (r : response) : string :=
  foldr String.append "" (iter_content r).

(** A response that serves the chunks [chunks], and breaks after them
    when [breaks]. *)
Definition image (chunks : list string) (breaks : bool) : response :=
  {| status_code := 200; text := ""; iter_content := chunks; stream_breaks := breaks |}.

(** A web with one image, and a disk on which [writable] tells which
    paths can be opened. *)
Definition image_web (r : response) (writable : string -> bool) : world :=
  {| requests_get := fun _ _ => Ok r;
     html_parser := fun _ => Raised;
     can_open := writable;
     path_join := fun d n => d +:+ "/" +:+ n;
     path_name := basename;
     bib_loads := fun _ => Ok {| entries := []; extras := [] |};
     bib_write := fun db => Ok "@" |}.

(** How a turn of the loop of script 1 may leave an entry, [disk_after]
    being the files at some later time: as it was, or with a preview that
    names a file of the asset directory which is on disk. *)
Definition same_or_previewed (w : world) (disk_after : gmap string string)
           (e e' : gmap string string) : Prop :=
  e' = e
  \/ exists thumb_url : string,
       let dest := path_join w AddPreviews.ASSETS_DIR
                     (default "unknown" (e !! "ID") +:+ AddPreviews.choose_ext thumb_url) in
       e' = <["preview" := "pub_preview/" +:+ path_name w dest]> e
       /\ is_Some (disk_after !! dest)
       /\ opt_truthy (e !! "preview") = false.

(** The result of [scholarly.fill] as an option: [None] when it raises. *)
Definition filled {P : Type} (fill : P -> outcome P) (pub : P) : option P :=
  match fill pub with
  | Ok pub_filled => Some pub_filled
  | Raised => None
  end.

(** The publications the fetch looks at under a maximum count: all of
    them when there is no count or the count is zero, the first [n]
    otherwise (none for a negative [n]). *)
Definition within_limit {P : Type} (max_pubs : option Z) (publications : list P) : list P :=
  if FetchScholar.int_truthy max_pubs
  then take (Z.to_nat (default 0 max_pubs)) publications
  else publications.

(** Some character of [s] satisfies [p]. *)
Fixpoint any_char (p : ascii -> bool) (s : string) : bool :=
  match s with
  | EmptyString => false
  | String c s' => p c || any_char p s'
  end.

(** A fill that fails on the publications whose name starts with [x]. *)
Definition fill_unless_x (pub : string) : outcome string :=
  if String.prefix "x" pub then Raised else Ok (pub +:+ " (filled)").

(** [n] closing braces. *)
Fixpoint closing (n : nat) : string :=
  match n with
  | O => EmptyString
  | S k => String "}"%char (closing k)
  end.

(** The triple that the loop of script 2 appends for a publication: the
    year, with the text [0000] in place of a missing one; the citation
    entry, which is the service's export whenever that does not raise;
    the key read from the entry, which is the slug of [title-year] when
    the export raised. *)
Definition entry_of_pub (sch : FetchScholar.scholar) (pub : FetchScholar.publication)
           (t : Py.pyval * string * string) : Prop :=
  let title := default "untitled" (FetchScholar.bib_title pub) in
  let year := Py.py_or (FetchScholar.bib_pub_year pub) (FetchScholar.bib_year pub) in
  fst (fst t) = Py.py_or year (Py.PyStr "0000")
  /\ snd t = FetchScholar.parse_bibtex_key (snd (fst t)) title year
  /\ match FetchScholar.scholarly_bibtex sch pub with
     | Ok b => snd (fst t) = b
     | Raised =>
         snd t = FetchScholar.slugify
                   (title +:+ "-" +:+ Py.format (Py.py_or year (Py.PyStr "")))
     end.

(** A preview recorded by script 2 for [key]: the asset directory, a
    slash, and the name of a file that is on [disk_after], named after
    the key. *)
Definition preview_on_disk (w : world) (disk_after : gmap string string)
           (key preview_rel : string) : Prop :=
  exists thumb_url : string,
    let dest := path_join w FetchScholar.ASSETS_DIR
                  (key +:+ FetchScholar.thumb_ext thumb_url) in
    preview_rel = FetchScholar.ASSETS_DIR +:+ "/" +:+ path_name w dest
    /\ is_Some (disk_after !! dest).

(** A service with one author and two publications, the first of which
    has no citation export. *)
Definition pub_a : FetchScholar.publication :=
  {| FetchScholar.bib_title := Some "Deep Nets";
     FetchScholar.bib_pub_year := Py.PyStr "2020"; FetchScholar.bib_year := Py.PyNone;
     FetchScholar.bib_author := Some "A. Author"; FetchScholar.bib_venue := None;
     FetchScholar.pub_url := Some "http://p"; FetchScholar.eprint_url := None;
     FetchScholar.eprint := None; FetchScholar.gscholar_souce := None |}.

Definition pub_b : FetchScholar.publication :=
  {| FetchScholar.bib_title := Some "Later Work";
     FetchScholar.bib_pub_year := Py.PyInt 2023; FetchScholar.bib_year := Py.PyNone;
     FetchScholar.bib_author := None; FetchScholar.bib_venue := None;
     FetchScholar.pub_url := None; FetchScholar.eprint_url := None;
     FetchScholar.eprint := None; FetchScholar.gscholar_souce := None |}.

Definition service : FetchScholar.scholar :=
  {| FetchScholar.search_author_id := fun user =>
       if String.eqb user "known"
       then Ok (Some {| FetchScholar.publications := Some [pub_a; pub_b] |})
       else Ok None;
     FetchScholar.fill_author := fun a => Ok a;
     FetchScholar.fill_publication := fun p => Ok p;
     FetchScholar.scholarly_bibtex := fun p =>
       if bool_decide (FetchScholar.bib_title p = Some "Later Work")
       then Ok ("@article{later2023," +:+ NL +:+ " title = {Later Work}" +:+ NL +:+ "}")
       else Raised;
     FetchScholar.time_time := fun _ => 1700000000 |}.

(** The characters an extension is made of after its dot. *)
Definition ext_char (c : ascii) : bool :=
  negb (Ascii.eqb c "/"%char) && negb (Ascii.eqb c "?"%char) && negb (Ascii.eqb c "."%char).

(** The first of the four page links of a publication that is present and
    not empty. *)
Definition first_link (pub : FetchScholar.publication) : option string :=
  head (filter (fun url => url <> "")
          (omap id [FetchScholar.pub_url pub; FetchScholar.eprint_url pub;
                    FetchScholar.eprint pub; FetchScholar.gscholar_souce pub])).

(** A publication whose first two links are missing or empty. *)
Definition pub_c : FetchScholar.publication :=
  {| FetchScholar.bib_title := Some "Third";
     FetchScholar.bib_pub_year := Py.PyNone; FetchScholar.bib_year := Py.PyNone;
     FetchScholar.bib_author := None; FetchScholar.bib_venue := None;
     FetchScholar.pub_url := None; FetchScholar.eprint_url := Some "";
     FetchScholar.eprint := Some "http://eprint"; FetchScholar.gscholar_souce := Some "http://g" |}.

(** The same world with another BibTeX parser and writer. *)
Definition with_bibtex (loads : string -> outcome bibdatabase)
           (write : bibdatabase -> outcome string) (w : world) : world :=
  {| requests_get := requests_get w;
     html_parser := html_parser w;
     can_open := can_open w;
     path_join := path_join w;
     path_name := path_name w;
     bib_loads := loads;
     bib_write := write |}.

(** A parser that rejects every text, and a writer that rejects every
    database. *)
Definition rejecting_parser (w : world) : world :=
  with_bibtex (fun _ => Raised) (bib_write w) w.

Definition rejecting_writer (w : world) : world :=
  with_bibtex (bib_loads w) (fun _ => Raised) w.

(** The separators U+001C and U+001F, and an entry whose year is written
    between them. *)
Definition FS : string := String "028"%char EmptyString.
Definition US : string := String "031"%char EmptyString.

Definition e_separators : Py.pyval * string * string :=
  FetchScholar.bib_entry (Py.PyStr (FS +:+ "2021" +:+ US)) "@article{e,}" "e".

(** An entry whose year is written between a no-break space and a
    newline. *)
Definition e_spaces : Py.pyval * string * string :=
  FetchScholar.bib_entry
    (Py.PyStr (String (Py.chr 160) EmptyString +:+ "2_021" +:+ NL))
    "@article{f,}" "f".

(** [ch * n] *)
Fixpoint repeat_char (ch : ascii) (n : nat) : string :=
  match n with
  | O => EmptyString
  | S n' => String ch (repeat_char ch n')
  end.

(** ** Thumbnail discovery *)

Lemma opt_truthy_Some (o : option string) :
  opt_truthy o = true -> exists v, o = Some v /\ v <> "".
Proof.
  destruct o as [v|]; simpl; [|discriminate].
  intros H. exists v. split; [reflexivity|].
  intros ->. discriminate.
Qed.

Lemma opt_truthy_nonempty (v : string) : v <> "" -> opt_truthy (Some v) = true.
Proof.
  intros H. simpl. destruct (String.eqb_spec v ""); [contradiction|reflexivity].
Qed.

Lemma head_omap_cons {A B : Type} (f : A -> option B) (x : A) (l : list A) :
  head (omap f (x :: l))
  = match f x with Some y => Some y | None => head (omap f l) end.
Proof. simpl. destruct (f x); reflexivity. Qed.

(** One turn of the search loop is the content of one tag kind. *)
Lemma first_content_omap (attr : string) (values : list string) (doc : soup) :
  first_content attr values doc
  = head (omap (Spec.content_of doc) (map (pair attr) values)).
Proof.
  induction values as [|v rest IH]; [reflexivity|].
  simpl map. rewrite head_omap_cons, <- IH. simpl first_content.
  unfold Spec.content_of. simpl fst. simpl snd.
  destruct (find "meta" attr v doc) as [t|]; simpl; [|reflexivity].
  destruct (attrs t !! "content") as [c|]; simpl; [|reflexivity].
  destruct (String.eqb c ""); reflexivity.
Qed.

(** The search of script 1 is the five-kind search, that of script 2 the
    three-kind one. *)
Lemma discover_ok_script1 (w : world) (url : string) (s : state) (r : response) (doc : soup) :
  requests_get w (requests s) url = Ok r ->
  status_code r = 200 ->
  html_parser w (text r) = Ok doc ->
  fst (AddPreviews.discover_thumbnail_url w url s) = Ok (Spec.priority_search doc).
Proof.
  intros Hget Hst Hparse.
  unfold AddPreviews.discover_thumbnail_url, try_except, bind, http_get, lift.
  rewrite Hget, Hst, Hparse. cbn [Z.eqb Pos.eqb negb].
  rewrite !first_content_omap. unfold Spec.priority_search, Spec.candidates.
  cbn [map]. rewrite !head_omap_cons.
  repeat (destruct (Spec.content_of doc _)); reflexivity.
Qed.

Lemma discover_ok_script2 (w : world) (url : string) (s : state) (r : response) (doc : soup) :
  requests_get w (requests s) url = Ok r ->
  status_code r = 200 ->
  html_parser w (text r) = Ok doc ->
  fst (FetchScholar.discover_thumbnail_url w url s) = Ok (Spec.property_search doc).
Proof.
  intros Hget Hst Hparse.
  unfold FetchScholar.discover_thumbnail_url, try_except, bind, http_get, lift.
  rewrite Hget, Hst, Hparse. cbn [Z.eqb Pos.eqb negb].
  rewrite !first_content_omap. unfold Spec.property_search, Spec.candidates.
  cbn [map take]. rewrite !head_omap_cons.
  repeat (destruct (Spec.content_of doc _)); reflexivity.
Qed.

(** C1, as stated, fails: on a page whose only image tag is
    [<meta name="image">], fetched with success, the discoverer of script 2
    does not return what the five-kind priority search returns. *)
Lemma C1_script2_has_no_name_fallback :
  ~ (forall (w : world) (url : string) (s : state) (r : response) (doc : soup),
        requests_get w (requests s) url = Ok r ->
        status_code r = 200 ->
        html_parser w (text r) = Ok doc ->
        fst (AddPreviews.discover_thumbnail_url w url s) = Ok (Spec.priority_search doc)
        /\ fst (FetchScholar.discover_thumbnail_url w url s) = Ok (Spec.priority_search doc)).
Proof.
  intros H.
  destruct (H (web html_name_only doc_name_only 200 []) "http://p" s0 (page html_name_only) doc_name_only
              eq_refl eq_refl eq_refl) as [_ H2].
  vm_compute in H2. discriminate H2.
Qed.

(** C1, amended: on a page fetched with success, the discoverer of script 1
    returns the trimmed non-empty content of the first tag kind, in the
    order og:image, twitter:image, og:image:url (property), twitter:image,
    image (name), whose first tag in the document has one, and none when
    there is no such kind; the discoverer of script 2 does the same over
    the three property kinds only.  In both, a non-empty og:image content
    wins over any other tag. *)
Theorem C1_discover_priority_order
  (w : world) (url : string) (s : state) (r : response) (doc : soup) :
  requests_get w (requests s) url = Ok r ->
  status_code r = 200 ->
  html_parser w (text r) = Ok doc ->
  fst (AddPreviews.discover_thumbnail_url w url s) = Ok (Spec.priority_search doc)
  /\ fst (FetchScholar.discover_thumbnail_url w url s) = Ok (Spec.property_search doc)
  /\ (forall (t : tag) (c : string),
        find "meta" "property" "og:image" doc = Some t ->
        attrs t !! "content" = Some c -> c <> "" ->
        fst (AddPreviews.discover_thumbnail_url w url s) = Ok (Some (Py.strip c))
        /\ fst (FetchScholar.discover_thumbnail_url w url s) = Ok (Some (Py.strip c))).
Proof.
  intros Hget Hst Hparse.
  pose proof (discover_ok_script1 w url s r doc Hget Hst Hparse) as H1.
  pose proof (discover_ok_script2 w url s r doc Hget Hst Hparse) as H2.
  split; [exact H1|]. split; [exact H2|].
  intros t c Hfind Hc Hne. rewrite H1, H2.
  assert (Hog : Spec.content_of doc ("property", "og:image") = Some (Py.strip c)).
  { unfold Spec.content_of. simpl fst. simpl snd. rewrite Hfind. simpl.
    rewrite Hc. simpl. destruct (String.eqb_spec c ""); [contradiction|reflexivity]. }
  unfold Spec.priority_search, Spec.property_search, Spec.candidates.
  cbn [take]. rewrite !head_omap_cons, Hog. split; reflexivity.
Qed.

Lemma C1_discover_priority_order_witness :
  fst (AddPreviews.discover_thumbnail_url (web html_both doc_both 200 []) "http://p" s0)
    = Ok (Some "http://img/og.png")
  /\ fst (FetchScholar.discover_thumbnail_url (web html_both doc_both 200 []) "http://p" s0)
    = Ok (Some "http://img/og.png").
Proof.
  destruct (C1_discover_priority_order (web html_both doc_both 200 []) "http://p" s0
              (page html_both) doc_both eq_refl eq_refl eq_refl) as [_ [_ H]].
  apply (H (meta "property" "og:image" " http://img/og.png ") " http://img/og.png ").
  - reflexivity.
  - reflexivity.
  - discriminate.
Defined.

(** ** Failures of the network calls *)

(** Whatever the network answers, discovery returns, having made its one
    request and written nothing. *)
Lemma discover_run_script1 (w : world) (url : string) (s : state) :
  exists v, AddPreviews.discover_thumbnail_url w url s = (Ok v, logged s url).
Proof.
  unfold AddPreviews.discover_thumbnail_url, try_except, bind, http_get, lift, logged.
  destruct (requests_get w (requests s) url) as [r|]; [|eexists; reflexivity].
  destruct (negb (status_code r =? 200)); [eexists; reflexivity|].
  destruct (html_parser w (text r)) as [doc|]; [|eexists; reflexivity].
  destruct (first_content "property" _ doc); [eexists; reflexivity|].
  destruct (first_content "name" _ doc); eexists; reflexivity.
Qed.

Lemma discover_run_script2 (w : world) (url : string) (s : state) :
  exists v, FetchScholar.discover_thumbnail_url w url s = (Ok v, logged s url).
Proof.
  unfold FetchScholar.discover_thumbnail_url, try_except, bind, http_get, lift, logged.
  destruct (requests_get w (requests s) url) as [r|]; [|eexists; reflexivity].
  destruct (negb (status_code r =? 200)); [eexists; reflexivity|].
  destruct (html_parser w (text r)) as [doc|]; [|eexists; reflexivity].
  destruct (first_content "property" _ doc); eexists; reflexivity.
Qed.

Lemma status_not_200 (r : response) : status_code r <> 200 -> negb (status_code r =? 200) = true.
Proof. intros H. destruct (Z.eqb_spec (status_code r) 200); [contradiction|reflexivity]. Qed.

(** C8: the thumbnail discoverer of either script returns a value on every
    page URL, in every state of the network; when the request raises, the
    status is not 200, or the parser raises on the body, that value is
    [None]. *)
Theorem C8_discover_never_raises (w : world) (page_url : string) (s : state) :
  (exists v, fst (AddPreviews.discover_thumbnail_url w page_url s) = Ok v)
  /\ (exists v, fst (FetchScholar.discover_thumbnail_url w page_url s) = Ok v)
  /\ (requests_get w (requests s) page_url = Raised
      \/ (exists r, requests_get w (requests s) page_url = Ok r
                    /\ (status_code r <> 200 \/ html_parser w (text r) = Raised)) ->
      fst (AddPreviews.discover_thumbnail_url w page_url s) = Ok None
      /\ fst (FetchScholar.discover_thumbnail_url w page_url s) = Ok None).
Proof.
  split; [|split].
  - destruct (discover_run_script1 w page_url s) as [v Hv]. exists v. rewrite Hv. reflexivity.
  - destruct (discover_run_script2 w page_url s) as [v Hv]. exists v. rewrite Hv. reflexivity.
  - unfold AddPreviews.discover_thumbnail_url, FetchScholar.discover_thumbnail_url,
      try_except, bind, http_get, lift.
    intros [Hraise | [r [Hget [Hst | Hparse]]]].
    + rewrite Hraise. split; reflexivity.
    + rewrite Hget, (status_not_200 r Hst). split; reflexivity.
    + rewrite Hget, Hparse. destruct (negb (status_code r =? 200)); split; reflexivity.
Qed.

Lemma C8_discover_never_raises_witness :
  fst (AddPreviews.discover_thumbnail_url (offline []) "http://p" s0) = Ok None
  /\ fst (FetchScholar.discover_thumbnail_url (offline []) "http://p" s0) = Ok None.
Proof.
  destruct (C8_discover_never_raises (offline []) "http://p" s0) as [_ [_ H]].
  apply H. left. reflexivity.
Defined.

(** ** The image fetcher and the loop of script 1 *)

Lemma write_chunks_run (dest : string) (chunks : list string) (s : state) :
  exists s', write_chunks dest chunks s = (Ok tt, s') /\ requests s' = requests s.
Proof.
  revert s. induction chunks as [|chunk rest IH]; intros s.
  - exists s. split; reflexivity.
  - cbn [write_chunks]. unfold bind.
    destruct (String.eqb chunk ""); cbn [ret write_chunk].
    + apply IH.
    + destruct (IH {| requests := requests s;
                      files := <[dest := default "" (files s !! dest) +:+ chunk]> (files s) |})
        as [s' [Hrun Hreq]].
      exists s'. split; [exact Hrun | exact Hreq].
Qed.

Lemma download_non200 (w : world) (url dest : string) (s : state) (r : response) :
  requests_get w (requests s) url = Ok r ->
  status_code r <> 200 ->
  AddPreviews.download_image w url dest s = (Ok false, logged s url).
Proof.
  intros Hget Hst.
  unfold AddPreviews.download_image, try_except, bind, http_get.
  rewrite Hget, (status_not_200 r Hst). reflexivity.
Qed.

Lemma download_run (w : world) (url dest : string) (s : state) :
  exists b s', AddPreviews.download_image w url dest s = (Ok b, s')
               /\ requests s' = requests s ++ [url].
Proof.
  unfold AddPreviews.download_image, try_except, bind, http_get.
  destruct (requests_get w (requests s) url) as [r|];
    [|eexists _, _; split; reflexivity].
  destruct (negb (status_code r =? 200)); [eexists _, _; split; reflexivity|].
  unfold open_wb. cbn [requests files].
  destruct (can_open w dest); [|eexists _, _; split; reflexivity].
  destruct (write_chunks_run dest (iter_content r)
              {| requests := requests s ++ [url]; files := <[dest := ""]> (files s) |})
    as [s' [Hrun Hreq]].
  rewrite Hrun.
  destruct (stream_breaks r); eexists _, _; (split; [reflexivity | exact Hreq]).
Qed.

Lemma process_entry_run (w : world) (entry : gmap string string) (s : state) :
  exists e' s', AddPreviews.process_entry w entry s = (Ok e', s').
Proof.
  unfold AddPreviews.process_entry.
  destruct (negb (opt_truthy (opt_or (entry !! "url") (entry !! "doi"))));
    [eexists _, _; reflexivity|].
  destruct (opt_truthy (entry !! "preview")); [eexists _, _; reflexivity|].
  unfold bind.
  match goal with
  | |- context [AddPreviews.discover_thumbnail_url w ?u s] =>
      destruct (discover_run_script1 w u s) as [v Hv]; rewrite Hv
  end.
  destruct (negb (opt_truthy v)); [eexists _, _; reflexivity|].
  match goal with
  | |- context [AddPreviews.download_image w ?u ?d ?st] =>
      destruct (download_run w u d st) as [b [s' [Hd _]]]; rewrite Hd
  end.
  destruct b; eexists _, _; reflexivity.
Qed.

Lemma for_entries_run (w : world) (es : list (gmap string string)) (s : state) :
  exists es' s', AddPreviews.for_entries w es s = (Ok es', s')
                 /\ length es' = length es.
Proof.
  revert s. induction es as [|e rest IH]; intros s.
  - exists [], s. split; reflexivity.
  - cbn [AddPreviews.for_entries]. unfold bind.
    destruct (process_entry_run w e s) as [e' [s1 He]]. rewrite He.
    destruct (IH s1) as [rest' [s2 [Hrest Hlen]]]. rewrite Hrest.
    exists (e' :: rest'), s2. split; [reflexivity|]. simpl. rewrite Hlen. reflexivity.
Qed.

(** The loop over a concatenation runs the loop over each part in turn. *)
Lemma for_entries_app (w : world) (pre post pre' post' : list (gmap string string))
      (s s1 s2 : state) :
  AddPreviews.for_entries w pre s = (Ok pre', s1) ->
  AddPreviews.for_entries w post s1 = (Ok post', s2) ->
  AddPreviews.for_entries w (pre ++ post) s = (Ok (pre' ++ post'), s2).
Proof.
  revert s pre'. induction pre as [|e rest IH]; intros s pre' Hpre Hpost.
  - cbn in Hpre. unfold ret in Hpre. injection Hpre as <- <-. exact Hpost.
  - cbn [AddPreviews.for_entries app] in *. unfold bind in *.
    destruct (process_entry_run w e s) as [e' [sa He]]. rewrite He in *.
    destruct (for_entries_run w rest sa) as [rest' [sb [Hrest _]]].
    rewrite Hrest in Hpre. unfold ret in Hpre. injection Hpre as <- <-.
    rewrite (IH sa rest' Hrest Hpost). reflexivity.
Qed.

Lemma download_non200_script2 (w : world) (url dest : string) (s : state) (r : response) :
  requests_get w (requests s) url = Ok r ->
  status_code r <> 200 ->
  FetchScholar.download_image w url dest s = (Ok false, logged s url).
Proof.
  intros Hget Hst.
  unfold FetchScholar.download_image, try_except, bind, http_get.
  rewrite Hget, (status_not_200 r Hst). reflexivity.
Qed.

(** What a turn of the loop does once the entry has a link and no preview:
    discovery on the normalized link, then the download. *)
Lemma process_entry_fetch (w : world) (entry : gmap string string) (u : string) (s : state) :
  opt_or (entry !! "url") (entry !! "doi") = Some u ->
  u <> "" ->
  opt_truthy (entry !! "preview") = false ->
  AddPreviews.process_entry w entry s
  = (let* thumb_url := AddPreviews.discover_thumbnail_url w (AddPreviews.normalize_doi u) in
     if negb (opt_truthy thumb_url) then ret entry
     else
       let dest := path_join w AddPreviews.ASSETS_DIR
                     (default "unknown" (entry !! "ID")
                      +:+ AddPreviews.choose_ext (default "" thumb_url)) in
       let* ok := AddPreviews.download_image w (default "" thumb_url) dest in
       if ok : bool
       then ret (<["preview" := "pub_preview/" +:+ path_name w dest]> entry)
       else ret entry) s.
Proof.
  intros Hu Hne Hprev. unfold AddPreviews.process_entry.
  rewrite Hu, Hprev, (opt_truthy_nonempty u Hne). reflexivity.
Qed.

(** C7: a response with a status other than 200 makes the image fetcher of
    either script return failure with the files on disk unchanged; and in
    the loop of script 1, when the download of the discovered thumbnail
    fails that way, the entry comes out unchanged, its preview still
    absent, no file is created, and the loop goes on with the entries that
    follow. *)
Theorem C7_failed_download_skips_entry (w : world) :
  (forall (url dest : string) (s : state) (r : response),
      requests_get w (requests s) url = Ok r ->
      status_code r <> 200 ->
      exists s',
        AddPreviews.download_image w url dest s = (Ok false, s')
        /\ FetchScholar.download_image w url dest s = (Ok false, s')
        /\ files s' = files s)
  /\ (forall (entry : gmap string string) (rest : list (gmap string string))
             (u thumb : string) (s s1 : state) (r : response),
        opt_or (entry !! "url") (entry !! "doi") = Some u ->
        u <> "" ->
        entry !! "preview" = None ->
        AddPreviews.discover_thumbnail_url w (AddPreviews.normalize_doi u) s
          = (Ok (Some thumb), s1) ->
        thumb <> "" ->
        requests_get w (requests s1) thumb = Ok r ->
        status_code r <> 200 ->
        exists (s2 : state) (rest' : list (gmap string string)) (s3 : state),
          AddPreviews.process_entry w entry s = (Ok entry, s2)
          /\ files s2 = files s
          /\ AddPreviews.for_entries w rest s2 = (Ok rest', s3)
          /\ AddPreviews.for_entries w (entry :: rest) s = (Ok (entry :: rest'), s3)).
Proof.
  split.
  - intros url dest s r Hget Hst. exists (logged s url).
    rewrite (download_non200 w url dest s r Hget Hst),
            (download_non200_script2 w url dest s r Hget Hst).
    repeat split; reflexivity.
  - intros entry rest u thumb s s1 r Hu Hne Hprev Hdisc Hthumb Hget Hst.
    assert (Hfiles : files s1 = files s).
    { destruct (discover_run_script1 w (AddPreviews.normalize_doi u) s) as [v Hv].
      rewrite Hv in Hdisc. injection Hdisc as _ <-. reflexivity. }
    assert (Hturn : AddPreviews.process_entry w entry s = (Ok entry, logged s1 thumb)).
    { rewrite (process_entry_fetch w entry u s Hu Hne) by (rewrite Hprev; reflexivity).
      unfold bind at 1. rewrite Hdisc.
      rewrite (opt_truthy_nonempty thumb Hthumb). cbn [negb default].
      unfold bind. rewrite (download_non200 w thumb _ s1 r Hget Hst). reflexivity. }
    destruct (for_entries_run w rest (logged s1 thumb)) as [rest' [s3 [Hrest _]]].
    exists (logged s1 thumb), rest', s3.
    split; [exact Hturn|]. split; [exact Hfiles|]. split; [exact Hrest|].
    cbn [AddPreviews.for_entries]. unfold bind. rewrite Hturn, Hrest. reflexivity.
Qed.

Lemma C7_failed_download_skips_entry_witness :
  exists (s2 : state) (rest' : list (gmap string string)) (s3 : state),
    AddPreviews.process_entry (web html_both doc_both 404 []) entry_url s0 = (Ok entry_url, s2)
    /\ files s2 = files s0
    /\ AddPreviews.for_entries (web html_both doc_both 404 []) [entry_with_preview] s2 = (Ok rest', s3)
    /\ AddPreviews.for_entries (web html_both doc_both 404 []) [entry_url; entry_with_preview] s0
       = (Ok (entry_url :: rest'), s3).
Proof.
  destruct (C7_failed_download_skips_entry (web html_both doc_both 404 [])) as [_ H].
  apply (H entry_url [entry_with_preview] "http://p" "http://img/og.png" s0
           (logged s0 "http://p")
           {| status_code := 404; text := ""; iter_content := ["PNG"; ""; "DATA"];
              stream_breaks := false |}).
  - reflexivity.
  - discriminate.
  - reflexivity.
  - reflexivity.
  - discriminate.
  - reflexivity.
  - discriminate.
Defined.

(** A turn of the loop that succeeds: two requests, one file, and the
    preview set. *)
Example process_entry_success :
  AddPreviews.process_entry (web html_both doc_both 200 []) entry_url s0
  = (Ok (<["preview" := "pub_preview/k3.png"]> entry_url),
     {| requests := ["http://p"; "http://img/og.png"];
        files := {[ "assets/img/pub_preview/k3.png" := "PNGDATA" ]} |}).
Proof. vm_compute. reflexivity. Qed.

(** C6, as stated, fails: an entry whose [preview] field is present but
    empty is not left alone; with a link in it, discovery and download
    are attempted. *)
Lemma C6_empty_preview_is_refetched :
  ~ (forall (w : world) (entry : gmap string string) (s : state) (v : string),
        entry !! "preview" = Some v ->
        AddPreviews.process_entry w entry s = (Ok entry, s)).
Proof.
  intros H.
  pose proof (H (web html_both doc_both 200 []) entry_empty_preview s0 "" eq_refl) as H0.
  apply (f_equal (fun x => requests (snd x))) in H0.
  vm_compute in H0. discriminate H0.
Qed.

(** C6, amended: for an entry whose [preview] field is present and not
    empty, the turn of the loop makes no request, writes no file and
    returns the entry as it was; a run over a list that contains the entry
    makes the requests and writes the files of the run over the list
    without it, and yields the entry unchanged at its place. *)
Theorem C6_existing_preview_untouched
  (w : world) (entry : gmap string string) (s : state) :
  opt_truthy (entry !! "preview") = true ->
  AddPreviews.process_entry w entry s = (Ok entry, s)
  /\ (forall pre post : list (gmap string string),
        exists (pre' post' : list (gmap string string)) (s' : state),
          AddPreviews.for_entries w (pre ++ post) s = (Ok (pre' ++ post'), s')
          /\ length pre' = length pre
          /\ AddPreviews.for_entries w (pre ++ entry :: post) s
             = (Ok (pre' ++ entry :: post'), s')).
Proof.
  intros Hprev.
  assert (Hturn : forall st, AddPreviews.process_entry w entry st = (Ok entry, st)).
  { intros st. unfold AddPreviews.process_entry. rewrite Hprev.
    destruct (negb (opt_truthy (opt_or (entry !! "url") (entry !! "doi")))); reflexivity. }
  split; [apply Hturn|].
  intros pre post.
  destruct (for_entries_run w pre s) as [pre' [s1 [Hpre Hlen]]].
  destruct (for_entries_run w post s1) as [post' [s2 [Hpost _]]].
  exists pre', post', s2.
  split; [exact (for_entries_app w pre post pre' post' s s1 s2 Hpre Hpost)|].
  split; [exact Hlen|].
  apply (for_entries_app w pre (entry :: post) pre' (entry :: post') s s1 s2 Hpre).
  cbn [AddPreviews.for_entries]. unfold bind. rewrite Hturn, Hpost. reflexivity.
Qed.

Lemma C6_existing_preview_untouched_witness :
  AddPreviews.process_entry (web html_both doc_both 200 []) entry_with_preview s0
  = (Ok entry_with_preview, s0).
Proof.
  apply (C6_existing_preview_untouched (web html_both doc_both 200 []) entry_with_preview s0).
  reflexivity.
Defined.

(** C10: in script 1, for an entry with a link and no preview, the first
    request of the turn is the page fetch of discovery, and it goes to
    https://doi.org/ followed by the selected url/doi value when that
    value starts with "10.", and to the value itself otherwise. *)
Theorem C10_doi_is_normalized_before_discovery
  (w : world) (entry : gmap string string) (u : string) (s : state) :
  opt_or (entry !! "url") (entry !! "doi") = Some u ->
  u <> "" ->
  opt_truthy (entry !! "preview") = false ->
  exists (e' : gmap string string) (s' : state) (later : list string),
    AddPreviews.process_entry w entry s = (Ok e', s')
    /\ requests s'
       = requests s
         ++ (if Py.startswith "10." u then "https://doi.org/" +:+ u else u) :: later.
Proof.
  intros Hu Hne Hprev.
  rewrite (process_entry_fetch w entry u s Hu Hne Hprev).
  unfold bind at 1.
  destruct (discover_run_script1 w (AddPreviews.normalize_doi u) s) as [v Hv].
  rewrite Hv. fold (AddPreviews.normalize_doi u).
  destruct (negb (opt_truthy v)).
  - exists entry, (logged s (AddPreviews.normalize_doi u)), []. split; reflexivity.
  - cbv zeta. unfold bind.
    match goal with
    | |- context [AddPreviews.download_image w ?t ?d ?st] =>
        destruct (download_run w t d st) as [b [s' [Hd Hreq]]]; rewrite Hd
    end.
    cbn [logged requests] in Hreq. rewrite <- app_assoc in Hreq.
    destruct b; eexists _, s', _; (split; [reflexivity | exact Hreq]).
Qed.

Lemma C10_doi_is_normalized_before_discovery_witness :
  exists (e' : gmap string string) (s' : state) (later : list string),
    AddPreviews.process_entry (web html_both doc_both 200 []) entry_doi s0 = (Ok e', s')
    /\ requests s' = requests s0 ++ "https://doi.org/10.1000/xyz" :: later.
Proof.
  apply (C10_doi_is_normalized_before_discovery (web html_both doc_both 200 []) entry_doi
           "10.1000/xyz" s0).
  - reflexivity.
  - discriminate.
  - reflexivity.
Defined.

(** ** The front matter of the bibliography file *)

Lemma append_cons (x : ascii) (a b : string) : String x a +:+ b = String x (a +:+ b).
Proof. reflexivity. Qed.

Lemma append_nil_l (b : string) : "" +:+ b = b.
Proof. reflexivity. Qed.

Lemma append_assoc_str (a b c : string) : (a +:+ b) +:+ c = a +:+ (b +:+ c).
Proof.
  induction a as [|x a IH]; [reflexivity|].
  rewrite !append_cons, IH. reflexivity.
Qed.

Lemma append_nil_r (a : string) : a +:+ "" = a.
Proof.
  induction a as [|x a IH]; [reflexivity|].
  rewrite append_cons, IH. reflexivity.
Qed.

Lemma block_text_cons (l : string) (ls : list string) :
  Spec.block_text (l :: ls) = l +:+ NL +:+ Spec.block_text ls.
Proof. reflexivity. Qed.

(** A line without line boundaries, followed by a newline, is split off
    as it is. *)
Lemma splitlines_from_line (l cur t : string) :
  no_linebreak l = true ->
  Py.splitlines_from false cur (l +:+ NL +:+ t)
  = (cur +:+ l) :: Py.splitlines_from false "" t.
Proof.
  revert cur. induction l as [|c l IH]; intros cur Hl.
  - rewrite append_nil_r. reflexivity.
  - unfold no_linebreak in Hl. cbn [all_chars] in Hl.
    apply andb_true_iff in Hl as [Hc Hl].
    rewrite append_cons. cbn [Py.splitlines_from andb].
    apply negb_true_iff in Hc. rewrite Hc.
    rewrite (IH (cur +:+ String c "") Hl). rewrite append_assoc_str. reflexivity.
Qed.

Lemma splitlines_block (ls : list string) (t : string) :
  Forall (fun l => no_linebreak l = true) ls ->
  Py.splitlines (Spec.block_text ls +:+ t) = ls ++ Py.splitlines t.
Proof.
  unfold Py.splitlines. induction 1 as [|l ls Hl _ IH]; [reflexivity|].
  rewrite block_text_cons, !append_assoc_str.
  rewrite (splitlines_from_line l "" _ Hl), append_nil_l. cbn [app].
  f_equal. exact IH.
Qed.




(** The search stops at the first line that is a marker. *)
Lemma find_closing_first (ls : list string) (k j : nat) (lj : string) :
  ls !! j = Some lj ->
  AddPreviews.is_marker lj = true ->
  (forall i l, (i < j)%nat -> ls !! i = Some l -> AddPreviews.is_marker l = false) ->
  AddPreviews.find_closing k ls = Some (k + j)%nat.
Proof.
  revert k j. induction ls as [|l ls IH]; intros k j Hj Hm Hbefore; [discriminate|].
  destruct j as [|j].
  - cbn in Hj. injection Hj as ->. cbn [AddPreviews.find_closing]. rewrite Hm.
    f_equal. lia.
  - cbn [AddPreviews.find_closing].
    rewrite (Hbefore 0%nat l) by (try lia; reflexivity).
    rewrite (IH (S k) j Hj Hm).
    + f_equal. lia.
    + intros i l' Hi Hl'. apply (Hbefore (S i) l'); [lia | exact Hl'].
Qed.

Lemma join_block (ls : list string) :
  ls <> [] -> Py.join NL ls +:+ NL = Spec.block_text ls.
Proof.
  induction ls as [|l ls IH]; [contradiction|]. intros _.
  destruct ls as [|l' ls].
  - cbn [Py.join]. rewrite !block_text_cons. reflexivity.
  - rewrite (block_text_cons l). rewrite <- IH by discriminate.
    cbn [Py.join]. rewrite !append_assoc_str. reflexivity.
Qed.

Lemma is_marker_strip (l : string) : AddPreviews.is_marker l = true <-> Py.strip l = "---".
Proof. unfold AddPreviews.is_marker. apply String.eqb_eq. Qed.

Lemma is_marker_strip_false (l : string) :
  AddPreviews.is_marker l = false <-> Py.strip l <> "---".
Proof. unfold AddPreviews.is_marker. apply String.eqb_neq. Qed.

(** Where the front matter ends when line [j] is the first marker after
    line 0. *)
Lemma end_idx_first_marker (lines : list string) (j : nat) (lj : string) :
  (1 <= j)%nat ->
  lines !! j = Some lj ->
  Py.strip lj = "---" ->
  (forall i l, (1 <= i < j)%nat -> lines !! i = Some l -> Py.strip l <> "---") ->
  AddPreviews.end_idx lines = j.
Proof.
  intros Hj Hlj Hm Hbefore. unfold AddPreviews.end_idx.
  destruct lines as [|l0 rest]; [discriminate|].
  destruct j as [|j]; [lia|]. cbn [tail]. cbn in Hlj.
  rewrite (find_closing_first rest 1 j lj Hlj).
  - reflexivity.
  - apply is_marker_strip. exact Hm.
  - intros i l Hi Hl. apply is_marker_strip_false.
    apply (Hbefore (S i) l); [lia | exact Hl].
Qed.


(** C4, as stated, fails: a first line that is the marker preceded by a
    space is not exactly the marker, yet the text is not parsed whole. *)
Lemma C4_indented_marker_opens_block :
  ~ (forall raw_text : string,
        Spec.first_line_is_marker raw_text = false ->
        AddPreviews.bib_text_of raw_text = raw_text).
Proof.
  intros H. pose proof (H indented_marker_file eq_refl) as H0.
  vm_compute in H0. discriminate H0.
Qed.

(** C4, amended: the reader takes a leading metadata block to be present
    exactly when the first line, trimmed of surrounding whitespace, is the
    three-hyphen marker.  In that case, when line [j] is the first later
    line that trims to the marker, the lines 0 to [j] are the block kept
    for the writer and the lines after [j], joined by newlines, are the
    text parsed as entries.  When the first line does not trim to the
    marker the whole text is parsed and nothing is put back. *)
Theorem C4_front_matter_detection (raw_text : string) :
  (AddPreviews.has_front_matter (Py.splitlines raw_text) = true
   <-> exists l0 rest, Py.splitlines raw_text = l0 :: rest /\ Py.strip l0 = "---")
  /\ (AddPreviews.has_front_matter (Py.splitlines raw_text) = false ->
      AddPreviews.bib_text_of raw_text = raw_text
      /\ forall out, AddPreviews.restore_front raw_text out = out)
  /\ (forall (j : nat) (lj : string),
        AddPreviews.has_front_matter (Py.splitlines raw_text) = true ->
        (1 <= j)%nat ->
        Py.splitlines raw_text !! j = Some lj ->
        Py.strip lj = "---" ->
        (forall i l, (1 <= i < j)%nat ->
                     Py.splitlines raw_text !! i = Some l -> Py.strip l <> "---") ->
        AddPreviews.bib_text_of raw_text
        = Py.join NL (drop (S j) (Py.splitlines raw_text))
        /\ forall out,
            AddPreviews.restore_front raw_text out
            = (Py.join NL (take (S j) (Py.splitlines raw_text)) +:+ NL +:+ NL) +:+ out).
Proof.
  split; [|split].
  - destruct (Py.splitlines raw_text) as [|l0 rest]; cbn [AddPreviews.has_front_matter].
    + split; [discriminate|]. intros [l0 [rest [H _]]]. discriminate.
    + rewrite is_marker_strip. split.
      * intros H. exists l0, rest. split; [reflexivity | exact H].
      * intros [l0' [rest' [H Hm]]]. injection H as -> ->. exact Hm.
  - intros Hfm. unfold AddPreviews.bib_text_of, AddPreviews.restore_front.
    rewrite Hfm. split; [reflexivity|]. intros out. reflexivity.
  - intros j lj Hfm Hj Hlj Hm Hbefore.
    unfold AddPreviews.bib_text_of, AddPreviews.restore_front.
    rewrite Hfm, (end_idx_first_marker _ j lj Hj Hlj Hm Hbefore).
    split; [reflexivity|]. intros out. reflexivity.
Qed.

Lemma C4_front_matter_detection_witness :
  AddPreviews.bib_text_of plain_file = "@misc{k,}"
  /\ forall out,
      AddPreviews.restore_front plain_file out
      = (Py.join NL ["---"; "foo: bar"; "---"] +:+ NL +:+ NL) +:+ out.
Proof.
  destruct (C4_front_matter_detection plain_file) as [_ [_ H]].
  apply (H 2%nat "---").
  - reflexivity.
  - lia.
  - reflexivity.
  - reflexivity.
  - intros i l Hi Hl. assert (i = 1%nat) as -> by lia.
    vm_compute in Hl. injection Hl as <-. discriminate.
Defined.




(** ** Key synthesis *)

Lemma sub_runs_cons (cls : ascii -> bool) (rep c : ascii) (s : string) :
  Py.sub_runs cls rep (String c s)
  = if cls c then
      match s with
      | String c' _ => if cls c' then Py.sub_runs cls rep s
                       else String rep (Py.sub_runs cls rep s)
      | EmptyString => String rep EmptyString
      end
    else String c (Py.sub_runs cls rep s).
Proof. reflexivity. Qed.

(** The two readings of "collapse the runs" agree: replacing each maximal
    run, and dropping the characters of a run after its first. *)
Lemma sub_runs_collapse (cls : ascii -> bool) (s : string) :
  Py.sub_runs cls "-"%char s = Spec.collapse cls false s
  /\ forall c, cls c = true ->
               Py.sub_runs cls "-"%char (String c s)
               = String "-"%char (Spec.collapse cls true s).
Proof.
  induction s as [|c' s [IH1 IH2]].
  - split; [reflexivity|]. intros c Hc. rewrite sub_runs_cons, Hc. reflexivity.
  - split.
    + cbn [Spec.collapse]. destruct (cls c') eqn:Hc'.
      * apply (IH2 c' Hc').
      * rewrite sub_runs_cons, Hc', IH1. reflexivity.
    + intros c Hc. rewrite (sub_runs_cons cls "-"%char c (String c' s)), Hc.
      cbn [Spec.collapse]. destruct (cls c') eqn:Hc'.
      * apply (IH2 c' Hc').
      * rewrite sub_runs_cons, Hc', IH1. reflexivity.
Qed.

Lemma slugify_strip_then_slug (title : string) :
  FetchScholar.slugify title = Spec.slug (Py.strip title).
Proof.
  unfold FetchScholar.slugify, Spec.slug.
  rewrite !(proj1 (sub_runs_collapse _ _)). reflexivity.
Qed.

Lemma all_chars_filter (p : ascii -> bool) (s : string) :
  all_chars p (Py.filter_chars p s) = true.
Proof.
  induction s as [|c s IH]; [reflexivity|]. cbn [Py.filter_chars].
  destruct (p c) eqn:Hc; [|exact IH]. cbn [all_chars]. rewrite Hc, IH. reflexivity.
Qed.

(** Collapsing the runs of a class leaves hyphens and the characters that
    are outside the class. *)
Lemma all_chars_collapse (cls p q : ascii -> bool) (b : bool) (s : string) :
  q "-"%char = true ->
  (forall c, p c = true -> cls c = false -> q c = true) ->
  all_chars p s = true ->
  all_chars q (Spec.collapse cls b s) = true.
Proof.
  intros Hq Hpq. revert b. induction s as [|c s IH]; intros b Hs; [reflexivity|].
  cbn [all_chars] in Hs. apply andb_true_iff in Hs as [Hc Hs].
  cbn [Spec.collapse]. destruct (cls c) eqn:Hcls.
  - destruct b; [exact (IH true Hs)|]. cbn [all_chars]. rewrite Hq, (IH true Hs). reflexivity.
  - cbn [all_chars]. rewrite (Hpq c Hc Hcls), (IH false Hs). reflexivity.
Qed.

Lemma all_chars_take (p : ascii -> bool) (n : nat) (s : string) :
  all_chars p s = true -> all_chars p (Py.take_chars n s) = true.
Proof.
  revert s. induction n as [|n IH]; intros s Hs; [reflexivity|].
  destruct s as [|c s]; [reflexivity|].
  cbn [all_chars] in Hs. apply andb_true_iff in Hs as [Hc Hs].
  cbn [Py.take_chars all_chars]. rewrite Hc, (IH s Hs). reflexivity.
Qed.

Lemma length_take_chars (n : nat) (s : string) :
  (String.length (Py.take_chars n s) <= n)%nat.
Proof.
  revert s. induction n as [|n IH]; intros s; [cbn; lia|].
  destruct s as [|c s]; [cbn; lia|]. cbn [Py.take_chars String.length].
  specialize (IH s). lia.
Qed.

Lemma slug_char_not_space (c : ascii) :
  FetchScholar.slug_char c = true -> Py.isspace c = false -> key_char c = true.
Proof.
  unfold FetchScholar.slug_char, key_char, FetchScholar.is_hyphen.
  intros H Hs. rewrite Hs, orb_false_r in H. exact H.
Qed.

(** After the hyphen runs are collapsed no two hyphens are adjacent, and
    the text that follows a hyphen does not start with one. *)
Lemma no_double_hyphen_collapse (b : bool) (s : string) :
  no_double_hyphen (Spec.collapse FetchScholar.is_hyphen b s) = true
  /\ (b = true ->
      match Spec.collapse FetchScholar.is_hyphen b s with
      | String c _ => FetchScholar.is_hyphen c = false
      | EmptyString => True
      end).
Proof.
  revert b. induction s as [|c s IH]; intros b; [split; [reflexivity | intros _; exact I]|].
  cbn [Spec.collapse]. destruct (FetchScholar.is_hyphen c) eqn:Hc.
  - destruct b.
    + destruct (IH true) as [H1 H2]. split; [exact H1 | exact H2].
    + destruct (IH true) as [H1 H2]. split; [|discriminate].
      cbn [no_double_hyphen]. rewrite H1, andb_true_r.
      specialize (H2 eq_refl).
      destruct (Spec.collapse FetchScholar.is_hyphen true s) as [|c' s']; [reflexivity|].
      rewrite H2, andb_false_r. reflexivity.
  - destruct (IH false) as [H1 _]. split; [|intros _; exact Hc].
    cbn [no_double_hyphen]. rewrite H1, andb_true_r, Hc.
    destruct (Spec.collapse FetchScholar.is_hyphen false s); reflexivity.
Qed.

Lemma no_double_hyphen_take (n : nat) (s : string) :
  no_double_hyphen s = true -> no_double_hyphen (Py.take_chars n s) = true.
Proof.
  revert s. induction n as [|n IH]; intros s Hs; [reflexivity|].
  destruct s as [|c s]; [reflexivity|].
  cbn [no_double_hyphen] in Hs. apply andb_true_iff in Hs as [Hc Hs].
  cbn [Py.take_chars no_double_hyphen]. rewrite (IH s Hs), andb_true_r.
  destruct n as [|n]; [reflexivity|].
  destruct s as [|c' s]; [reflexivity|]. exact Hc.
Qed.

Lemma parse_bibtex_key_no_match (bibtex title : string) (year : Py.pyval) :
  FetchScholar.search_key bibtex = None ->
  FetchScholar.parse_bibtex_key bibtex title year
  = Spec.synthesized_key (Py.strip title) year.
Proof.
  intros Hno. unfold FetchScholar.parse_bibtex_key, Spec.synthesized_key.
  rewrite Hno, slugify_strip_then_slug. reflexivity.
Qed.

(** C3, as stated, fails: a title with a leading space is trimmed before
    anything else, so its key does not start with the hyphen that the
    worded steps give. *)
Lemma C3_padded_title_is_trimmed_first :
  ~ (forall (bibtex title : string) (year : Py.pyval),
        FetchScholar.search_key bibtex = None ->
        FetchScholar.parse_bibtex_key bibtex title year = Spec.synthesized_key title year).
Proof.
  intros H. pose proof (H "" " A" Py.PyNone eq_refl) as H0.
  vm_compute in H0. discriminate H0.
Qed.

(** C3, amended: when no key can be pattern-matched out of the
    citation-entry text, the key is synthesized from the title trimmed of
    surrounding whitespace, by lower-casing it, stripping the characters
    outside [a-z0-9-\s], collapsing whitespace runs to single hyphens,
    collapsing repeated hyphens, truncating to 80 characters, and
    appending -{year} when a year is available.  The key depends on the
    title and the year only; the part made from the title has at most 80
    characters, all in [a-z0-9-], with no two hyphens in a row; and the
    title "A Study: Of  THINGS!!" with year 2021 gives
    a-study-of-things-2021. *)
Theorem C3_key_synthesis (bibtex title : string) (year : Py.pyval) :
  FetchScholar.search_key bibtex = None ->
  FetchScholar.parse_bibtex_key bibtex title year
  = Spec.synthesized_key (Py.strip title) year
  /\ (forall bibtex' : string,
        FetchScholar.search_key bibtex' = None ->
        FetchScholar.parse_bibtex_key bibtex' title year
        = FetchScholar.parse_bibtex_key bibtex title year)
  /\ (String.length (FetchScholar.slugify title) <= 80)%nat
  /\ all_chars key_char (FetchScholar.slugify title) = true
  /\ no_double_hyphen (FetchScholar.slugify title) = true
  /\ FetchScholar.parse_bibtex_key bibtex "A Study: Of  THINGS!!" (Py.PyInt 2021)
     = "a-study-of-things-2021"
  /\ FetchScholar.parse_bibtex_key bibtex "A Study: Of  THINGS!!" (Py.PyStr "2021")
     = "a-study-of-things-2021".
Proof.
  intros Hno. split; [exact (parse_bibtex_key_no_match bibtex title year Hno)|].
  split.
  { intros bibtex' Hno'.
    rewrite (parse_bibtex_key_no_match bibtex' title year Hno'),
            (parse_bibtex_key_no_match bibtex title year Hno).
    reflexivity. }
  split.
  { unfold FetchScholar.slugify. apply length_take_chars. }
  split.
  { rewrite slugify_strip_then_slug. unfold Spec.slug.
    apply all_chars_take.
    apply (all_chars_collapse FetchScholar.is_hyphen key_char key_char);
      [reflexivity | intros c Hc _; exact Hc |].
    apply (all_chars_collapse Py.isspace FetchScholar.slug_char key_char);
      [reflexivity | exact slug_char_not_space |].
    apply all_chars_filter. }
  split.
  { rewrite slugify_strip_then_slug. unfold Spec.slug.
    apply no_double_hyphen_take. apply no_double_hyphen_collapse. }
  unfold FetchScholar.parse_bibtex_key. rewrite Hno. split; vm_compute; reflexivity.
Qed.

Lemma C3_key_synthesis_witness :
  FetchScholar.parse_bibtex_key "no entry here" "  Deep   Nets -- a Survey " (Py.PyStr "2020")
  = Spec.synthesized_key (Py.strip "  Deep   Nets -- a Survey ") (Py.PyStr "2020").
Proof.
  destruct (C3_key_synthesis "no entry here" "  Deep   Nets -- a Survey " (Py.PyStr "2020"))
    as [H _].
  - reflexivity.
  - exact H.
Defined.

(** ** The entry sorter *)

Section StableSort.

Context {A : Type} (key : A -> Z).

Lemma insert_by_perm (x : A) (l : list A) :
  FetchScholar.insert_by key x l ≡ₚ x :: l.
Proof.
  induction l as [|y l IH]; [reflexivity|].
  cbn [FetchScholar.insert_by]. destruct (key x <=? key y); [reflexivity|].
  rewrite IH. apply Permutation_swap.
Qed.

Lemma sort_by_perm (l : list A) : FetchScholar.sort_by key l ≡ₚ l.
Proof.
  induction l as [|x l IH]; [reflexivity|].
  cbn [FetchScholar.sort_by]. rewrite insert_by_perm, IH. reflexivity.
Qed.

Lemma insert_by_sorted (x : A) (l : list A) :
  Sorted (fun a b => key a <= key b) l ->
  Sorted (fun a b => key a <= key b) (FetchScholar.insert_by key x l).
Proof.
  induction 1 as [|y l Hl IH Hhd]; cbn [FetchScholar.insert_by].
  - repeat constructor.
  - destruct (Z.leb_spec (key x) (key y)) as [Hle|Hgt].
    + constructor; [constructor; assumption|]. constructor. exact Hle.
    + constructor; [exact IH|].
      destruct l as [|z l]; cbn [FetchScholar.insert_by].
      * constructor. lia.
      * destruct (key x <=? key z); constructor; [lia|].
        inversion Hhd; subst. assumption.
Qed.

Lemma sort_by_sorted (l : list A) :
  StronglySorted (fun a b => key a <= key b) (FetchScholar.sort_by key l).
Proof.
  apply Sorted_StronglySorted.
  - intros a b c Hab Hbc. lia.
  - induction l as [|x l IH]; [constructor|].
    cbn [FetchScholar.sort_by]. apply insert_by_sorted. exact IH.
Qed.

(** Insertion does not reorder the elements that share a key. *)
Lemma insert_by_filter (k : Z) (x : A) (l : list A) :
  filter (fun a => key a = k) (FetchScholar.insert_by key x l)
  = filter (fun a => key a = k) (x :: l).
Proof.
  induction l as [|y l IH]; [reflexivity|].
  cbn [FetchScholar.insert_by].
  destruct (Z.leb_spec (key x) (key y)) as [Hle|Hgt]; [reflexivity|].
  rewrite (filter_cons _ y), IH, !(filter_cons _ x), (filter_cons _ y).
  destruct (decide (key y = k)) as [Hy|Hy]; [|reflexivity].
  destruct (decide (key x = k)) as [Hx|Hx]; [lia|reflexivity].
Qed.

Lemma sort_by_stable (k : Z) (l : list A) :
  filter (fun a => key a = k) (FetchScholar.sort_by key l)
  = filter (fun a => key a = k) l.
Proof.
  induction l as [|x l IH]; [reflexivity|].
  cbn [FetchScholar.sort_by]. rewrite insert_by_filter, !filter_cons, IH. reflexivity.
Qed.

Lemma strongly_sorted_lookup (R : A -> A -> Prop) (l : list A) (i j : nat) (a b : A) :
  StronglySorted R l ->
  (i < j)%nat -> l !! i = Some a -> l !! j = Some b -> R a b.
Proof.
  intros Hs. revert i j. induction Hs as [|x l Hs IH Hall]; intros i j Hij Ha Hb;
    [discriminate|].
  destruct j as [|j]; [lia|]. rewrite lookup_cons in Hb.
  destruct i as [|i].
  - cbn in Ha. injection Ha as <-.
    rewrite Forall_forall in Hall. apply Hall.
    apply list_elem_of_lookup. exists j. exact Hb.
  - rewrite lookup_cons in Ha. apply (IH i j); [lia | exact Ha | exact Hb].
Qed.

(** Whoever is first in a sorted list, its key is at most the key of
    anything the list shares, key by key, with another list. *)
Lemma stable_head_le (x y : A) (l1 l2 : list A) :
  Forall (fun b => key x <= key b) l1 ->
  filter (fun a => key a = key y) (x :: l1) = filter (fun a => key a = key y) (y :: l2) ->
  key x <= key y.
Proof.
  intros Hall Hf.
  assert (Hy : y ∈ filter (fun a => key a = key y) (x :: l1)).
  { rewrite Hf, (filter_cons_True _ y) by reflexivity. apply elem_of_cons. left. reflexivity. }
  apply list_elem_of_filter in Hy as [_ Hy]. apply elem_of_cons in Hy as [-> | Hy]; [lia|].
  rewrite Forall_forall in Hall. apply (Hall y Hy).
Qed.

(** A list has one sorted rearrangement that keeps the order of the
    elements with equal keys: any stable sort returns [sort_by]. *)
Lemma stable_sorted_unique (l1 l2 : list A) :
  StronglySorted (fun a b => key a <= key b) l1 ->
  StronglySorted (fun a b => key a <= key b) l2 ->
  (forall k, filter (fun a => key a = k) l1 = filter (fun a => key a = k) l2) ->
  l1 = l2.
Proof.
  intros H1. revert l2. induction H1 as [|x l1 Hs1 IH Hall1]; intros l2 H2 Hf.
  - destruct l2 as [|y l2]; [reflexivity|].
    specialize (Hf (key y)). rewrite (filter_cons_True _ y) in Hf by reflexivity.
    discriminate Hf.
  - destruct l2 as [|y l2].
    + specialize (Hf (key x)). rewrite (filter_cons_True _ x) in Hf by reflexivity.
      discriminate Hf.
    + apply StronglySorted_inv in H2 as [Hs2 Hall2].
      assert (Hk : key x = key y).
      { pose proof (stable_head_le x y l1 l2 Hall1 (Hf (key y))).
        pose proof (stable_head_le y x l2 l1 Hall2 (eq_sym (Hf (key x)))). lia. }
      assert (Hxy : x = y).
      { specialize (Hf (key x)).
        rewrite (filter_cons_True _ x), (filter_cons_True _ y) in Hf by (symmetry; auto).
        injection Hf as Hxy _. exact Hxy. }
      subst y. f_equal. apply (IH l2 Hs2). intros k. specialize (Hf k).
      rewrite !(filter_cons _ x) in Hf.
      destruct (decide (key x = k)); [injection Hf as Hf|]; exact Hf.
Qed.

End StableSort.

(** The integer conversion skips white space but not the separators
    that [str.strip] removes, reads a sign and single underscores between
    digits, and gives up beyond the interpreter's limit on the number of
    digits. *)
Example int_of_str_examples :
  Py.int_of_str (FS +:+ "2021" +:+ US) = None
  /\ Py.int_of_str (String (Py.chr 133) "2021" +:+ String (Py.chr 160) EmptyString)
     = Some 2021
  /\ Py.int_of_str (" 2021" +:+ NL) = Some 2021
  /\ Py.int_of_str "+12" = Some 12
  /\ Py.int_of_str "-12" = Some (-12)
  /\ Py.int_of_str "- 12" = None
  /\ Py.int_of_str "1_000" = Some 1000
  /\ Py.int_of_str "_1" = None
  /\ Py.int_of_str "1_" = None
  /\ Py.int_of_str "1__0" = None
  /\ Py.int_of_str "0000" = Some 0
  /\ Py.int_of_str "" = None
  /\ Py.int_of_str "1 2" = None
  /\ Py.int_of_str "20x1" = None
  /\ Py.int_of_str (repeat_char "1" 4300) <> None
  /\ Py.int_of_str (repeat_char "1" 4301) = None
  /\ Py.int_of_str (repeat_char "0" 4301) = None.
Proof.
  repeat split; try (vm_compute; reflexivity).
  vm_compute. discriminate.
Qed.

(** A year that starts with a character [int] neither skips nor reads is
    not numeric, whatever follows. *)
Lemma int_of_str_bad_start (c : ascii) (s : string) :
  Py.isspace_int c = false ->
  Py.isdigit c = false ->
  Py.ord c <> 43 ->
  Py.ord c <> 45 ->
  Py.int_of_str (String c s) = None.
Proof.
  intros Hsp Hd Hplus Hminus.
  unfold Py.int_of_str. cbn [Py.lstrip_int]. rewrite Hsp.
  rewrite (proj2 (Z.eqb_neq _ _) Hminus), (proj2 (Z.eqb_neq _ _) Hplus).
  cbn [Py.parse_digits]. rewrite Hd. cbn [andb]. rewrite andb_false_r. reflexivity.
Qed.

(** White space in front of the digits is skipped. *)
Lemma int_of_str_skips_space (c : ascii) (s : string) :
  Py.isspace_int c = true -> Py.int_of_str (String c s) = Py.int_of_str s.
Proof.
  intros Hsp. unfold Py.int_of_str. cbn [Py.lstrip_int]. rewrite Hsp. reflexivity.
Qed.

Lemma sort_key_year_value (t : Py.pyval * string * string) :
  FetchScholar._sort_key t = - year_value t.
Proof.
  unfold FetchScholar._sort_key, year_value.
  destruct (Py.int (fst (fst t))); reflexivity.
Qed.

Lemma strongly_sorted_weaken {A : Type} (R R' : A -> A -> Prop) (l : list A) :
  (forall a b, R a b -> R' a b) -> StronglySorted R l -> StronglySorted R' l.
Proof.
  intros HR. induction 1 as [|x l Hs IH Hall]; constructor; [exact IH|].
  apply (Forall_impl _ _ _ Hall). intros b. apply HR.
Qed.

(** C2: the entry sorter returns the fetched entries, rearranged so that
    the year, read as an integer and taken to be zero when missing or not
    numeric, never increases along the list; entries with the same such
    year keep their fetch order, and this order is the only one a stable
    sort on the key can produce; an entry whose year is missing or not
    numeric has the sort key of year zero, and an entry sorted as year
    zero comes after every entry with a positive year; and the years 2020, none, 2023, 2019 come out as 2023, 2020,
    2019, none. *)
Theorem C2_entries_sorted_by_year (bib_entries : list (Py.pyval * string * string)) :
  FetchScholar.sort_entries bib_entries ≡ₚ bib_entries
  /\ StronglySorted (fun a b => year_value b <= year_value a)
       (FetchScholar.sort_entries bib_entries)
  /\ (forall y : Z,
        filter (fun t => year_value t = y) (FetchScholar.sort_entries bib_entries)
        = filter (fun t => year_value t = y) bib_entries)
  /\ (forall sorted : list (Py.pyval * string * string),
        StronglySorted
          (fun a b => FetchScholar._sort_key a <= FetchScholar._sort_key b) sorted ->
        (forall k : Z,
            filter (fun t => FetchScholar._sort_key t = k) sorted
            = filter (fun t => FetchScholar._sort_key t = k) bib_entries) ->
        sorted = FetchScholar.sort_entries bib_entries)
  /\ (forall t : Py.pyval * string * string,
        Py.int (fst (fst t)) = None ->
        year_value t = 0
        /\ FetchScholar._sort_key t
           = FetchScholar._sort_key (Py.PyInt 0, snd (fst t), snd t))
  /\ (forall (year : Py.pyval) (bibtex key : string),
        Py.truthy year = false ->
        year_value (FetchScholar.bib_entry year bibtex key) = 0)
  /\ (forall (i j : nat) (a b : Py.pyval * string * string),
        FetchScholar.sort_entries bib_entries !! i = Some a ->
        FetchScholar.sort_entries bib_entries !! j = Some b ->
        year_value a = 0 ->
        0 < year_value b ->
        (j < i)%nat)
  /\ FetchScholar.sort_entries [e2020; e_none; e2023; e2019]
     = [e2023; e2020; e2019; e_none].
Proof.
  assert (Hsorted : StronglySorted (fun a b => year_value b <= year_value a)
                      (FetchScholar.sort_entries bib_entries)).
  { apply (strongly_sorted_weaken
             (fun a b => FetchScholar._sort_key a <= FetchScholar._sort_key b)).
    - intros a b. rewrite !sort_key_year_value. lia.
    - apply sort_by_sorted. }
  split; [apply sort_by_perm|]. split; [exact Hsorted|]. split.
  { intros y.
    rewrite (list_filter_iff (fun t => year_value t = y)
               (fun t => FetchScholar._sort_key t = - y))
      by (intros t; rewrite sort_key_year_value; lia).
    rewrite (list_filter_iff (fun t => year_value t = y)
               (fun t => FetchScholar._sort_key t = - y) bib_entries)
      by (intros t; rewrite sort_key_year_value; lia).
    apply sort_by_stable. }
  split.
  { intros sorted Hs Hst.
    apply (stable_sorted_unique FetchScholar._sort_key); [exact Hs | apply sort_by_sorted |].
    intros k. rewrite Hst. symmetry. apply sort_by_stable. }
  split.
  { intros t Ht. unfold year_value, FetchScholar._sort_key. rewrite Ht.
    split; reflexivity. }
  split.
  { intros year bibtex key Hyear. unfold year_value, FetchScholar.bib_entry, Py.py_or.
    rewrite Hyear. reflexivity. }
  split; [|vm_compute; reflexivity].
  intros i j a b Ha Hb Hya Hyb.
  destruct (Nat.lt_trichotomy i j) as [Hlt | [Heq | Hgt]]; [| |exact Hgt].
  - pose proof (strongly_sorted_lookup _ _ i j a b Hsorted Hlt Ha Hb) as Hle.
    cbv beta in Hle. lia.
  - subst j. rewrite Ha in Hb. injection Hb as ->. lia.
Qed.

Lemma C2_entries_sorted_by_year_witness :
  (FetchScholar.sort_entries [e2020; e_none; e_separators; e2023; e_spaces; e2019] !! 5%nat
   = Some e_separators
   /\ FetchScholar.sort_entries [e2020; e_none; e_separators; e2023; e_spaces; e2019] !! 1%nat
      = Some e_spaces
   /\ year_value e_separators = 0
   /\ year_value e_spaces = 2021
   /\ (1 < 5)%nat)
  /\ (Py.int (fst (fst e_separators)) = None
      /\ FetchScholar._sort_key e_separators
         = FetchScholar._sort_key (Py.PyInt 0, snd (fst e_separators), snd e_separators)).
Proof.
  destruct (C2_entries_sorted_by_year [e2020; e_none; e_separators; e2023; e_spaces; e2019])
    as [_ [_ [_ [_ [Hnone [_ [Hlast _]]]]]]].
  split.
  - split; [reflexivity|]. split; [reflexivity|]. split; [reflexivity|].
    split; [reflexivity|].
    apply (Hlast 5%nat 1%nat e_separators e_spaces).
    + reflexivity.
    + reflexivity.
    + reflexivity.
    + reflexivity.
  - split; [reflexivity|]. apply (Hnone e_separators). reflexivity.
Defined.

(** ** The publication fetch *)

Section Fetch.

Context {P : Type} (fill : P -> outcome P).

(** The publications kept are among those [fill] was called on. *)
Lemma fetch_from_kept (max_pubs : option Z) (i : Z) (publications : list P) :
  (length (fst (FetchScholar.fetch_from fill max_pubs i publications))
   <= length (snd (FetchScholar.fetch_from fill max_pubs i publications)))%nat.
Proof.
  revert i. induction publications as [|pub rest IH]; intros i; [reflexivity|].
  cbn [FetchScholar.fetch_from].
  destruct (FetchScholar.int_truthy max_pubs && (default 0 max_pubs <=? i));
    [reflexivity|].
  specialize (IH (i + 1)).
  destruct (FetchScholar.fetch_from fill max_pubs (i + 1) rest) as [pubs calls].
  destruct (fill pub); cbn [fst snd length] in *; lia.
Qed.

(** With a maximum other than zero, [fill] is called on at most that
    many publications. *)
Lemma fetch_from_bound (n i : Z) (publications : list P) :
  n <> 0 ->
  Z.of_nat (length (snd (FetchScholar.fetch_from fill (Some n) i publications)))
  <= Z.max 0 (n - i).
Proof.
  intros Hn. revert i. induction publications as [|pub rest IH]; intros i;
    [cbn [FetchScholar.fetch_from snd length]; lia|].
  cbn [FetchScholar.fetch_from FetchScholar.int_truthy default from_option id].
  destruct (Z.eqb_spec n 0) as [E|_]; [contradiction|]. cbn [negb andb].
  destruct (Z.leb_spec n i) as [Hle|Hgt]; [cbn [snd length]; lia|].
  specialize (IH (i + 1)).
  destruct (FetchScholar.fetch_from fill (Some n) (i + 1) rest) as [pubs calls].
  destruct (fill pub); cbn [fst snd length] in *; lia.
Qed.

(** With a maximum of zero the loop never breaks. *)
Lemma fetch_from_zero (i : Z) (publications : list P) :
  snd (FetchScholar.fetch_from fill (Some 0) i publications) = publications.
Proof.
  revert i. induction publications as [|pub rest IH]; intros i; [reflexivity|].
  cbn [FetchScholar.fetch_from FetchScholar.int_truthy Z.eqb negb andb].
  specialize (IH (i + 1)).
  destruct (FetchScholar.fetch_from fill (Some 0) (i + 1) rest) as [pubs calls].
  cbn [snd] in IH. subst calls. destruct (fill pub); reflexivity.
Qed.

End Fetch.

(** C9 does not hold at N = 0: with a maximum count of zero, detail is
    retrieved for every publication of the author, two of them here; for
    any other maximum the count is an upper bound. *)
Theorem C9_max_zero_is_no_limit :
  (forall (P : Type) (fill : P -> outcome P) (publications : list P),
      snd (FetchScholar.fetch_publications fill (Some publications) (Some 0))
      = publications)
  /\ snd (FetchScholar.fetch_publications (fun p : string => Ok p)
            (Some ["paper one"; "paper two"]) (Some 0))
     = ["paper one"; "paper two"]
  /\ (forall (P : Type) (fill : P -> outcome P) (publications : option (list P)) (n : Z),
        n <> 0 ->
        Z.of_nat (length (snd (FetchScholar.fetch_publications fill publications (Some n))))
        <= Z.max 0 n).
Proof.
  split; [|split].
  - intros P fill publications. apply fetch_from_zero.
  - reflexivity.
  - intros P fill publications n Hn. unfold FetchScholar.fetch_publications.
    pose proof (fetch_from_bound fill n 0 (default [] publications) Hn) as H.
    rewrite Z.sub_0_r in H. exact H.
Qed.

(** * Further properties of the two scripts *)

(** ** The network helpers *)

Lemma state_eta (s : state) : {| requests := requests s; files := files s |} = s.
Proof. destruct s. reflexivity. Qed.

(** The writes of the chunks append them to the file that [open] made. *)
Lemma write_chunks_content (dest base : string) (chunks : list string) (s : state) :
  files s !! dest = Some base ->
  write_chunks dest chunks s
  = (Ok tt, {| requests := requests s;
               files := <[dest := base +:+ foldr String.append "" chunks]> (files s) |}).
Proof.
  revert base s. induction chunks as [|chunk rest IH]; intros base s Hbase.
  - cbn [write_chunks foldr]. rewrite append_nil_r, (insert_id _ _ _ Hbase), state_eta.
    reflexivity.
  - cbn [write_chunks foldr]. unfold bind.
    destruct (String.eqb_spec chunk "") as [-> | Hne]; cbn [ret].
    + rewrite append_nil_l. apply (IH base s Hbase).
    + unfold write_chunk. rewrite Hbase. cbn [default from_option id].
      rewrite (IH (base +:+ chunk)) by (cbn [files]; apply lookup_insert_eq).
      cbn [requests files]. rewrite insert_insert_eq, append_assoc_str. reflexivity.
Qed.

(** What the common body of the two image fetchers does after a response
    with status 200. *)
Lemma download_200 (w : world) (url dest : string) (s : state) (r : response) :
  requests_get w (requests s) url = Ok r ->
  status_code r = 200 ->
  AddPreviews.download_image w url dest s
  = (if can_open w dest
     then (Ok (negb (stream_breaks r)),
           {| requests := requests s ++ [url];
              files := <[dest := body_of r]> (files s) |})
     else (Ok false, logged s url))
  /\ FetchScholar.download_image w url dest s = AddPreviews.download_image w url dest s.
Proof.
  intros Hget Hst. split; [|reflexivity].
  unfold AddPreviews.download_image, try_except, bind, http_get, open_wb.
  rewrite Hget, Hst. cbn [Z.eqb Pos.eqb negb requests files].
  destruct (can_open w dest); [|reflexivity].
  rewrite (write_chunks_content dest "" (iter_content r))
    by (cbn [files]; apply lookup_insert_eq).
  cbn [requests files]. rewrite insert_insert_eq, append_nil_l.
  unfold body_of. destruct (stream_breaks r); reflexivity.
Qed.

(** X1: thumbnail discovery, in either script and whatever the network
    answers, makes exactly one request, to the page URL, and leaves the
    files alone. *)
Theorem discover_one_request_no_file (w : world) (page_url : string) (s : state) :
  snd (AddPreviews.discover_thumbnail_url w page_url s) = logged s page_url
  /\ snd (FetchScholar.discover_thumbnail_url w page_url s) = logged s page_url.
Proof.
  destruct (discover_run_script1 w page_url s) as [v1 H1].
  destruct (discover_run_script2 w page_url s) as [v2 H2].
  rewrite H1, H2. split; reflexivity.
Qed.

(** X2: on a response with status 200 that streams to its end, when the
    destination can be opened, the image fetcher of either script returns
    success and the destination holds exactly the body received, whatever
    it held before. *)
Theorem download_success_writes_body
  (w : world) (url dest : string) (s : state) (r : response) :
  requests_get w (requests s) url = Ok r ->
  status_code r = 200 ->
  can_open w dest = true ->
  stream_breaks r = false ->
  AddPreviews.download_image w url dest s
  = (Ok true, {| requests := requests s ++ [url];
                 files := <[dest := body_of r]> (files s) |})
  /\ FetchScholar.download_image w url dest s
     = (Ok true, {| requests := requests s ++ [url];
                    files := <[dest := body_of r]> (files s) |}).
Proof.
  intros Hget Hst Hopen Hstream.
  destruct (download_200 w url dest s r Hget Hst) as [H1 H2].
  rewrite H2, H1, Hopen, Hstream. split; reflexivity.
Qed.

Lemma download_success_writes_body_witness :
  AddPreviews.download_image (image_web (image ["PN"; ""; "G"] false) (fun _ => true))
    "http://img/a.png" "a.png" (disk "@misc{k,}")
  = (Ok true,
     {| requests := [] ++ ["http://img/a.png"];
        files := <["a.png" := "PNG"]> (files (disk "@misc{k,}")) |}).
Proof.
  apply (download_success_writes_body
           (image_web (image ["PN"; ""; "G"] false) (fun _ => true))
           "http://img/a.png" "a.png" (disk "@misc{k,}") (image ["PN"; ""; "G"] false));
    reflexivity.
Defined.

(** X3: when the stream of a response with status 200 breaks, the image
    fetcher of either script returns failure and leaves at the destination
    a file with the part of the body received. *)
Theorem download_broken_stream_leaves_partial_file
  (w : world) (url dest : string) (s : state) (r : response) :
  requests_get w (requests s) url = Ok r ->
  status_code r = 200 ->
  can_open w dest = true ->
  stream_breaks r = true ->
  AddPreviews.download_image w url dest s
  = (Ok false, {| requests := requests s ++ [url];
                  files := <[dest := body_of r]> (files s) |})
  /\ FetchScholar.download_image w url dest s
     = (Ok false, {| requests := requests s ++ [url];
                     files := <[dest := body_of r]> (files s) |}).
Proof.
  intros Hget Hst Hopen Hstream.
  destruct (download_200 w url dest s r Hget Hst) as [H1 H2].
  rewrite H2, H1, Hopen, Hstream. split; reflexivity.
Qed.

Lemma download_broken_stream_leaves_partial_file_witness :
  AddPreviews.download_image (image_web (image ["PN"] true) (fun _ => true))
    "http://img/a.png" "a.png" s0
  = (Ok false,
     {| requests := [] ++ ["http://img/a.png"]; files := <["a.png" := "PN"]> (files s0) |}).
Proof.
  apply (download_broken_stream_leaves_partial_file
           (image_web (image ["PN"] true) (fun _ => true))
           "http://img/a.png" "a.png" s0 (image ["PN"] true));
    reflexivity.
Defined.

(** X4: when the destination cannot be opened, the image fetcher of either
    script returns failure instead of raising, and no file changes. *)
Theorem download_unwritable_destination_fails_quietly
  (w : world) (url dest : string) (s : state) :
  can_open w dest = false ->
  AddPreviews.download_image w url dest s = (Ok false, logged s url)
  /\ FetchScholar.download_image w url dest s = (Ok false, logged s url).
Proof.
  intros Hopen.
  unfold AddPreviews.download_image, FetchScholar.download_image,
    try_except, bind, http_get, open_wb.
  destruct (requests_get w (requests s) url) as [r|]; [|split; reflexivity].
  destruct (negb (status_code r =? 200)); [split; reflexivity|].
  rewrite Hopen. split; reflexivity.
Qed.

Lemma download_unwritable_destination_fails_quietly_witness :
  AddPreviews.download_image (image_web (image ["PN"] false) (fun _ => false))
    "http://img/a.png" "a.png" s0
  = (Ok false, logged s0 "http://img/a.png").
Proof.
  apply (download_unwritable_destination_fails_quietly
           (image_web (image ["PN"] false) (fun _ => false)) "http://img/a.png" "a.png" s0).
  reflexivity.
Defined.

(** Every run of the image fetcher: one request; the files are as they
    were, or differ at the destination only; success means the
    destination was written. *)
Lemma download_effect (w : world) (url dest : string) (s : state) :
  exists (b : bool) (s' : state),
    AddPreviews.download_image w url dest s = (Ok b, s')
    /\ FetchScholar.download_image w url dest s = (Ok b, s')
    /\ requests s' = requests s ++ [url]
    /\ (files s' = files s \/ exists c, files s' = <[dest := c]> (files s))
    /\ (b = true -> exists c, files s' = <[dest := c]> (files s)).
Proof.
  destruct (requests_get w (requests s) url) as [r|] eqn:Hget.
  - destruct (Z.eq_dec (status_code r) 200) as [Hst|Hst].
    + destruct (download_200 w url dest s r Hget Hst) as [H1 H2].
      rewrite H2, H1. destruct (can_open w dest).
      * eexists _, _. split; [reflexivity|]. split; [reflexivity|].
        split; [reflexivity|]. split; [right|intros _]; eexists; reflexivity.
      * exists false, (logged s url). split; [reflexivity|]. split; [reflexivity|].
        split; [reflexivity|]. split; [left; reflexivity | discriminate].
    + exists false, (logged s url).
      rewrite (download_non200 w url dest s r Hget Hst),
              (download_non200_script2 w url dest s r Hget Hst).
      split; [reflexivity|]. split; [reflexivity|]. split; [reflexivity|].
      split; [left; reflexivity | discriminate].
  - exists false, (logged s url).
    unfold AddPreviews.download_image, FetchScholar.download_image,
      try_except, bind, http_get.
    rewrite Hget. split; [reflexivity|]. split; [reflexivity|]. split; [reflexivity|].
    split; [left; reflexivity | discriminate].
Qed.

(** ** The loop and the run of script 1 *)

Lemma same_or_previewed_later (w : world) (f f' : gmap string string)
      (e e' : gmap string string) :
  dom f ⊆ dom f' -> same_or_previewed w f e e' -> same_or_previewed w f' e e'.
Proof.
  intros Hsub [-> | [thumb [He [Hfile Hprev]]]]; [left; reflexivity|].
  right. exists thumb. split; [exact He|]. split; [|exact Hprev].
  apply elem_of_dom. apply Hsub. apply elem_of_dom. exact Hfile.
Qed.

Lemma process_entry_effect (w : world) (entry : gmap string string) (s : state) :
  exists (e' : gmap string string) (s' : state),
    AddPreviews.process_entry w entry s = (Ok e', s')
    /\ dom (files s) ⊆ dom (files s')
    /\ same_or_previewed w (files s') entry e'.
Proof.
  unfold AddPreviews.process_entry.
  destruct (opt_truthy (opt_or (entry !! "url") (entry !! "doi"))) eqn:Hurl; cbn [negb];
    [|exists entry, s; split; [reflexivity|]; split; [reflexivity | left; reflexivity]].
  destruct (opt_truthy (entry !! "preview")) eqn:Hprev;
    [exists entry, s; split; [reflexivity|]; split; [reflexivity | left; reflexivity]|].
  unfold bind at 1.
  match goal with
  | |- context [AddPreviews.discover_thumbnail_url w ?u s] =>
      destruct (discover_run_script1 w u s) as [v Hv]; rewrite Hv
  end.
  destruct (opt_truthy v) eqn:Hthumb; cbn [negb];
    [|eexists entry, _; split; [reflexivity|]; split; [reflexivity | left; reflexivity]].
  cbv zeta. unfold bind.
  match goal with
  | |- context [AddPreviews.download_image w ?t ?d ?st] =>
      destruct (download_effect w t d st) as [b [s' [Hd [_ [_ [Hfiles Hok]]]]]]; rewrite Hd
  end.
  cbn [logged files] in Hfiles, Hok.
  assert (Hsub : dom (files s) ⊆ dom (files s')).
  { destruct Hfiles as [-> | [c ->]]; [reflexivity|]. rewrite dom_insert_L. set_solver. }
  destruct b.
  - eexists _, s'. split; [reflexivity|]. split; [exact Hsub|].
    right. exists (default "" v). cbv zeta. split; [reflexivity|]. split; [|exact Hprev].
    destruct (Hok eq_refl) as [c ->]. rewrite lookup_insert_eq. eexists; reflexivity.
  - exists entry, s'. split; [reflexivity|]. split; [exact Hsub | left; reflexivity].
Qed.

Lemma for_entries_effect (w : world) (es : list (gmap string string)) (s : state) :
  exists (es' : list (gmap string string)) (s' : state),
    AddPreviews.for_entries w es s = (Ok es', s')
    /\ dom (files s) ⊆ dom (files s')
    /\ Forall2 (same_or_previewed w (files s')) es es'.
Proof.
  revert s. induction es as [|e rest IH]; intros s.
  - exists [], s. split; [reflexivity|]. split; [reflexivity | constructor].
  - cbn [AddPreviews.for_entries]. unfold bind.
    destruct (process_entry_effect w e s) as [e' [s1 [He [Hsub1 Hturn]]]]. rewrite He.
    destruct (IH s1) as [rest' [s2 [Hrest [Hsub2 Hall]]]]. rewrite Hrest.
    exists (e' :: rest'), s2. split; [reflexivity|].
    split; [etrans; [exact Hsub1 | exact Hsub2]|].
    constructor; [|exact Hall].
    apply (same_or_previewed_later w (files s1)); assumption.
Qed.

(** X5: the loop of script 1 returns the entries in their order, none
    added and none dropped, and changes no field of an entry other than
    [preview]. *)
Theorem for_entries_changes_preview_only
  (w : world) (es : list (gmap string string)) (s : state) :
  exists (es' : list (gmap string string)) (s' : state),
    AddPreviews.for_entries w es s = (Ok es', s')
    /\ length es' = length es
    /\ forall (i : nat) (e e' : gmap string string) (field : string),
         es !! i = Some e -> es' !! i = Some e' ->
         field <> "preview" -> e' !! field = e !! field.
Proof.
  destruct (for_entries_effect w es s) as [es' [s' [Hrun [_ Hall]]]].
  exists es', s'. split; [exact Hrun|].
  split; [symmetry; apply (Forall2_length _ _ _ Hall)|].
  intros i e e' field He He' Hfield.
  destruct (Forall2_lookup_lr _ _ _ _ _ _ Hall He He') as [-> | [thumb [-> _]]];
    [reflexivity|].
  apply lookup_insert_ne. congruence.
Qed.

Lemma for_entries_changes_preview_only_witness :
  exists (es' : list (gmap string string)) (s' : state),
    AddPreviews.for_entries (web html_both doc_both 200 []) [entry_url] s0 = (Ok es', s')
    /\ forall e', es' !! 0%nat = Some e' -> e' !! "ID" = entry_url !! "ID".
Proof.
  destruct (for_entries_changes_preview_only (web html_both doc_both 200 []) [entry_url] s0)
    as [es' [s' [Hrun [_ Hframe]]]].
  exists es', s'. split; [exact Hrun|].
  intros e' He'. apply (Hframe 0%nat entry_url e' "ID"); [reflexivity | exact He' | discriminate].
Defined.

(** X6: each entry leaves the loop of script 1 as it entered it or with a
    preview it did not have; in that case the preview is [pub_preview/]
    followed by the name of a file of the asset directory, named after the
    entry's key with the extension [.png], [.gif] or [.jpg], and that file
    is on disk when the loop ends. *)
Theorem for_entries_preview_names_existing_file
  (w : world) (es : list (gmap string string)) (s : state) :
  exists (es' : list (gmap string string)) (s' : state),
    AddPreviews.for_entries w es s = (Ok es', s')
    /\ Forall2 (same_or_previewed w (files s')) es es'
    /\ forall thumb_url : string,
         AddPreviews.choose_ext thumb_url = ".png"
         \/ AddPreviews.choose_ext thumb_url = ".gif"
         \/ AddPreviews.choose_ext thumb_url = ".jpg".
Proof.
  destruct (for_entries_effect w es s) as [es' [s' [Hrun [_ Hall]]]].
  exists es', s'. split; [exact Hrun|]. split; [exact Hall|].
  intros thumb_url. unfold AddPreviews.choose_ext.
  destruct (contains ".png" _); [left; reflexivity|].
  destruct (contains ".gif" _); [right; left | right; right]; reflexivity.
Qed.

(** X7: the run of script 1 fails only on the bibliography file.  When
    the file is missing, or the parser rejects its text, the run raises at
    once, with no request made and no file touched.  When the text is
    parsed, the loop runs to its end whatever the network and the asset
    directory do; the run then ends normally exactly when the writer
    serializes the entries the loop leaves and the file can be opened for
    writing, and a run that fails there leaves the state as the loop left
    it, the bibliography not rewritten. *)
Theorem main_fails_only_on_the_bibliography_file (w : world) (s : state) :
  (files s !! AddPreviews.BIB_PATH = None -> AddPreviews.main w s = (Raised, s))
  /\ (forall content : string,
        files s !! AddPreviews.BIB_PATH = Some content ->
        bib_loads w (AddPreviews.bib_text_of (Py.universal_newlines content)) = Raised ->
        AddPreviews.main w s = (Raised, s))
  /\ (forall (content : string) (bib_db : bibdatabase),
        files s !! AddPreviews.BIB_PATH = Some content ->
        bib_loads w (AddPreviews.bib_text_of (Py.universal_newlines content)) = Ok bib_db ->
        exists (es : list (gmap string string)) (s1 : state),
          AddPreviews.for_entries w (entries bib_db) s = (Ok es, s1)
          /\ ((exists s', AddPreviews.main w s = (Ok tt, s'))
              <-> (exists out_text,
                      bib_write w {| entries := es; extras := extras bib_db |} = Ok out_text)
                  /\ can_open w AddPreviews.BIB_PATH = true)
          /\ (fst (AddPreviews.main w s) = Raised -> AddPreviews.main w s = (Raised, s1))).
Proof.
  unfold AddPreviews.main, bind, lift, AddPreviews.read_text, AddPreviews.write_text.
  split; [intros ->; reflexivity|]. split.
  - intros content -> ->. reflexivity.
  - intros content bib_db -> ->.
    destruct (for_entries_run w (entries bib_db) s) as [es [s1 [Hloop _]]].
    exists es, s1. rewrite Hloop. split; [reflexivity|].
    destruct (bib_write w {| entries := es; extras := extras bib_db |}) as [out_text|].
    + destruct (can_open w AddPreviews.BIB_PATH).
      * split; [|discriminate].
        split; [intros _; split; [exists out_text|]; reflexivity|].
        intros _. eexists. reflexivity.
      * split; [|reflexivity].
        split; [intros [s' H]; discriminate H | intros [_ H]; discriminate H].
    + split; [|reflexivity].
      split; [intros [s' H]; discriminate H | intros [[out H] _]; discriminate H].
Qed.

Lemma main_fails_only_on_the_bibliography_file_witness :
  AddPreviews.main (rejecting_parser (web html_both doc_both 200 [entry_url]))
    (disk plain_file)
  = (Raised, disk plain_file).
Proof.
  destruct (main_fails_only_on_the_bibliography_file
              (rejecting_parser (web html_both doc_both 200 [entry_url]))
              (disk plain_file)) as [_ [H _]].
  apply (H plain_file); reflexivity.
Defined.

(** X8: when the bibliography file exists and can be written and the
    parser accepts its text, the loop leaves each parsed entry as it was
    or with a preview; when the writer serializes these entries, the run
    of script 1 ends normally and replaces the file by the front matter,
    if any, followed by that serialization.  Each preview added names a
    file that is on disk at the end of the run, every file that was on
    disk still is, and no request is made after the loop. *)
Theorem main_rewrites_with_processed_entries
  (w : world) (s : state) (content : string) (bib_db : bibdatabase) :
  files s !! AddPreviews.BIB_PATH = Some content ->
  can_open w AddPreviews.BIB_PATH = true ->
  bib_loads w (AddPreviews.bib_text_of (Py.universal_newlines content)) = Ok bib_db ->
  exists (es' : list (gmap string string)) (s1 : state),
    AddPreviews.for_entries w (entries bib_db) s = (Ok es', s1)
    /\ forall out_text : string,
         bib_write w {| entries := es'; extras := extras bib_db |} = Ok out_text ->
         exists s' : state,
           AddPreviews.main w s = (Ok tt, s')
           /\ files s' !! AddPreviews.BIB_PATH
              = Some (AddPreviews.restore_front (Py.universal_newlines content) out_text)
           /\ Forall2 (same_or_previewed w (files s')) (entries bib_db) es'
           /\ dom (files s) ⊆ dom (files s')
           /\ requests s' = requests s1.
Proof.
  intros Hfile Hopen Hparse.
  destruct (for_entries_effect w (entries bib_db) s) as [es' [s1 [Hloop [Hsub Hall]]]].
  exists es', s1. split; [exact Hloop|].
  intros out_text Hwrite. eexists.
  unfold AddPreviews.main, bind, lift, AddPreviews.read_text, AddPreviews.write_text.
  rewrite Hfile, Hparse, Hloop, Hwrite, Hopen. split; [reflexivity|]. cbn [files requests].
  split; [apply lookup_insert_eq|].
  assert (Hsub' : dom (files s1)
                  ⊆ dom (<[AddPreviews.BIB_PATH :=
                             AddPreviews.restore_front (Py.universal_newlines content) out_text]>
                           (files s1))).
  { rewrite dom_insert_L. set_solver. }
  split; [|split; [|reflexivity]].
  - apply (Forall2_impl _ _ _ _ Hall). intros e e'.
    apply same_or_previewed_later. exact Hsub'.
  - etrans; [exact Hsub | exact Hsub'].
Qed.

Lemma main_rewrites_with_processed_entries_witness :
  exists (es' : list (gmap string string)) (s' : state),
    AddPreviews.main (web html_both doc_both 200 [entry_url; entry_with_preview])
      (disk plain_file) = (Ok tt, s')
    /\ files s' !! AddPreviews.BIB_PATH
       = Some (AddPreviews.restore_front (Py.universal_newlines plain_file) "@")
    /\ Forall2 (same_or_previewed (web html_both doc_both 200 [entry_url; entry_with_preview])
                  (files s'))
         [entry_url; entry_with_preview] es'
    /\ dom (files (disk plain_file)) ⊆ dom (files s').
Proof.
  destruct (main_rewrites_with_processed_entries
              (web html_both doc_both 200 [entry_url; entry_with_preview])
              (disk plain_file) plain_file
              {| entries := [entry_url; entry_with_preview]; extras := [] |}
              eq_refl eq_refl eq_refl) as [es' [s1 [_ H]]].
  destruct (H "@" eq_refl) as [s' [Hrun [Hfile [Hall [Hsub _]]]]].
  exists es', s'. repeat split; assumption.
Defined.

(** With the network down no turn of the loop changes an entry or a
    file. *)
Lemma for_entries_offline (w : world) (es : list (gmap string string)) (s : state) :
  (forall history url, requests_get w history url = Raised) ->
  exists s', AddPreviews.for_entries w es s = (Ok es, s') /\ files s' = files s.
Proof.
  intros Hdown. revert s. induction es as [|e rest IH]; intros s.
  - exists s. split; reflexivity.
  - assert (Hturn : exists s1, AddPreviews.process_entry w e s = (Ok e, s1)
                               /\ files s1 = files s).
    { unfold AddPreviews.process_entry.
      destruct (negb (opt_truthy (opt_or (e !! "url") (e !! "doi"))));
        [exists s; split; reflexivity|].
      destruct (opt_truthy (e !! "preview")); [exists s; split; reflexivity|].
      unfold bind, AddPreviews.discover_thumbnail_url, try_except, bind, http_get.
      rewrite Hdown. eexists. split; reflexivity. }
    destruct Hturn as [s1 [He Hf1]].
    destruct (IH s1) as [s2 [Hrest Hf2]].
    exists s2. cbn [AddPreviews.for_entries]. unfold bind. rewrite He, Hrest.
    split; [reflexivity | congruence].
Qed.

(** X9: with the network down, on an existing, writable bibliography
    whose text the parser accepts and whose entries the writer serializes,
    the run of script 1 rewrites the file from the entries exactly as
    parsed and changes no other file. *)
Theorem main_offline_rewrites_unchanged_entries
  (w : world) (s : state) (content : string) (bib_db : bibdatabase) (out_text : string) :
  (forall history url, requests_get w history url = Raised) ->
  files s !! AddPreviews.BIB_PATH = Some content ->
  can_open w AddPreviews.BIB_PATH = true ->
  bib_loads w (AddPreviews.bib_text_of (Py.universal_newlines content)) = Ok bib_db ->
  bib_write w bib_db = Ok out_text ->
  exists s' : state,
    AddPreviews.main w s = (Ok tt, s')
    /\ files s'
       = <[AddPreviews.BIB_PATH :=
             AddPreviews.restore_front (Py.universal_newlines content) out_text]>
         (files s).
Proof.
  intros Hdown Hfile Hopen Hparse Hwrite.
  destruct (for_entries_offline w (entries bib_db) s Hdown) as [s1 [Hloop Hfiles]].
  eexists.
  unfold AddPreviews.main, bind, lift, AddPreviews.read_text, AddPreviews.write_text.
  rewrite Hfile, Hparse, Hloop.
  destruct bib_db as [es extra]. cbn [entries extras].
  rewrite Hwrite, Hopen. split; [reflexivity|]. cbn [files]. rewrite Hfiles.
  reflexivity.
Qed.

Lemma main_offline_rewrites_unchanged_entries_witness :
  exists s' : state,
    AddPreviews.main (offline [entry_url; entry_doi]) (disk plain_file) = (Ok tt, s')
    /\ files s'
       = <[AddPreviews.BIB_PATH :=
             AddPreviews.restore_front (Py.universal_newlines plain_file) "@"]>
         (files (disk plain_file)).
Proof.
  apply (main_offline_rewrites_unchanged_entries (offline [entry_url; entry_doi])
           (disk plain_file) plain_file
           {| entries := [entry_url; entry_doi]; extras := [] |} "@").
  - intros history url. reflexivity.
  - reflexivity.
  - reflexivity.
  - reflexivity.
  - reflexivity.
Defined.

(** ** More on the front matter *)

Lemma find_closing_none (k : nat) (ls : list string) :
  Forall (fun l => Py.strip l <> "---") ls -> AddPreviews.find_closing k ls = None.
Proof.
  intros H. revert k. induction H as [|l ls Hl _ IH]; intros k; [reflexivity|].
  cbn [AddPreviews.find_closing].
  rewrite (proj2 (is_marker_strip_false l) Hl). apply IH.
Qed.

(** X10: when the first line is a marker and no later line is one, the
    line after the marker is kept with it as front matter and is not
    parsed: the entries are read from the third line on. *)
Theorem front_matter_never_closed_swallows_a_line
  (raw_text l0 : string) (rest : list string) :
  Py.splitlines raw_text = l0 :: rest ->
  Py.strip l0 = "---" ->
  Forall (fun l => Py.strip l <> "---") rest ->
  AddPreviews.bib_text_of raw_text = Py.join NL (drop 1 rest)
  /\ forall out,
      AddPreviews.restore_front raw_text out
      = (Py.join NL (l0 :: take 1 rest) +:+ NL +:+ NL) +:+ out.
Proof.
  intros Hlines H0 Hrest.
  unfold AddPreviews.bib_text_of, AddPreviews.restore_front, AddPreviews.end_idx.
  rewrite Hlines. cbn [AddPreviews.has_front_matter tail].
  rewrite (proj2 (is_marker_strip l0) H0), (find_closing_none 1 rest Hrest).
  split; [reflexivity|]. intros out. reflexivity.
Qed.

Lemma front_matter_never_closed_swallows_a_line_witness :
  AddPreviews.bib_text_of (Spec.block_text ["---"; "@misc{k,"; "  title = {T}"; "}"])
  = Py.join NL (drop 1 ["@misc{k,"; "  title = {T}"; "}"]).
Proof.
  destruct (front_matter_never_closed_swallows_a_line
              (Spec.block_text ["---"; "@misc{k,"; "  title = {T}"; "}"])
              "---" ["@misc{k,"; "  title = {T}"; "}"]) as [H _].
  - reflexivity.
  - reflexivity.
  - repeat constructor; discriminate.
  - exact H.
Defined.

Lemma all_chars_app (p : ascii -> bool) (a b : string) :
  all_chars p (a +:+ b) = all_chars p a && all_chars p b.
Proof.
  induction a as [|c a IH]; [reflexivity|].
  rewrite append_cons. cbn [all_chars]. rewrite IH, andb_assoc. reflexivity.
Qed.

(** No line that [splitlines] returns holds a line boundary. *)
Lemma splitlines_from_no_linebreak (s cur : string) (after_cr : bool) :
  no_linebreak cur = true ->
  Forall (fun l => no_linebreak l = true) (Py.splitlines_from after_cr cur s).
Proof.
  revert cur after_cr. induction s as [|c s IH]; intros cur after_cr Hcur.
  - cbn [Py.splitlines_from]. destruct (String.eqb cur ""); repeat constructor. exact Hcur.
  - cbn [Py.splitlines_from].
    destruct (after_cr && (Py.ord c =? 10)); [apply IH; exact Hcur|].
    destruct (Py.islinebreak c) eqn:Hc.
    + constructor; [exact Hcur | apply IH; reflexivity].
    + apply IH. unfold no_linebreak in *. rewrite all_chars_app, Hcur.
      cbn [all_chars]. rewrite Hc. reflexivity.
Qed.

Lemma splitlines_no_linebreak (s : string) :
  Forall (fun l => no_linebreak l = true) (Py.splitlines s).
Proof. apply splitlines_from_no_linebreak. reflexivity. Qed.

(** X11: when the front matter is closed, what the writer puts back is
    read again as the same front matter: a second rewrite starts with the
    very block the first one wrote, and the text parsed on the way is the
    serialized entries, line by line, after one empty line. *)
Theorem front_matter_is_stable_across_rewrites
  (raw_text lj : string) (j : nat) (out1 : string) :
  AddPreviews.has_front_matter (Py.splitlines raw_text) = true ->
  (1 <= j)%nat ->
  Py.splitlines raw_text !! j = Some lj ->
  Py.strip lj = "---" ->
  (forall i l, (1 <= i < j)%nat ->
               Py.splitlines raw_text !! i = Some l -> Py.strip l <> "---") ->
  AddPreviews.bib_text_of (AddPreviews.restore_front raw_text out1)
  = Py.join NL ("" :: Py.splitlines out1)
  /\ forall out2,
      AddPreviews.restore_front (AddPreviews.restore_front raw_text out1) out2
      = AddPreviews.restore_front raw_text out2.
Proof.
  intros Hfm Hj Hlj Hm Hbefore.
  pose proof (splitlines_no_linebreak raw_text) as Hnl.
  set (L := Py.splitlines raw_text) in *.
  set (F := take (S j) L).
  assert (HlenF : length F = S j).
  { unfold F. rewrite length_take. apply lookup_lt_Some in Hlj. lia. }
  assert (HF : F <> []) by (intros E; rewrite E in HlenF; discriminate).
  assert (Hfirst : forall out,
             AddPreviews.restore_front raw_text out = Spec.block_text F +:+ NL +:+ out).
  { intros out. unfold AddPreviews.restore_front. fold L.
    rewrite Hfm, (end_idx_first_marker L j lj Hj Hlj Hm Hbefore). fold F.
    rewrite <- (join_block F HF), !append_assoc_str. reflexivity. }
  assert (Hlines : forall out,
             Py.splitlines (AddPreviews.restore_front raw_text out)
             = F ++ "" :: Py.splitlines out).
  { intros out. rewrite Hfirst, splitlines_block by (apply Forall_take; exact Hnl).
    reflexivity. }
  assert (Hfm' : forall out, AddPreviews.has_front_matter (F ++ "" :: Py.splitlines out) = true).
  { intros out. unfold F. destruct L as [|l0 L']; [discriminate Hfm|]. exact Hfm. }
  assert (Hend : forall out, AddPreviews.end_idx (F ++ "" :: Py.splitlines out) = j).
  { intros out. apply (end_idx_first_marker _ j lj Hj); [|exact Hm|].
    - rewrite lookup_app_l by lia. unfold F. rewrite lookup_take_lt by lia. exact Hlj.
    - intros i l Hi Hl. rewrite lookup_app_l in Hl by lia.
      unfold F in Hl. rewrite lookup_take_lt in Hl by lia. apply (Hbefore i l Hi Hl). }
  split.
  - unfold AddPreviews.bib_text_of. rewrite Hlines, Hfm', Hend, <- HlenF, drop_app_length.
    reflexivity.
  - intros out2. unfold AddPreviews.restore_front at 1.
    rewrite Hlines, Hfm', Hend, <- HlenF, take_app_length, Hfirst.
    rewrite <- (join_block F HF), !append_assoc_str. reflexivity.
Qed.

Lemma front_matter_is_stable_across_rewrites_witness :
  AddPreviews.bib_text_of (AddPreviews.restore_front crlf_file "@misc{k,}")
  = Py.join NL ("" :: Py.splitlines "@misc{k,}")
  /\ forall out2,
      AddPreviews.restore_front (AddPreviews.restore_front crlf_file "@misc{k,}") out2
      = AddPreviews.restore_front crlf_file out2.
Proof.
  apply (front_matter_is_stable_across_rewrites crlf_file "---" 2 "@misc{k,}").
  - reflexivity.
  - lia.
  - reflexivity.
  - reflexivity.
  - intros i l Hi Hl. assert (i = 1%nat) as -> by lia.
    vm_compute in Hl. injection Hl as <-. discriminate.
Defined.

(** ** The publication fetch, in full *)

Lemma omap_filled_cons {P : Type} (fill : P -> outcome P) (pub : P) (l : list P) :
  omap (filled fill) (pub :: l)
  = match fill pub with
    | Ok q => q :: omap (filled fill) l
    | Raised => omap (filled fill) l
    end.
Proof.
  change (omap (filled fill) (pub :: l))
    with (match filled fill pub with
          | Some q => q :: omap (filled fill) l
          | None => omap (filled fill) l
          end).
  unfold filled at 1. destruct (fill pub); reflexivity.
Qed.

Lemma fetch_from_step {P : Type} (fill : P -> outcome P) (max_pubs : option Z)
      (i : Z) (pub : P) (rest : list P) :
  (FetchScholar.int_truthy max_pubs && (default 0 max_pubs <=? i)) = false ->
  FetchScholar.fetch_from fill max_pubs i (pub :: rest)
  = match fill pub with
    | Ok q => (q :: fst (FetchScholar.fetch_from fill max_pubs (i + 1) rest),
               pub :: snd (FetchScholar.fetch_from fill max_pubs (i + 1) rest))
    | Raised => (fst (FetchScholar.fetch_from fill max_pubs (i + 1) rest),
                 pub :: snd (FetchScholar.fetch_from fill max_pubs (i + 1) rest))
    end.
Proof.
  intros H. cbn [FetchScholar.fetch_from]. rewrite H.
  destruct (FetchScholar.fetch_from fill max_pubs (i + 1) rest) as [pubs calls].
  destruct (fill pub); reflexivity.
Qed.

Lemma fetch_from_spec {P : Type} (fill : P -> outcome P) (max_pubs : option Z)
      (i : Z) (publications : list P) :
  0 <= i ->
  snd (FetchScholar.fetch_from fill max_pubs i publications)
  = (if FetchScholar.int_truthy max_pubs
     then take (Z.to_nat (default 0 max_pubs - i)) publications
     else publications)
  /\ fst (FetchScholar.fetch_from fill max_pubs i publications)
     = omap (filled fill) (snd (FetchScholar.fetch_from fill max_pubs i publications)).
Proof.
  revert i. induction publications as [|pub rest IH]; intros i Hi.
  - cbn [FetchScholar.fetch_from snd fst]. rewrite take_nil.
    destruct (FetchScholar.int_truthy max_pubs); split; reflexivity.
  - destruct (FetchScholar.int_truthy max_pubs && (default 0 max_pubs <=? i)) eqn:Hstop.
    + apply andb_true_iff in Hstop as [Ht Hle]. apply Z.leb_le in Hle.
      cbn [FetchScholar.fetch_from]. rewrite Ht.
      destruct (Z.leb_spec (default 0 max_pubs) i) as [_|Hgt]; [|lia].
      cbn [andb snd fst]. replace (Z.to_nat (default 0 max_pubs - i)) with 0%nat by lia.
      split; reflexivity.
    + rewrite (fetch_from_step fill max_pubs i pub rest Hstop).
      destruct (IH (i + 1)) as [IH1 IH2]; [lia|].
      assert (Hsnd : pub :: snd (FetchScholar.fetch_from fill max_pubs (i + 1) rest)
                     = if FetchScholar.int_truthy max_pubs
                       then take (Z.to_nat (default 0 max_pubs - i)) (pub :: rest)
                       else pub :: rest).
      { rewrite IH1. destruct (FetchScholar.int_truthy max_pubs); [|reflexivity].
        cbn [andb] in Hstop. apply Z.leb_gt in Hstop.
        replace (Z.to_nat (default 0 max_pubs - i))
          with (S (Z.to_nat (default 0 max_pubs - (i + 1)))) by lia.
        reflexivity. }
      destruct (fill pub) eqn:Hf; cbn [snd fst]; (split; [exact Hsnd|]);
        rewrite omap_filled_cons, Hf, IH2; reflexivity.
Qed.

(** X12: the publication fetch asks for the detail of the first [N]
    publications of the author when a maximum [N] other than zero is
    given (of none when [N] is negative) and of all of them otherwise, of
    none when the author record has no publication list; it returns, in
    order, the details that arrived, skipping the publications whose
    retrieval raised. *)
Theorem fetch_publications_takes_prefix_and_skips_failures
  {P : Type} (fill : P -> outcome P) (publications : option (list P)) (max_pubs : option Z) :
  snd (FetchScholar.fetch_publications fill publications max_pubs)
  = within_limit max_pubs (default [] publications)
  /\ fst (FetchScholar.fetch_publications fill publications max_pubs)
     = omap (filled fill) (within_limit max_pubs (default [] publications)).
Proof.
  unfold FetchScholar.fetch_publications, within_limit.
  destruct (fetch_from_spec fill max_pubs 0 (default [] publications)) as [H1 H2]; [lia|].
  rewrite Z.sub_0_r in H1. rewrite H2, H1. split; reflexivity.
Qed.

Example fetch_publications_example :
  FetchScholar.fetch_publications fill_unless_x (Some ["a"; "x1"; "b"; "c"]) (Some 3)
  = (["a (filled)"; "b (filled)"], ["a"; "x1"; "b"]).
Proof. vm_compute. reflexivity. Qed.

(** ** Keys *)

Ltac by_cases_on_char c :=
  destruct c as [[] [] [] [] [] [] [] []]; vm_compute;
  try reflexivity; try discriminate; try (intros; reflexivity); try (intros; discriminate).

Lemma key_char_lower (c : ascii) : key_char c = true -> Py.lower_char c = c.
Proof. by_cases_on_char c. Qed.

Lemma key_char_not_space (c : ascii) : key_char c = true -> Py.isspace c = false.
Proof. by_cases_on_char c. Qed.

Lemma key_char_slug_char (c : ascii) : key_char c = true -> FetchScholar.slug_char c = true.
Proof. by_cases_on_char c. Qed.

Lemma key_char_not_comma (c : ascii) : key_char c = true -> negb (Py.ord c =? 44) = true.
Proof. by_cases_on_char c. Qed.

Lemma is_hyphen_eq (c : ascii) : FetchScholar.is_hyphen c = true -> c = "-"%char.
Proof. by_cases_on_char c. Qed.

Lemma is_hyphen_lower (c : ascii) :
  FetchScholar.is_hyphen (Py.lower_char c) = FetchScholar.is_hyphen c.
Proof. by_cases_on_char c. Qed.

Lemma is_hyphen_not_space (c : ascii) : FetchScholar.is_hyphen c = true -> Py.isspace c = false.
Proof. by_cases_on_char c. Qed.

Lemma is_hyphen_slug_char (c : ascii) :
  FetchScholar.is_hyphen c = true -> FetchScholar.slug_char c = true.
Proof. by_cases_on_char c. Qed.

Lemma all_chars_weaken (p q : ascii -> bool) (s : string) :
  (forall c, p c = true -> q c = true) -> all_chars p s = true -> all_chars q s = true.
Proof.
  intros Hpq. induction s as [|c s IH]; [reflexivity|]. cbn [all_chars].
  intros H. apply andb_true_iff in H as [Hc Hs]. rewrite (Hpq c Hc), (IH Hs). reflexivity.
Qed.

(** Texts without whitespace, upper case or characters outside the class
    pass the first steps of [slugify] unchanged. *)
Lemma lstrip_no_space (s : string) :
  all_chars (fun c => negb (Py.isspace c)) s = true -> Py.lstrip s = s.
Proof.
  destruct s as [|c s]; [reflexivity|]. cbn [all_chars Py.lstrip]. intros H.
  apply andb_true_iff in H as [Hc _]. apply negb_true_iff in Hc. rewrite Hc. reflexivity.
Qed.

Lemma rstrip_no_space (s : string) :
  all_chars (fun c => negb (Py.isspace c)) s = true -> Py.rstrip s = s.
Proof.
  induction s as [|c s IH]; [reflexivity|]. cbn [all_chars Py.rstrip]. intros H.
  apply andb_true_iff in H as [Hc Hs]. apply negb_true_iff in Hc. rewrite (IH Hs), Hc.
  destruct s; reflexivity.
Qed.

Lemma lower_key_chars (s : string) : all_chars key_char s = true -> Py.lower s = s.
Proof.
  induction s as [|c s IH]; [reflexivity|]. cbn [all_chars Py.lower]. intros H.
  apply andb_true_iff in H as [Hc Hs]. rewrite (key_char_lower c Hc), (IH Hs). reflexivity.
Qed.

Lemma filter_chars_all (p : ascii -> bool) (s : string) :
  all_chars p s = true -> Py.filter_chars p s = s.
Proof.
  induction s as [|c s IH]; [reflexivity|]. cbn [all_chars Py.filter_chars]. intros H.
  apply andb_true_iff in H as [Hc Hs]. rewrite Hc, (IH Hs). reflexivity.
Qed.

Lemma collapse_none (cls : ascii -> bool) (b : bool) (s : string) :
  all_chars (fun c => negb (cls c)) s = true -> Spec.collapse cls b s = s.
Proof.
  revert b. induction s as [|c s IH]; intros b; [reflexivity|].
  cbn [all_chars Spec.collapse]. intros H.
  apply andb_true_iff in H as [Hc Hs]. apply negb_true_iff in Hc.
  rewrite Hc, (IH false Hs). reflexivity.
Qed.

Lemma collapse_single_hyphens (b : bool) (s : string) :
  no_double_hyphen s = true ->
  (b = true -> match s with
               | String c _ => FetchScholar.is_hyphen c = false
               | EmptyString => True
               end) ->
  Spec.collapse FetchScholar.is_hyphen b s = s.
Proof.
  revert b. induction s as [|c s IH]; intros b Hs Hb; [reflexivity|].
  cbn [no_double_hyphen] in Hs. apply andb_true_iff in Hs as [Hc Hs].
  cbn [Spec.collapse]. destruct (FetchScholar.is_hyphen c) eqn:Hh.
  - destruct b; [specialize (Hb eq_refl); discriminate|].
    rewrite (is_hyphen_eq c Hh). f_equal. apply (IH true Hs). intros _.
    destruct s as [|c' s]; [exact I|]. cbn [andb] in Hc.
    apply negb_true_iff in Hc. exact Hc.
  - f_equal. apply (IH false Hs). discriminate.
Qed.

Lemma take_chars_all (n : nat) (s : string) :
  (String.length s <= n)%nat -> Py.take_chars n s = s.
Proof.
  revert s. induction n as [|n IH]; intros s Hlen.
  - destruct s; [reflexivity | cbn in Hlen; lia].
  - destruct s as [|c s]; [reflexivity|]. cbn [Py.take_chars]. f_equal. apply IH.
    cbn in Hlen. lia.
Qed.

(** The shape of every slug. *)
Lemma slugify_shape (text : string) :
  (String.length (FetchScholar.slugify text) <= 80)%nat
  /\ all_chars key_char (FetchScholar.slugify text) = true
  /\ no_double_hyphen (FetchScholar.slugify text) = true.
Proof.
  split; [unfold FetchScholar.slugify; apply length_take_chars|].
  rewrite slugify_strip_then_slug. unfold Spec.slug. split.
  - apply all_chars_take.
    apply (all_chars_collapse FetchScholar.is_hyphen key_char key_char);
      [reflexivity | intros c Hc _; exact Hc |].
    apply (all_chars_collapse Py.isspace FetchScholar.slug_char key_char);
      [reflexivity | exact slug_char_not_space |].
    apply all_chars_filter.
  - apply no_double_hyphen_take. apply no_double_hyphen_collapse.
Qed.

(** A text that has the shape of a slug is its own slug. *)
Lemma slugify_fixed (s : string) :
  (String.length s <= 80)%nat ->
  all_chars key_char s = true ->
  no_double_hyphen s = true ->
  FetchScholar.slugify s = s.
Proof.
  intros Hlen Hkey Hdouble.
  assert (Hnospace : all_chars (fun c => negb (Py.isspace c)) s = true).
  { apply (all_chars_weaken key_char); [|exact Hkey].
    intros c Hc. rewrite (key_char_not_space c Hc). reflexivity. }
  rewrite slugify_strip_then_slug. unfold Spec.slug, Py.strip.
  rewrite (lstrip_no_space s Hnospace), (rstrip_no_space s Hnospace),
    (lower_key_chars s Hkey),
    (filter_chars_all _ s (all_chars_weaken _ _ s key_char_slug_char Hkey)),
    (collapse_none Py.isspace false s Hnospace),
    (collapse_single_hyphens false s Hdouble) by discriminate.
  apply take_chars_all. exact Hlen.
Qed.

(** X13: [slugify] is idempotent: a slug is left as it is. *)
Theorem slugify_idempotent (text : string) :
  FetchScholar.slugify (FetchScholar.slugify text) = FetchScholar.slugify text.
Proof.
  destruct (slugify_shape text) as [Hlen [Hkey Hdouble]].
  apply slugify_fixed; assumption.
Qed.

Lemma drop_while_run (p : ascii -> bool) (run : string) (b : ascii) (rest : string) :
  all_chars p run = true -> p b = false ->
  FetchScholar.drop_while p (run +:+ String b rest) = String b rest.
Proof.
  intros Hrun Hb. induction run as [|c run IH].
  - rewrite append_nil_l. cbn [FetchScholar.drop_while]. rewrite Hb. reflexivity.
  - cbn [all_chars] in Hrun. apply andb_true_iff in Hrun as [Hc Hrun].
    rewrite append_cons. cbn [FetchScholar.drop_while]. rewrite Hc. apply (IH Hrun).
Qed.

Lemma take_while_run (p : ascii -> bool) (run : string) (b : ascii) (rest : string) :
  all_chars p run = true -> p b = false ->
  FetchScholar.take_while p (run +:+ String b rest) = run.
Proof.
  intros Hrun Hb. induction run as [|c run IH].
  - rewrite append_nil_l. cbn [FetchScholar.take_while]. rewrite Hb. reflexivity.
  - cbn [all_chars] in Hrun. apply andb_true_iff in Hrun as [Hc Hrun].
    rewrite append_cons. cbn [FetchScholar.take_while]. rewrite Hc, (IH Hrun). reflexivity.
Qed.

Lemma take_while_all (p : ascii -> bool) (run : string) :
  all_chars p run = true -> FetchScholar.take_while p run = run.
Proof.
  induction run as [|c run IH]; [reflexivity|]. cbn [all_chars FetchScholar.take_while].
  intros H. apply andb_true_iff in H as [Hc Hrun]. rewrite Hc, (IH Hrun). reflexivity.
Qed.

(** The pattern matches at an entry head [@type{key,]. *)
Lemma match_key_at_head (type key rest : string) :
  type <> "" -> all_chars Py.isword type = true ->
  key <> "" -> all_chars (fun c => negb (Py.ord c =? 44)) key = true ->
  FetchScholar.match_key_at (type +:+ String "{"%char (key +:+ String ","%char rest))
  = Some key.
Proof.
  intros Htype Hword Hkey Hcomma. unfold FetchScholar.match_key_at.
  rewrite (drop_while_run Py.isword type "{"%char _ Hword eq_refl).
  destruct type as [|c type]; [contradiction|]. rewrite append_cons.
  cbn [all_chars] in Hword. apply andb_true_iff in Hword as [Hc _]. rewrite Hc.
  change (Py.ord "{" =? 123) with true. cbv iota.
  rewrite (take_while_run _ key ","%char rest Hcomma eq_refl).
  destruct key; [contradiction | reflexivity].
Qed.

Lemma search_key_head (before type key rest : string) :
  all_chars (fun c => negb (Py.ord c =? 64)) before = true ->
  type <> "" -> all_chars Py.isword type = true ->
  key <> "" -> all_chars (fun c => negb (Py.ord c =? 44)) key = true ->
  FetchScholar.search_key
    (before +:+ String "@"%char (type +:+ String "{"%char (key +:+ String ","%char rest)))
  = Some key.
Proof.
  intros Hbefore Htype Hword Hkey Hcomma. induction before as [|c before IH].
  - rewrite append_nil_l. cbn [FetchScholar.search_key].
    change (Py.ord "@" =? 64) with true. cbv iota.
    rewrite (match_key_at_head type key rest Htype Hword Hkey Hcomma). reflexivity.
  - cbn [all_chars] in Hbefore. apply andb_true_iff in Hbefore as [Hc Hbefore].
    apply negb_true_iff in Hc.
    rewrite append_cons. cbn [FetchScholar.search_key]. rewrite Hc. apply (IH Hbefore).
Qed.

(** X14: when the citation-entry text has an entry head [@type{key,] (a
    type of word characters, a non-empty key without commas) and no [@]
    before it, the key assigner returns that key, whatever the title and
    the year. *)
Theorem parse_bibtex_key_reads_entry_head
  (before type key rest title : string) (year : Py.pyval) :
  all_chars (fun c => negb (Py.ord c =? 64)) before = true ->
  type <> "" -> all_chars Py.isword type = true ->
  key <> "" -> all_chars (fun c => negb (Py.ord c =? 44)) key = true ->
  FetchScholar.parse_bibtex_key
    (before +:+ "@" +:+ type +:+ "{" +:+ key +:+ "," +:+ rest) title year
  = key.
Proof.
  intros Hbefore Htype Hword Hkey Hcomma. unfold FetchScholar.parse_bibtex_key.
  change (before +:+ "@" +:+ type +:+ "{" +:+ key +:+ "," +:+ rest)
    with (before +:+ String "@"%char (type +:+ String "{"%char (key +:+ String ","%char rest))).
  rewrite (search_key_head before type key rest Hbefore Htype Hword Hkey Hcomma).
  reflexivity.
Qed.

Lemma parse_bibtex_key_reads_entry_head_witness :
  FetchScholar.parse_bibtex_key
    ("% exported" +:+ "@" +:+ "inproceedings" +:+ "{" +:+ "smith2020deep" +:+ ","
     +:+ " title={Deep, nets}}") "Another title" (Py.PyStr "1999")
  = "smith2020deep".
Proof.
  apply (parse_bibtex_key_reads_entry_head "% exported" "inproceedings" "smith2020deep"
           " title={Deep, nets}}" "Another title" (Py.PyStr "1999"));
    (reflexivity || discriminate).
Defined.

(** A hyphen survives every step of [slugify] up to the collapse of the
    hyphen runs. *)
Lemma any_hyphen_middle (a b : string) :
  any_char FetchScholar.is_hyphen (a +:+ String "-"%char b) = true.
Proof.
  induction a as [|c a IH]; [reflexivity|].
  rewrite append_cons. cbn [any_char]. rewrite IH. apply orb_true_r.
Qed.

Lemma space_not_hyphen (c : ascii) : Py.isspace c = true -> FetchScholar.is_hyphen c = false.
Proof.
  intros Hs. destruct (FetchScholar.is_hyphen c) eqn:Hh; [|reflexivity].
  rewrite (is_hyphen_not_space c Hh) in Hs. discriminate.
Qed.

Lemma any_hyphen_lstrip (s : string) :
  any_char FetchScholar.is_hyphen (Py.lstrip s) = any_char FetchScholar.is_hyphen s.
Proof.
  induction s as [|c s IH]; [reflexivity|]. cbn [Py.lstrip].
  destruct (Py.isspace c) eqn:Hs; [|reflexivity].
  cbn [any_char]. rewrite (space_not_hyphen c Hs). exact IH.
Qed.

Lemma any_hyphen_rstrip (s : string) :
  any_char FetchScholar.is_hyphen (Py.rstrip s) = any_char FetchScholar.is_hyphen s.
Proof.
  induction s as [|c s IH]; [reflexivity|]. cbn [Py.rstrip any_char]. rewrite <- IH.
  destruct (Py.rstrip s) as [|c' r]; [|reflexivity].
  destruct (Py.isspace c) eqn:Hs; [|reflexivity].
  rewrite (space_not_hyphen c Hs). reflexivity.
Qed.

Lemma any_hyphen_lower (s : string) :
  any_char FetchScholar.is_hyphen (Py.lower s) = any_char FetchScholar.is_hyphen s.
Proof.
  induction s as [|c s IH]; [reflexivity|]. cbn [Py.lower any_char].
  rewrite is_hyphen_lower, IH. reflexivity.
Qed.

Lemma any_hyphen_filter (s : string) :
  any_char FetchScholar.is_hyphen (Py.filter_chars FetchScholar.slug_char s)
  = any_char FetchScholar.is_hyphen s.
Proof.
  induction s as [|c s IH]; [reflexivity|]. cbn [Py.filter_chars any_char].
  destruct (FetchScholar.slug_char c) eqn:Hk; [cbn [any_char]; rewrite IH; reflexivity|].
  destruct (FetchScholar.is_hyphen c) eqn:Hh; [|exact IH].
  rewrite (is_hyphen_slug_char c Hh) in Hk. discriminate.
Qed.

Lemma any_hyphen_collapse_space (b : bool) (s : string) :
  any_char FetchScholar.is_hyphen s = true ->
  any_char FetchScholar.is_hyphen (Spec.collapse Py.isspace b s) = true.
Proof.
  revert b. induction s as [|c s IH]; intros b; [discriminate|].
  cbn [any_char Spec.collapse]. intros H.
  destruct (Py.isspace c) eqn:Hs.
  - rewrite (space_not_hyphen c Hs) in H. cbn [orb] in H.
    destruct b; [apply (IH true H)|]. cbn [any_char]. reflexivity.
  - cbn [any_char]. destruct (FetchScholar.is_hyphen c); [reflexivity|].
    apply (IH false H).
Qed.

Lemma collapse_nonempty (cls : ascii -> bool) (s : string) :
  s <> "" -> Spec.collapse cls false s <> "".
Proof.
  destruct s as [|c s]; [contradiction|]. intros _. cbn [Spec.collapse].
  destruct (cls c); discriminate.
Qed.

Lemma slugify_with_hyphen_nonempty (a b : string) :
  FetchScholar.slugify (a +:+ "-" +:+ b) <> "".
Proof.
  rewrite slugify_strip_then_slug. unfold Spec.slug, Py.strip.
  change (a +:+ "-" +:+ b) with (a +:+ String "-"%char b).
  assert (H : any_char FetchScholar.is_hyphen
                (Spec.collapse Py.isspace false
                   (Py.filter_chars FetchScholar.slug_char
                      (Py.lower (Py.rstrip (Py.lstrip (a +:+ String "-"%char b)))))) = true).
  { apply any_hyphen_collapse_space.
    rewrite any_hyphen_filter, any_hyphen_lower, any_hyphen_rstrip, any_hyphen_lstrip.
    apply any_hyphen_middle. }
  match goal with
  | |- Py.take_chars 80 (Spec.collapse _ false ?t) <> _ =>
      assert (Ht : t <> "") by (intros E; rewrite E in H; discriminate H);
      pose proof (collapse_nonempty FetchScholar.is_hyphen t Ht) as Hc;
      destruct (Spec.collapse FetchScholar.is_hyphen false t); [contradiction | discriminate]
  end.
Qed.

(** The key of the entry built in place of a failed export, and what
    the key assigner reads from that entry. *)
Lemma fallback_entry_key_parts
  (now : Z) (title : string) (year : Py.pyval) (authors venue : string) :
  FetchScholar.fallback_key now title year
  = FetchScholar.slugify (title +:+ "-" +:+ Py.format (Py.py_or year (Py.PyStr "")))
  /\ forall (title' : string) (year' : Py.pyval),
       FetchScholar.parse_bibtex_key
         (FetchScholar.fallback_bibtex now title year authors venue) title' year'
       = FetchScholar.slugify (title +:+ "-" +:+ Py.format (Py.py_or year (Py.PyStr ""))).
Proof.
  pose proof (slugify_with_hyphen_nonempty title
                (Py.format (Py.py_or year (Py.PyStr "")))) as Hne.
  assert (Hkey : FetchScholar.fallback_key now title year
                 = FetchScholar.slugify
                     (title +:+ "-" +:+ Py.format (Py.py_or year (Py.PyStr "")))).
  { unfold FetchScholar.fallback_key.
    destruct (String.eqb_spec
                (FetchScholar.slugify
                   (title +:+ "-" +:+ Py.format (Py.py_or year (Py.PyStr "")))) "");
      [contradiction | reflexivity]. }
  split; [exact Hkey|].
  intros title' year'. rewrite <- Hkey. unfold FetchScholar.fallback_bibtex.
  change ("@" +:+ "article" +:+ "{" +:+ FetchScholar.fallback_key now title year
          +:+ "," +:+ NL
          +:+ Py.join ("," +:+ NL) (FetchScholar.fallback_fields title year authors venue)
          +:+ NL +:+ "}")
    with ("" +:+ String "@"%char ("article" +:+ String "{"%char
            (FetchScholar.fallback_key now title year +:+ String ","%char (NL
          +:+ Py.join ("," +:+ NL) (FetchScholar.fallback_fields title year authors venue)
          +:+ NL +:+ "}")))).
  unfold FetchScholar.parse_bibtex_key.
  rewrite (search_key_head "" "article" (FetchScholar.fallback_key now title year)).
  - reflexivity.
  - reflexivity.
  - discriminate.
  - reflexivity.
  - rewrite Hkey. exact Hne.
  - rewrite Hkey. apply (all_chars_weaken key_char); [exact key_char_not_comma|].
    apply slugify_shape.
Qed.

(** X15: when the service's citation export raises, the entry built in
    its place carries as key the slug of [title-year], which is never
    empty, so that the time-stamped key [key<seconds>] is never used; and
    the key assigner reads that very key back from the entry. *)
Theorem fallback_entry_key_round_trip
  (now : Z) (title : string) (year : Py.pyval) (authors venue : string) :
  FetchScholar.fallback_key now title year
  = FetchScholar.slugify (title +:+ "-" +:+ Py.format (Py.py_or year (Py.PyStr "")))
  /\ FetchScholar.fallback_key now title year <> ""
  /\ forall (title' : string) (year' : Py.pyval),
       FetchScholar.parse_bibtex_key
         (FetchScholar.fallback_bibtex now title year authors venue) title' year'
       = FetchScholar.fallback_key now title year.
Proof.
  destruct (fallback_entry_key_parts now title year authors venue) as [Hkey Hparse].
  split; [exact Hkey|]. split.
  - rewrite Hkey. apply slugify_with_hyphen_nonempty.
  - intros title' year'. rewrite Hkey. apply Hparse.
Qed.

(** ** The backup of script 2 *)

Lemma backup_path_is_not_the_bibliography (ts : string) :
  FetchScholar.backup_path ts <> FetchScholar.BIB_PATH.
Proof. intros H. vm_compute in H. discriminate H. Qed.



(** ** The entries written by script 2 *)

Lemma endswith_app (suffix x : string) : Py.endswith suffix (x +:+ suffix) = true.
Proof.
  induction x as [|c x IH].
  - rewrite append_nil_l. destruct suffix; cbn [Py.endswith]; rewrite String.eqb_refl;
      reflexivity.
  - rewrite append_cons. cbn [Py.endswith]. rewrite IH. apply orb_true_r.
Qed.

Lemma length_append (a b : string) :
  String.length (a +:+ b) = (String.length a + String.length b)%nat.
Proof.
  induction a as [|c a IH]; [reflexivity|]. rewrite append_cons. cbn [String.length].
  rewrite IH. reflexivity.
Qed.

Lemma endswith_short (suffix t : string) :
  (String.length t < String.length suffix)%nat -> Py.endswith suffix t = false.
Proof.
  induction t as [|e t IH]; intros Ht.
  - cbn [Py.endswith]. destruct suffix; [cbn in Ht; lia | reflexivity].
  - cbn [Py.endswith]. rewrite IH by (cbn in Ht; lia).
    destruct (String.eqb_spec (String e t) suffix) as [E|_]; [|reflexivity].
    rewrite E in Ht. lia.
Qed.

(** Whether a text ends with a suffix is decided by its last characters. *)
Lemma endswith_same_length (suffix x y : string) :
  String.length y = String.length suffix ->
  Py.endswith suffix (x +:+ y) = String.eqb y suffix.
Proof.
  intros Hlen. induction x as [|c x IH].
  - rewrite append_nil_l. destruct y as [|d y]; cbn [Py.endswith].
    + apply orb_false_r.
    + rewrite (endswith_short suffix y) by (cbn in Hlen; lia). apply orb_false_r.
  - rewrite append_cons. cbn [Py.endswith]. rewrite IH.
    destruct (String.eqb_spec (String c (x +:+ y)) suffix) as [E|_]; [|reflexivity].
    apply (f_equal String.length) in E. cbn [String.length] in E.
    rewrite length_append in E. lia.
Qed.

Lemma rstrip_spaces (w : string) : all_chars Py.isspace w = true -> Py.rstrip w = "".
Proof.
  induction w as [|c w IH]; [reflexivity|]. cbn [all_chars Py.rstrip]. intros H.
  apply andb_true_iff in H as [Hc Hw]. rewrite (IH Hw), Hc. reflexivity.
Qed.

Lemma rstrip_app_spaces (x w : string) :
  all_chars Py.isspace w = true -> Py.rstrip (x +:+ w) = Py.rstrip x.
Proof.
  intros Hw. induction x as [|c x IH].
  - rewrite append_nil_l. apply rstrip_spaces. exact Hw.
  - rewrite append_cons. cbn [Py.rstrip]. rewrite IH. reflexivity.
Qed.

Lemma rstrip_app_keep (x y : string) :
  Py.rstrip y <> "" -> Py.rstrip (x +:+ y) = x +:+ Py.rstrip y.
Proof.
  intros Hy. induction x as [|c x IH]; [reflexivity|].
  rewrite !append_cons. cbn [Py.rstrip]. rewrite IH.
  destruct (x +:+ Py.rstrip y) eqn:E; [|reflexivity].
  destruct x; [rewrite append_nil_l in E; contradiction | discriminate E].
Qed.

Lemma rstrip_idempotent (x : string) : Py.rstrip (Py.rstrip x) = Py.rstrip x.
Proof.
  induction x as [|c x IH]; [reflexivity|]. cbn [Py.rstrip].
  destruct (Py.rstrip x) as [|d r] eqn:E.
  - destruct (Py.isspace c) eqn:Hc; [reflexivity|]. cbn [Py.rstrip]. rewrite Hc. reflexivity.
  - change (Py.rstrip (String c (String d r)))
      with (match Py.rstrip (String d r) with
            | EmptyString => if Py.isspace c then EmptyString else String c EmptyString
            | String a b => String c (String a b)
            end).
    rewrite IH. reflexivity.
Qed.

Lemma endswith_strip (ch : ascii) (x : string) :
  Py.endswith (String ch "") (Py.rstrip x) = true ->
  Py.endswith (String ch "") (Py.strip x) = true.
Proof.
  unfold Py.strip. induction x as [|c x IH]; [intros H; exact H|].
  cbn [Py.lstrip]. destruct (Py.isspace c) eqn:Hc; [|intros H; exact H].
  cbn [Py.rstrip]. rewrite Hc. destruct (Py.rstrip x) as [|d r] eqn:E.
  - cbn. discriminate.
  - intros H. apply IH. cbn [Py.endswith] in H. cbn [Py.endswith].
    replace (String.eqb (String c (String d r)) (String ch "")) with false in H; [exact H|].
    cbn. destruct (Ascii.eqb c ch); reflexivity.
Qed.

Lemma rstrip_char_closing (n : nat) : Py.rstrip_char "}"%char (closing n) = "".
Proof. induction n as [|n IH]; [reflexivity|]. cbn [closing Py.rstrip_char]. rewrite IH. reflexivity. Qed.

Lemma rstrip_char_app_closing (x : string) (n : nat) :
  Py.rstrip_char "}"%char (x +:+ closing n) = Py.rstrip_char "}"%char x.
Proof.
  induction x as [|c x IH].
  - rewrite append_nil_l. apply rstrip_char_closing.
  - rewrite append_cons. cbn [Py.rstrip_char]. rewrite IH. reflexivity.
Qed.

Lemma rstrip_char_keep (body : string) :
  Py.endswith "}" body = false -> Py.rstrip_char "}"%char body = body.
Proof.
  induction body as [|c b IH]; [reflexivity|]. cbn [Py.endswith Py.rstrip_char]. intros H.
  apply orb_false_iff in H as [Heq Hb]. rewrite (IH Hb).
  destruct b as [|d b]; [|reflexivity].
  cbn in Heq. destruct (Ascii.eqb c "}"); [discriminate Heq | reflexivity].
Qed.

Lemma closing_snoc (n : nat) : closing (S n) = closing n +:+ "}".
Proof.
  induction n as [|n IH]; [reflexivity|].
  change (String "}"%char (closing (S n)) = String "}"%char (closing n) +:+ "}").
  rewrite append_cons. f_equal. exact IH.
Qed.

Lemma closing_no_space (n : nat) :
  all_chars (fun c => negb (Py.isspace c)) (closing n) = true.
Proof. induction n as [|n IH]; [reflexivity|]. cbn [closing all_chars]. rewrite IH. reflexivity. Qed.

(** X17: every entry that script 2 writes ends with an empty line; and an
    entry for which no preview was downloaded is written as it was
    fetched, apart from the whitespace at its end. *)
Theorem final_entry_ends_with_blank_line
  (preview_map : gmap string string) (bibtex key : string) :
  Py.endswith (NL +:+ NL) (FetchScholar.final_entry preview_map bibtex key) = true
  /\ (preview_map !! key = None ->
      Py.rstrip (FetchScholar.final_entry preview_map bibtex key) = Py.rstrip bibtex).
Proof.
  unfold FetchScholar.final_entry. split.
  - match goal with
    | |- context [negb (Py.endswith (NL +:+ NL) ?b)] =>
        destruct (Py.endswith (NL +:+ NL) b) eqn:E; cbn [negb]
    end; [exact E | apply endswith_app].
  - intros Hnone. rewrite Hnone.
    destruct (Py.endswith (NL +:+ NL) bibtex); cbn [negb]; [reflexivity|].
    rewrite (rstrip_app_spaces (Py.rstrip bibtex) (NL +:+ NL)) by reflexivity.
    apply rstrip_idempotent.
Qed.

Lemma final_entry_ends_with_blank_line_witness :
  Py.rstrip (FetchScholar.final_entry ∅ ("@article{k, title={T}}" +:+ NL) "k")
  = Py.rstrip ("@article{k, title={T}}" +:+ NL).
Proof.
  apply (final_entry_ends_with_blank_line ∅ ("@article{k, title={T}}" +:+ NL) "k").
  reflexivity.
Defined.

(** The text before the closing braces and the whitespace of an entry. *)
Lemma entry_body (body ws : string) (n : nat) :
  Py.endswith "}" body = false ->
  all_chars Py.isspace ws = true ->
  Py.endswith "}" (Py.strip (body +:+ closing (S n) +:+ ws)) = true
  /\ Py.rstrip_char "}"%char (Py.rstrip (body +:+ closing (S n) +:+ ws)) = body.
Proof.
  intros Hbody Hws.
  assert (Hr : Py.rstrip (body +:+ closing (S n) +:+ ws) = body +:+ closing (S n)).
  { rewrite <- append_assoc_str, (rstrip_app_spaces _ ws Hws).
    rewrite rstrip_app_keep; rewrite (rstrip_no_space _ (closing_no_space (S n)));
      [reflexivity | discriminate]. }
  split.
  - apply endswith_strip. rewrite Hr, closing_snoc, <- append_assoc_str.
    apply endswith_app.
  - rewrite Hr, rstrip_char_app_closing. apply rstrip_char_keep. exact Hbody.
Qed.

(** X18: the preview of an entry is inserted after all that precedes the
    closing braces at the end of the entry, with a comma and a newline
    before it unless that text already ends in a comma, and is followed by
    one closing brace: however many closing braces end the entry, one is
    written back. *)
Theorem final_entry_inserts_preview_before_one_brace
  (preview_map : gmap string string) (key preview_rel body ws : string) (n : nat) :
  preview_map !! key = Some preview_rel ->
  Py.endswith "}" body = false ->
  all_chars Py.isspace ws = true ->
  FetchScholar.final_entry preview_map (body +:+ closing (S n) +:+ ws) key
  = (body
     +:+ (if Py.endswith "," (Py.strip body) then "" else "," +:+ NL)
     +:+ "  preview = {" +:+ preview_rel +:+ "}" +:+ NL +:+ "}")
    +:+ NL +:+ NL.
Proof.
  intros Hkey Hbody Hws. unfold FetchScholar.final_entry. rewrite Hkey.
  destruct (entry_body body ws n Hbody Hws) as [H1 H2]. rewrite H1, H2.
  set (sep := if Py.endswith "," (Py.strip body) then "" else "," +:+ NL).
  assert (Hsep : (if negb (Py.endswith "," (Py.strip body))
                  then body +:+ "," +:+ NL else body) = body +:+ sep).
  { unfold sep. destruct (Py.endswith "," (Py.strip body)); cbn [negb];
      [rewrite append_nil_r|]; reflexivity. }
  rewrite Hsep.
  set (x := body +:+ sep +:+ "  preview = {" +:+ preview_rel +:+ "}" +:+ NL).
  assert (Hx : (body +:+ sep) +:+ "  preview = {" +:+ preview_rel +:+ "}" +:+ NL
               +:+ "}" +:+ NL = x +:+ "}" +:+ NL).
  { unfold x. rewrite !append_assoc_str. reflexivity. }
  rewrite Hx.
  rewrite (endswith_same_length (NL +:+ NL) x ("}" +:+ NL)) by reflexivity.
  change (String.eqb ("}" +:+ NL) (NL +:+ NL)) with false. cbn [negb].
  assert (Hr : Py.rstrip (x +:+ "}" +:+ NL) = x +:+ "}").
  { rewrite <- append_assoc_str, (rstrip_app_spaces _ NL) by reflexivity.
    rewrite rstrip_app_keep; [reflexivity | discriminate]. }
  rewrite Hr. unfold x. rewrite !append_assoc_str. reflexivity.
Qed.

Lemma final_entry_inserts_preview_before_one_brace_witness :
  FetchScholar.final_entry {[ "k" := "assets/img/pub_preview/k.png" ]}
    ("@article{k, title={T" +:+ closing 2 +:+ NL) "k"
  = ("@article{k, title={T"
     +:+ (if Py.endswith "," (Py.strip "@article{k, title={T") then "" else "," +:+ NL)
     +:+ "  preview = {" +:+ "assets/img/pub_preview/k.png" +:+ "}" +:+ NL +:+ "}")
    +:+ NL +:+ NL.
Proof.
  apply (final_entry_inserts_preview_before_one_brace
           {[ "k" := "assets/img/pub_preview/k.png" ]} "k" "assets/img/pub_preview/k.png"
           "@article{k, title={T" NL 1); reflexivity.
Defined.

(** ** The loop and the run of script 2 *)

Lemma fetch_thumbnail_effect (w : world) (pub : FetchScholar.publication) (key : string)
      (s : state) :
  exists (u : option (string * string)) (s' : state),
    FetchScholar.fetch_thumbnail w pub key s = (Ok u, s')
    /\ dom (files s) ⊆ dom (files s')
    /\ (u = None
        \/ exists preview_rel, u = Some (key, preview_rel)
                               /\ preview_on_disk w (files s') key preview_rel).
Proof.
  unfold FetchScholar.fetch_thumbnail. unfold bind at 1.
  match goal with
  | |- context [opt_truthy ?page] =>
      assert (Hdisc : exists v, (if opt_truthy page
                                 then FetchScholar.discover_thumbnail_url w (default "" page)
                                 else ret None) s
                                = (Ok v, if opt_truthy page
                                         then logged s (default "" page) else s));
      [destruct (opt_truthy page);
       [apply discover_run_script2 | exists None; reflexivity]|];
      destruct Hdisc as [v Hv]; rewrite Hv;
      set (s1 := if opt_truthy page then logged s (default "" page) else s);
      assert (Hs1 : files s1 = files s) by (unfold s1; destruct (opt_truthy page); reflexivity)
  end.
  destruct (opt_truthy v);
    [|exists None, s1; split; [reflexivity|]; split; [rewrite Hs1; reflexivity | left; reflexivity]].
  cbv zeta. unfold bind.
  match goal with
  | |- context [FetchScholar.download_image w ?t ?d s1] =>
      destruct (download_effect w t d s1) as [b [s' [_ [Hd [_ [Hfiles Hok]]]]]]; rewrite Hd
  end.
  rewrite Hs1 in Hfiles, Hok.
  assert (Hsub : dom (files s) ⊆ dom (files s')).
  { destruct Hfiles as [-> | [c ->]]; [reflexivity|]. rewrite dom_insert_L. set_solver. }
  destruct b.
  - eexists _, s'. split; [reflexivity|]. split; [exact Hsub|].
    right. eexists. split; [reflexivity|]. exists (default "" v). cbv zeta.
    split; [reflexivity|]. destruct (Hok eq_refl) as [c ->].
    rewrite lookup_insert_eq. eexists; reflexivity.
  - exists None, s'. split; [reflexivity|]. split; [exact Hsub | left; reflexivity].
Qed.

Lemma preview_on_disk_later (w : world) (f f' : gmap string string) (key v : string) :
  dom f ⊆ dom f' -> preview_on_disk w f key v -> preview_on_disk w f' key v.
Proof.
  intros Hsub [thumb [Hv Hfile]]. exists thumb. split; [exact Hv|].
  apply elem_of_dom. apply Hsub. apply elem_of_dom. exact Hfile.
Qed.

Lemma process_pub_effect (sch : FetchScholar.scholar) (w : world) (thumbnails : bool)
      (position : nat) (pub : FetchScholar.publication) (s : state) :
  exists (t : Py.pyval * string * string) (u : option (string * string)) (s' : state),
    FetchScholar.process_pub sch w thumbnails position pub s = (Ok (t, u), s')
    /\ entry_of_pub sch pub t
    /\ dom (files s) ⊆ dom (files s')
    /\ (u = None
        \/ exists preview_rel, u = Some (snd t, preview_rel)
                               /\ preview_on_disk w (files s') (snd t) preview_rel)
    /\ (thumbnails = false -> s' = s /\ u = None).
Proof.
  unfold FetchScholar.process_pub. cbv zeta. unfold bind.
  set (title := default "untitled" (FetchScholar.bib_title pub)).
  set (year := FetchScholar.year_of (FetchScholar.bib_pub_year pub) (FetchScholar.bib_year pub)).
  set (bibtex := match FetchScholar.scholarly_bibtex sch pub with
                 | Ok b => b
                 | Raised => _
                 end).
  set (key := FetchScholar.parse_bibtex_key bibtex title year).
  assert (Hentry : entry_of_pub sch pub (FetchScholar.bib_entry year bibtex key)).
  { unfold entry_of_pub, FetchScholar.bib_entry. cbn [fst snd]. fold title.
    change (Py.py_or (FetchScholar.bib_pub_year pub) (FetchScholar.bib_year pub)) with year.
    split; [reflexivity|]. split; [reflexivity|].
    unfold key, bibtex. destruct (FetchScholar.scholarly_bibtex sch pub); [reflexivity|].
    destruct (fallback_entry_key_parts (FetchScholar.time_time sch position) title year
                (default "" (FetchScholar.bib_author pub))
                (default "" (FetchScholar.bib_venue pub))) as [_ Hp].
    apply Hp. }
  destruct thumbnails.
  - destruct (fetch_thumbnail_effect w pub key s) as [u [s' [Hrun [Hsub Hu]]]].
    rewrite Hrun. eexists _, u, s'. split; [reflexivity|]. split; [exact Hentry|].
    split; [exact Hsub|]. split; [exact Hu | discriminate].
  - eexists _, None, s. split; [reflexivity|]. split; [exact Hentry|].
    split; [reflexivity|]. split; [left; reflexivity | intros _; split; reflexivity].
Qed.

Lemma for_pubs_effect (sch : FetchScholar.scholar) (w : world) (thumbnails : bool)
      (pubs : list FetchScholar.publication) (position : nat)
      (bib_entries : list (Py.pyval * string * string))
      (preview_map : gmap string string) (s : state) :
  exists (added : list (Py.pyval * string * string))
         (preview_map' : gmap string string) (s' : state),
    FetchScholar.for_pubs sch w thumbnails position pubs bib_entries preview_map s
    = (Ok (bib_entries ++ added, preview_map'), s')
    /\ Forall2 (entry_of_pub sch) pubs added
    /\ dom (files s) ⊆ dom (files s')
    /\ (forall key v, preview_map' !! key = Some v ->
                      preview_map !! key = Some v
                      \/ (preview_on_disk w (files s') key v /\ key ∈ map snd added))
    /\ (thumbnails = false -> s' = s /\ preview_map' = preview_map).
Proof.
  revert position bib_entries preview_map s.
  induction pubs as [|pub rest IH]; intros position bib_entries preview_map s.
  - exists [], preview_map, s. cbn [FetchScholar.for_pubs]. rewrite app_nil_r.
    split; [reflexivity|]. split; [constructor|]. split; [reflexivity|].
    split; [intros key v H; left; exact H | intros _; split; reflexivity].
  - cbn [FetchScholar.for_pubs]. unfold bind.
    destruct (process_pub_effect sch w thumbnails position pub s)
      as [t [u [s1 [Hrun [Hentry [Hsub1 [Hu Hoff1]]]]]]].
    rewrite Hrun. cbn [fst snd].
    match goal with
    | |- context [FetchScholar.for_pubs sch w thumbnails (S position) rest ?es ?pm s1] =>
        destruct (IH (S position) es pm s1)
          as [added [pm' [s' [Hrest [Hall [Hsub2 [Hpm Hoff2]]]]]]]
    end.
    rewrite Hrest. exists (t :: added), pm', s'.
    split; [rewrite <- app_assoc; reflexivity|].
    split; [constructor; assumption|].
    split; [etrans; eassumption|].
    split.
    + intros key v Hkv. destruct (Hpm key v Hkv) as [Hold | [Hdisk Hin]].
      * destruct Hu as [-> | [p [-> Hp]]]; [left; exact Hold|].
        destruct (decide (snd t = key)) as [<- | Hne].
        -- rewrite lookup_insert_eq in Hold. injection Hold as <-. right.
           split; [apply (preview_on_disk_later w (files s1)); assumption|].
           cbn [map]. apply elem_of_cons. left. reflexivity.
        -- rewrite lookup_insert_ne in Hold by exact Hne. left. exact Hold.
      * right. split; [exact Hdisk|]. cbn [map]. apply elem_of_cons. right. exact Hin.
    + intros Hoff. destruct (Hoff1 Hoff) as [-> ->]. apply (Hoff2 Hoff).
Qed.

(** X19: the loop of script 2 never raises and appends one triple per
    fetched publication, in fetch order: the year (or [0000]), the
    service's citation entry when the export works, and the key read from
    the entry, which is the slug of [title-year] when the export raised.
    Without the thumbnails option it makes no request, writes no file and
    records no preview. *)
Theorem for_pubs_one_entry_per_publication
  (sch : FetchScholar.scholar) (w : world) (thumbnails : bool)
  (pubs : list FetchScholar.publication) (s : state) :
  exists (bib_entries : list (Py.pyval * string * string))
         (preview_map : gmap string string) (s' : state),
    FetchScholar.for_pubs sch w thumbnails 0 pubs [] ∅ s = (Ok (bib_entries, preview_map), s')
    /\ Forall2 (entry_of_pub sch) pubs bib_entries
    /\ (thumbnails = false -> s' = s /\ preview_map = ∅).
Proof.
  destruct (for_pubs_effect sch w thumbnails pubs 0 [] ∅ s)
    as [added [pm' [s' [Hrun [Hall [_ [_ Hoff]]]]]]].
  exists added, pm', s'. split; [exact Hrun|]. split; [exact Hall | exact Hoff].
Qed.

Lemma for_pubs_one_entry_per_publication_witness :
  exists (bib_entries : list (Py.pyval * string * string))
         (preview_map : gmap string string) (s' : state),
    FetchScholar.for_pubs service (web html_both doc_both 200 []) false 0 [pub_a; pub_b] [] ∅ s0
    = (Ok (bib_entries, preview_map), s')
    /\ s' = s0 /\ preview_map = ∅.
Proof.
  destruct (for_pubs_one_entry_per_publication service (web html_both doc_both 200 []) false
              [pub_a; pub_b] s0) as [es [pm [s' [Hrun [_ Hoff]]]]].
  exists es, pm, s'. split; [exact Hrun | apply Hoff; reflexivity].
Defined.

(** X20: every preview that the loop of script 2 records belongs to the
    key of an entry of the run and is the asset directory followed by the
    name of a file, named after that key, which is on disk when the loop
    ends. *)
Theorem for_pubs_previews_name_existing_files
  (sch : FetchScholar.scholar) (w : world) (thumbnails : bool)
  (pubs : list FetchScholar.publication) (s : state) :
  exists (bib_entries : list (Py.pyval * string * string))
         (preview_map : gmap string string) (s' : state),
    FetchScholar.for_pubs sch w thumbnails 0 pubs [] ∅ s = (Ok (bib_entries, preview_map), s')
    /\ dom (files s) ⊆ dom (files s')
    /\ forall key preview_rel,
         preview_map !! key = Some preview_rel ->
         preview_on_disk w (files s') key preview_rel /\ key ∈ map snd bib_entries.
Proof.
  destruct (for_pubs_effect sch w thumbnails pubs 0 [] ∅ s)
    as [added [pm' [s' [Hrun [_ [Hsub [Hpm _]]]]]]].
  exists added, pm', s'. split; [exact Hrun|]. split; [exact Hsub|].
  intros key v Hkv. destruct (Hpm key v Hkv) as [Hold | H]; [|exact H].
  rewrite lookup_empty in Hold. discriminate Hold.
Qed.

Example for_pubs_example :
  FetchScholar.for_pubs service (web html_both doc_both 200 []) true 0 [pub_a; pub_b] [] ∅ s0
  = (Ok ([(Py.PyStr "2020",
           "@article{deep-nets-2020," +:+ NL +:+ "  author = {A. Author}," +:+ NL
           +:+ "  title = {Deep Nets}," +:+ NL +:+ "  year = {2020}" +:+ NL +:+ "}",
           "deep-nets-2020");
          (Py.PyInt 2023,
           "@article{later2023," +:+ NL +:+ " title = {Later Work}" +:+ NL +:+ "}",
           "later2023")],
         {[ "deep-nets-2020" := "assets/img/pub_preview/deep-nets-2020.png" ]}),
     {| requests := ["http://p"; "http://img/og.png"];
        files := {[ "assets/img/pub_preview/deep-nets-2020.png" := "PNGDATA" ]} |}).
Proof. vm_compute. reflexivity. Qed.

(** The backup raises or returns; either way it makes no request and
    leaves the bibliography as it was. *)
Lemma backup_bib_frame (w : world) (ts : string) (s : state) :
  exists (o : outcome (option string)) (s1 : state),
    FetchScholar.backup_bib w ts s = (o, s1)
    /\ requests s1 = requests s
    /\ files s1 !! FetchScholar.BIB_PATH = files s !! FetchScholar.BIB_PATH
    /\ dom (files s) ⊆ dom (files s1)
    /\ (files s !! FetchScholar.BIB_PATH = None
        \/ can_open w (FetchScholar.backup_path ts) = true ->
        exists backup, o = Ok backup).
Proof.
  unfold FetchScholar.backup_bib, bind, FetchScholar.path_exists,
    FetchScholar.path_read_text, FetchScholar.path_write_text.
  destruct (files s !! FetchScholar.BIB_PATH) as [content|] eqn:Hfile.
  - rewrite bool_decide_eq_true_2 by (eexists; reflexivity). rewrite ?Hfile.
    destruct (can_open w (FetchScholar.backup_path ts)) eqn:Hopen.
    + eexists _, _. split; [reflexivity|]. cbn [requests files].
      split; [reflexivity|].
      split; [rewrite lookup_insert_ne by apply backup_path_is_not_the_bibliography;
              exact Hfile|].
      split; [rewrite dom_insert_L; set_solver | intros _; eexists; reflexivity].
    + exists Raised, s. split; [reflexivity|]. split; [reflexivity|].
      split; [exact Hfile|]. split; [reflexivity|].
      intros [H | H]; discriminate H.
  - rewrite bool_decide_eq_false_2 by (intros [c Hc]; discriminate Hc).
    exists (Ok None), s. split; [reflexivity|]. split; [reflexivity|].
    split; [exact Hfile|]. split; [reflexivity | intros _; eexists; reflexivity].
Qed.

(** X21: when the author cannot be resolved (the lookup raises or finds
    nobody, or the retrieval of the publication list raises), the run of
    script 2 raises without having made a request and with the
    bibliography file as it was; only the backup may have been added. *)
Theorem main_stops_when_author_is_not_resolved
  (sch : FetchScholar.scholar) (w : world) (user : string) (max_pubs : option Z)
  (thumbnails : bool) (ts : string) (s : state) :
  FetchScholar.fetch_author sch user = Raised ->
  exists s' : state,
    FetchScholar.main sch w user max_pubs thumbnails ts s = (Raised, s')
    /\ requests s' = requests s
    /\ files s' !! FetchScholar.BIB_PATH = files s !! FetchScholar.BIB_PATH
    /\ forall path, path <> FetchScholar.backup_path ts ->
                    files s' !! path = files s !! path.
Proof.
  intros Hauthor. unfold FetchScholar.main. unfold bind at 1.
  destruct (backup_bib_frame w ts s) as [o [s1 [Hrun [Hreq [Hbib _]]]]].
  assert (Hother : forall path, path <> FetchScholar.backup_path ts ->
                                files s1 !! path = files s !! path).
  { revert Hrun. unfold FetchScholar.backup_bib, bind, FetchScholar.path_exists,
      FetchScholar.path_read_text, FetchScholar.path_write_text.
    destruct (files s !! FetchScholar.BIB_PATH) as [content|] eqn:Hfile.
    - rewrite bool_decide_eq_true_2 by (eexists; reflexivity). rewrite ?Hfile.
      destruct (can_open w (FetchScholar.backup_path ts)).
      + intros H. injection H as _ <-. intros path Hpath. cbn [files].
        apply lookup_insert_ne. congruence.
      + intros H. injection H as _ <-. reflexivity.
    - rewrite bool_decide_eq_false_2 by (intros [c Hc]; discriminate Hc).
      intros H. injection H as _ <-. reflexivity. }
  rewrite Hrun. destruct o as [backup|].
  - unfold bind, lift. rewrite Hauthor. exists s1. repeat split; assumption.
  - exists s1. repeat split; assumption.
Qed.

Lemma main_stops_when_author_is_not_resolved_witness :
  exists s' : state,
    FetchScholar.main service (offline []) "nobody" None true "20240131093000"
      (disk plain_file) = (Raised, s')
    /\ requests s' = requests (disk plain_file)
    /\ files s' !! FetchScholar.BIB_PATH = files (disk plain_file) !! FetchScholar.BIB_PATH
    /\ forall path, path <> FetchScholar.backup_path "20240131093000" ->
                    files s' !! path = files (disk plain_file) !! path.
Proof.
  apply (main_stops_when_author_is_not_resolved service (offline []) "nobody" None true
           "20240131093000" (disk plain_file)).
  reflexivity.
Defined.

(** X22: when the author is resolved, the backup can be written and the
    bibliography can be opened, the run of script 2 ends normally and the
    bibliography then holds, one after the other, the final form of one
    entry per publication whose detail arrived, in the order of the
    sorter. *)
Theorem main_writes_one_entry_per_fetched_publication
  (sch : FetchScholar.scholar) (w : world) (user : string) (max_pubs : option Z)
  (thumbnails : bool) (ts : string) (s : state) (a : FetchScholar.author) :
  FetchScholar.fetch_author sch user = Ok a ->
  files s !! FetchScholar.BIB_PATH = None
  \/ can_open w (FetchScholar.backup_path ts) = true ->
  can_open w FetchScholar.BIB_PATH = true ->
  exists (bib_entries : list (Py.pyval * string * string))
         (preview_map : gmap string string) (s' : state),
    FetchScholar.main sch w user max_pubs thumbnails ts s = (Ok tt, s')
    /\ files s' !! FetchScholar.BIB_PATH
       = Some (Py.join ""
                 (FetchScholar.final_entries (FetchScholar.sort_entries bib_entries)
                    preview_map))
    /\ Forall2 (entry_of_pub sch)
         (omap (filled (FetchScholar.fill_publication sch))
            (within_limit max_pubs (default [] (FetchScholar.publications a))))
         bib_entries
    /\ length (FetchScholar.final_entries (FetchScholar.sort_entries bib_entries) preview_map)
       = length (omap (filled (FetchScholar.fill_publication sch))
                   (within_limit max_pubs (default [] (FetchScholar.publications a)))).
Proof.
  intros Hauthor Hbackup Hopen. unfold FetchScholar.main. unfold bind at 1.
  destruct (backup_bib_frame w ts s) as [o [s1 [Hrun [_ [_ [_ Hok]]]]]].
  destruct (Hok Hbackup) as [backup ->]. rewrite Hrun.
  unfold bind at 1. unfold lift. rewrite Hauthor.
  destruct (fetch_from_spec (FetchScholar.fill_publication sch) max_pubs 0
              (default [] (FetchScholar.publications a))) as [H1 H2]; [lia|].
  rewrite Z.sub_0_r in H1. fold (within_limit max_pubs (default [] (FetchScholar.publications a))) in H1.
  unfold FetchScholar.fetch_publications. rewrite H2, H1.
  set (pubs := omap (filled (FetchScholar.fill_publication sch))
                 (within_limit max_pubs (default [] (FetchScholar.publications a)))).
  unfold bind.
  destruct (for_pubs_effect sch w thumbnails pubs 0 [] ∅ s1)
    as [added [pm' [s2 [Hloop [Hall _]]]]].
  rewrite Hloop. cbn [app fst snd]. unfold FetchScholar.path_write_text. rewrite Hopen.
  eexists added, pm', _. split; [reflexivity|]. cbn [files].
  split; [apply lookup_insert_eq|]. split; [exact Hall|].
  unfold FetchScholar.final_entries. rewrite length_map.
  unfold FetchScholar.sort_entries.
  rewrite (Permutation_length (sort_by_perm FetchScholar._sort_key added)).
  symmetry. apply (Forall2_length _ _ _ Hall).
Qed.

Lemma main_writes_one_entry_per_fetched_publication_witness :
  exists (bib_entries : list (Py.pyval * string * string))
         (preview_map : gmap string string) (s' : state),
    FetchScholar.main service (web html_both doc_both 200 []) "known" (Some 5) true
      "20240131093000" (disk plain_file) = (Ok tt, s')
    /\ files s' !! FetchScholar.BIB_PATH
       = Some (Py.join ""
                 (FetchScholar.final_entries (FetchScholar.sort_entries bib_entries)
                    preview_map))
    /\ Forall2 (entry_of_pub service)
         (omap (filled (FetchScholar.fill_publication service))
            (within_limit (Some 5)
               (default [] (FetchScholar.publications
                              {| FetchScholar.publications := Some [pub_a; pub_b] |}))))
         bib_entries
    /\ length (FetchScholar.final_entries (FetchScholar.sort_entries bib_entries) preview_map)
       = length (omap (filled (FetchScholar.fill_publication service))
                   (within_limit (Some 5)
                      (default [] (FetchScholar.publications
                                     {| FetchScholar.publications := Some [pub_a; pub_b] |})))).
Proof.
  apply (main_writes_one_entry_per_fetched_publication service
           (web html_both doc_both 200 []) "known" (Some 5) true "20240131093000"
           (disk plain_file) {| FetchScholar.publications := Some [pub_a; pub_b] |}).
  - reflexivity.
  - right. reflexivity.
  - reflexivity.
Defined.

Example main_script2_example :
  files (snd (FetchScholar.main service (web html_both doc_both 200 []) "known" None true
                "20240131093000" (disk plain_file))) !! FetchScholar.BIB_PATH
  = Some ("@article{later2023," +:+ NL +:+ " title = {Later Work}" +:+ NL +:+ "}"
          +:+ NL +:+ NL
          +:+ "@article{deep-nets-2020," +:+ NL +:+ "  author = {A. Author}," +:+ NL
          +:+ "  title = {Deep Nets}," +:+ NL +:+ "  year = {2020}" +:+ NL +:+ ","
          +:+ NL +:+ "  preview = {assets/img/pub_preview/deep-nets-2020.png}" +:+ NL
          +:+ "}" +:+ NL +:+ NL).
Proof. vm_compute. reflexivity. Qed.

(** ** The extension of a thumbnail file in script 2 *)

Lemma all_chars_drop (p : ascii -> bool) (n : nat) (s : string) :
  all_chars p s = true -> all_chars p (Py.drop_chars n s) = true.
Proof.
  revert s. induction n as [|n IH]; intros s Hs; [destruct s; exact Hs|].
  destruct s as [|c s]; [exact Hs|]. cbn [Py.drop_chars]. apply IH.
  cbn [all_chars] in Hs. apply andb_true_iff in Hs as [_ Hs]. exact Hs.
Qed.

Lemma drop_chars_add (a b : nat) (s : string) :
  Py.drop_chars (a + b) s = Py.drop_chars b (Py.drop_chars a s).
Proof.
  revert s. induction a as [|a IH]; intros s; [destruct s; reflexivity|].
  destruct s as [|c s]; [destruct b; reflexivity|]. cbn [Nat.add Py.drop_chars]. apply IH.
Qed.

Lemma all_chars_take_while (p : ascii -> bool) (s : string) :
  all_chars p (FetchScholar.take_while p s) = true.
Proof.
  induction s as [|c s IH]; [reflexivity|]. cbn [FetchScholar.take_while].
  destruct (p c) eqn:Hc; [|reflexivity]. cbn [all_chars]. rewrite Hc, IH. reflexivity.
Qed.

(** What [rfind] returns: the starting value when the character does not
    occur, and otherwise the index of an occurrence after which there is
    no other. *)
Lemma rfind_from_spec (c : ascii) (s : string) (i last : Z) :
  (Py.rfind_from c i last s = last
   /\ all_chars (fun x => negb (Ascii.eqb x c)) s = true)
  \/ (i <= Py.rfind_from c i last s
      /\ exists post,
           Py.drop_chars (Z.to_nat (Py.rfind_from c i last s - i)) s = String c post
           /\ all_chars (fun x => negb (Ascii.eqb x c)) post = true).
Proof.
  revert i last. induction s as [|x s IH]; intros i last; [left; split; reflexivity|].
  cbn [Py.rfind_from].
  destruct (IH (i + 1) (if Ascii.eqb x c then i else last)) as [[Hr Hnone] | [Hle [post [Hd Hpost]]]].
  - rewrite Hr. destruct (Ascii.eqb_spec x c) as [-> | Hne].
    + right. split; [lia|]. exists s. rewrite Z.sub_diag. split; [reflexivity | exact Hnone].
    + left. split; [reflexivity|]. cbn [all_chars].
      rewrite (proj2 (Ascii.eqb_neq x c) Hne), Hnone. reflexivity.
  - right. split; [lia|]. exists post. split; [|exact Hpost].
    replace (Z.to_nat (Py.rfind_from c (i + 1) (if Ascii.eqb x c then i else last) s - i))
      with (S (Z.to_nat (Py.rfind_from c (i + 1) (if Ascii.eqb x c then i else last) s
                         - (i + 1)))) by lia.
    exact Hd.
Qed.

Lemma splitext_ext_shape (p : string) :
  Py.splitext_ext p = ""
  \/ exists post,
       Py.splitext_ext p = String "."%char post
       /\ all_chars (fun x => negb (Ascii.eqb x "."%char)) post = true
       /\ all_chars (fun x => negb (Ascii.eqb x "/"%char)) post = true
       /\ exists k, String "."%char post = Py.drop_chars k p.
Proof.
  unfold Py.splitext_ext, Py.rfind.
  destruct (Z.ltb_spec (Py.rfind_from "/" 0 (-1) p) (Py.rfind_from "." 0 (-1) p))
    as [Hlt|_]; [|left; reflexivity].
  destruct (Py.has_non_dot _); [|left; reflexivity]. right.
  destruct (rfind_from_spec "."%char p 0 (-1)) as [[Hdot _] | [Hdot [post [Hd Hpost]]]].
  - destruct (rfind_from_spec "/"%char p 0 (-1)) as [[Hsep _] | [Hsep _]]; lia.
  - rewrite Z.sub_0_r in Hd. exists post. split; [exact Hd|]. split; [exact Hpost|].
    split; [|exists (Z.to_nat (Py.rfind_from "." 0 (-1) p)); symmetry; exact Hd].
    assert (Hall : all_chars (fun x => negb (Ascii.eqb x "/"%char)) (String "."%char post) = true).
    { rewrite <- Hd.
      destruct (rfind_from_spec "/"%char p 0 (-1)) as [[_ Hnone] | [Hsep [post' [Hd' Hpost']]]].
      - apply all_chars_drop. exact Hnone.
      - rewrite Z.sub_0_r in Hd'.
        replace (Z.to_nat (Py.rfind_from "." 0 (-1) p))
          with (Z.to_nat (Py.rfind_from "/" 0 (-1) p)
                + S (Z.to_nat (Py.rfind_from "." 0 (-1) p - Py.rfind_from "/" 0 (-1) p - 1)))%nat
          by lia.
        rewrite drop_chars_add, Hd'. cbn [Py.drop_chars]. apply all_chars_drop. exact Hpost'. }
    cbn [all_chars] in Hall. apply andb_true_iff in Hall as [_ Hall]. exact Hall.
Qed.

(** X23: the extension that script 2 gives a thumbnail file is a dot
    followed by characters among which there is no slash, no question
    mark and no other dot; it is [.jpg] when the path of the URL, the
    query left out, has no extension. *)
Theorem thumb_ext_is_a_plain_extension (thumb_url : string) :
  (exists rest,
      FetchScholar.thumb_ext thumb_url = String "."%char rest
      /\ all_chars ext_char rest = true)
  /\ (Py.splitext_ext
        (FetchScholar.take_while (fun c => negb (Ascii.eqb c "?"%char)) thumb_url) = "" ->
      FetchScholar.thumb_ext thumb_url = ".jpg").
Proof.
  unfold FetchScholar.thumb_ext.
  set (p := FetchScholar.take_while (fun c => negb (Ascii.eqb c "?"%char)) thumb_url).
  split; [|intros ->; reflexivity].
  destruct (splitext_ext_shape p) as [-> | [post [-> [Hdot [Hsep [k Hk]]]]]].
  - exists "jpg". split; reflexivity.
  - exists post. cbn [String.eqb]. split; [reflexivity|].
    assert (Hq : all_chars (fun c => negb (Ascii.eqb c "?"%char)) (String "."%char post) = true).
    { rewrite Hk. apply all_chars_drop. apply all_chars_take_while. }
    cbn [all_chars] in Hq. apply andb_true_iff in Hq as [_ Hq].
    clear Hk. induction post as [|c post IH]; [reflexivity|].
    cbn [all_chars] in *.
    apply andb_true_iff in Hdot as [Hd1 Hd2]. apply andb_true_iff in Hsep as [Hs1 Hs2].
    apply andb_true_iff in Hq as [Hq1 Hq2].
    unfold ext_char at 1. rewrite Hd1, Hs1, Hq1, (IH Hd2 Hs2 Hq2). reflexivity.
Qed.

Lemma thumb_ext_is_a_plain_extension_witness :
  FetchScholar.thumb_ext "http://example.com/image?size=big.png" = ".jpg".
Proof.
  apply (thumb_ext_is_a_plain_extension "http://example.com/image?size=big.png").
  reflexivity.
Defined.

(** ** Requests *)



Lemma first_nonempty_cons (o : option string) (rest : list (option string)) :
  head (filter (fun url : string => url <> "") (omap id (o :: rest)))
  = if opt_truthy o then o
    else head (filter (fun url : string => url <> "") (omap id rest)).
Proof.
  destruct o as [x|]; [|reflexivity].
  change (omap id (Some x :: rest)) with (x :: omap id rest).
  rewrite filter_cons. cbn [opt_truthy].
  destruct (String.eqb_spec x "") as [-> | Hne]; cbn [negb].
  - destruct (decide ("" <> "")) as [H|_]; [contradiction | reflexivity].
  - destruct (decide (x <> "")) as [_|H]; [reflexivity | contradiction].
Qed.

Lemma opt_or_chain_first_link (pub : FetchScholar.publication) :
  match first_link pub with
  | Some url =>
      opt_or (opt_or (opt_or (FetchScholar.pub_url pub) (FetchScholar.eprint_url pub))
                (FetchScholar.eprint pub)) (FetchScholar.gscholar_souce pub)
      = Some url /\ url <> ""
  | None =>
      opt_truthy
        (opt_or (opt_or (opt_or (FetchScholar.pub_url pub) (FetchScholar.eprint_url pub))
                   (FetchScholar.eprint pub)) (FetchScholar.gscholar_souce pub))
      = false
  end.
Proof.
  unfold first_link. rewrite !first_nonempty_cons. unfold opt_or.
  destruct (opt_truthy (FetchScholar.pub_url pub)) eqn:Ha.
  { rewrite Ha, Ha. destruct (opt_truthy_Some _ Ha) as [x [-> Hx]]. split; [reflexivity | exact Hx]. }
  destruct (opt_truthy (FetchScholar.eprint_url pub)) eqn:Hb.
  { rewrite Hb. destruct (opt_truthy_Some _ Hb) as [x [-> Hx]]. split; [reflexivity | exact Hx]. }
  destruct (opt_truthy (FetchScholar.eprint pub)) eqn:Hc.
  { destruct (opt_truthy_Some _ Hc) as [x [-> Hx]]. split; [reflexivity | exact Hx]. }
  destruct (opt_truthy (FetchScholar.gscholar_souce pub)) eqn:Hd.
  { destruct (opt_truthy_Some _ Hd) as [x [-> Hx]]. split; [reflexivity | exact Hx]. }
  reflexivity.
Qed.

Lemma fetch_thumbnail_requests (w : world) (pub : FetchScholar.publication) (key : string)
      (s : state) :
  exists (u : option (string * string)) (s' : state),
    FetchScholar.fetch_thumbnail w pub key s = (Ok u, s')
    /\ match first_link pub with
       | Some url => exists later, requests s' = requests s ++ url :: later
                                   /\ (length later <= 1)%nat
       | None => s' = s /\ u = None
       end.
Proof.
  pose proof (opt_or_chain_first_link pub) as Hlink.
  unfold FetchScholar.fetch_thumbnail. unfold bind at 1.
  destruct (first_link pub) as [url|].
  - destruct Hlink as [-> Hne]. rewrite (opt_truthy_nonempty url Hne). cbn [default from_option id].
    destruct (discover_run_script2 w url s) as [v Hv]. rewrite Hv.
    destruct (opt_truthy v).
    + cbv zeta. unfold bind.
      match goal with
      | |- context [FetchScholar.download_image w ?t ?d ?st] =>
          destruct (download_effect w t d st) as [b [s' [_ [Hd [Hreq _]]]]]; rewrite Hd
      end.
      cbn [logged requests] in Hreq. rewrite <- app_assoc in Hreq.
      destruct b; eexists _, s'; (split; [reflexivity|]);
        eexists; (split; [exact Hreq | cbn; lia]).
    + exists None, (logged s url). split; [reflexivity|].
      exists []. split; [reflexivity | cbn; lia].
  - rewrite Hlink. exists None, s. split; [reflexivity|]. split; reflexivity.
Qed.

(** X25: for the thumbnail of a publication, script 2 asks for the page
    at the first of [pub_url], [eprint_url], [eprint] and
    [gscholar_souce] that is present and not empty, and then for at most
    one image; when there is no such link it makes no request and
    records no preview. *)
Theorem fetch_thumbnail_asks_first_link
  (w : world) (pub : FetchScholar.publication) (key : string) (s : state) :
  exists (u : option (string * string)) (s' : state),
    FetchScholar.fetch_thumbnail w pub key s = (Ok u, s')
    /\ match first_link pub with
       | Some url => exists later, requests s' = requests s ++ url :: later
                                   /\ (length later <= 1)%nat
       | None => s' = s /\ u = None
       end.
Proof. apply fetch_thumbnail_requests. Qed.

Example fetch_thumbnail_example :
  first_link pub_c = Some "http://eprint"
  /\ requests (snd (FetchScholar.fetch_thumbnail (web html_both doc_both 404 []) pub_c "k" s0))
     = ["http://eprint"; "http://img/og.png"].
Proof. vm_compute. split; reflexivity. Qed.

Lemma process_entry_requests (w : world) (entry : gmap string string) (s : state) :
  exists (e' : gmap string string) (s' : state) (l : list string),
    AddPreviews.process_entry w entry s = (Ok e', s')
    /\ requests s' = requests s ++ l /\ (length l <= 2)%nat.
Proof.
  unfold AddPreviews.process_entry.
  destruct (negb (opt_truthy (opt_or (entry !! "url") (entry !! "doi"))));
    [exists entry, s, []; rewrite app_nil_r; split; [reflexivity|]; split; [reflexivity | cbn; lia]|].
  destruct (opt_truthy (entry !! "preview"));
    [exists entry, s, []; rewrite app_nil_r; split; [reflexivity|]; split; [reflexivity | cbn; lia]|].
  unfold bind at 1.
  match goal with
  | |- context [AddPreviews.discover_thumbnail_url w ?u s] =>
      destruct (discover_run_script1 w u s) as [v Hv]; rewrite Hv
  end.
  destruct (negb (opt_truthy v));
    [eexists entry, _, [_]; split; [reflexivity|]; split; [reflexivity | cbn; lia]|].
  cbv zeta. unfold bind.
  match goal with
  | |- context [AddPreviews.download_image w ?t ?d ?st] =>
      destruct (download_effect w t d st) as [b [s' [Hd [_ [Hreq _]]]]]; rewrite Hd
  end.
  cbn [logged requests] in Hreq. rewrite <- app_assoc in Hreq.
  destruct b; eexists _, s', _; (split; [reflexivity|]); (split; [exact Hreq | cbn; lia]).
Qed.

(** X26: no request is retried: a run of the loop of script 1 over [n]
    entries, and a run of the loop of script 2 over [n] publications, adds
    at most [2 n] requests to the log (a page and an image each) and
    keeps the requests made before. *)
Theorem loops_make_at_most_two_requests_per_item
  (sch : FetchScholar.scholar) (w : world) (thumbnails : bool)
  (es : list (gmap string string)) (pubs : list FetchScholar.publication) (s : state) :
  (exists (es' : list (gmap string string)) (s' : state) (l : list string),
      AddPreviews.for_entries w es s = (Ok es', s')
      /\ requests s' = requests s ++ l
      /\ (length l <= 2 * length es)%nat)
  /\ (forall (position : nat) (bib_entries : list (Py.pyval * string * string))
             (preview_map : gmap string string),
        exists (r : list (Py.pyval * string * string) * gmap string string)
               (s' : state) (l : list string),
          FetchScholar.for_pubs sch w thumbnails position pubs bib_entries preview_map s
          = (Ok r, s')
          /\ requests s' = requests s ++ l
          /\ (length l <= 2 * length pubs)%nat).
Proof.
  split.
  - revert s. induction es as [|e rest IH]; intros s.
    + exists [], s, []. rewrite app_nil_r. split; [reflexivity|]. split; [reflexivity | cbn; lia].
    + cbn [AddPreviews.for_entries]. unfold bind.
      destruct (process_entry_requests w e s) as [e' [s1 [l1 [He [Hr1 Hl1]]]]]. rewrite He.
      destruct (IH s1) as [rest' [s2 [l2 [Hrest [Hr2 Hl2]]]]]. rewrite Hrest.
      exists (e' :: rest'), s2, (l1 ++ l2). split; [reflexivity|].
      split; [rewrite Hr2, Hr1, <- app_assoc; reflexivity|].
      rewrite length_app. cbn [length]. lia.
  - revert s. induction pubs as [|pub rest IH]; intros s position bib_entries preview_map.
    + eexists _, s, []. rewrite app_nil_r. split; [reflexivity|].
      split; [reflexivity | cbn; lia].
    + cbn [FetchScholar.for_pubs]. unfold bind.
      assert (Hturn : exists r1 s1 l1,
                 FetchScholar.process_pub sch w thumbnails position pub s = (Ok r1, s1)
                 /\ requests s1 = requests s ++ l1 /\ (length l1 <= 2)%nat).
      { unfold FetchScholar.process_pub. cbv zeta. unfold bind.
        destruct thumbnails.
        - match goal with
          | |- context [FetchScholar.fetch_thumbnail w pub ?k s] =>
              destruct (fetch_thumbnail_requests w pub k s) as [u [s1 [Hrun Hreq]]];
              rewrite Hrun
          end.
          destruct (first_link pub) as [url|].
          + destruct Hreq as [later [Hreq Hlen]].
            eexists _, s1, (url :: later). split; [reflexivity|].
            split; [exact Hreq | cbn [length]; lia].
          + destruct Hreq as [-> _]. eexists _, s, []. rewrite app_nil_r.
            split; [reflexivity|]. split; [reflexivity | cbn; lia].
        - eexists _, s, []. rewrite app_nil_r. split; [reflexivity|].
          split; [reflexivity | cbn; lia]. }
      destruct Hturn as [r1 [s1 [l1 [Hrun [Hr1 Hl1]]]]]. rewrite Hrun.
      match goal with
      | |- context [FetchScholar.for_pubs sch w thumbnails (S position) rest ?es ?pm s1] =>
          destruct (IH s1 (S position) es pm) as [r [s2 [l2 [Hrest [Hr2 Hl2]]]]]
      end.
      rewrite Hrest. exists r, s2, (l1 ++ l2). split; [reflexivity|].
      split; [rewrite Hr2, Hr1, <- app_assoc; reflexivity|].
      rewrite length_app. cbn [length]. lia.
Qed.
